(** * Notifications: quota-checked publishing and acknowledging consumers

    A shallow embedding of the messaging core of the repository

      - [app/services/dropbox_manager.py]   (the Metadata Store / Audit Sink),
      - [app/services/amqp_manager.py]      (broker topology and publishing),
      - [app/services/message_publisher.py] (quota, archive, publish),
      - [app/services/message_consumer.py]  (dispatch, ack / nack),

    together with the properties its specification states about them.

    Python values that travel through JSON are modelled by the type [json];
    the two external services (Dropbox and the pika channel) are modelled by
    a world that holds the stored documents and the trace of every call made
    to them.  Whether a given call succeeds is decided by an oracle of the
    environment, so every theorem below holds for every pattern of outages. *)

From stdpp Require Import gmap strings list.
From Stdlib Require Import ZArith Lia Ascii.

Local Open Scope Z_scope.

(** ** JSON documents and the Python operations used on them *)

(** What [json.loads] returns.  Numbers are the integers: the quota fields
    this code writes are always [int]; [null] is Python's [None]. *)
#[warnings="-register-all"]
Inductive json : Type :=
| JNull
| JBool (b : bool)
| JInt (n : Z)
| JStr (s : string)
| JList (l : list json)
| JDict (kv : list (string * json)).

(** The exception classes that can arise in the modelled code. *)
Inductive exn : Type :=
| MessageLimitExceededException (client_id : json)
| AttributeError
| TypeError
| KeyError (key : string)
| ValueError
| ValidationError
| UnicodeDecodeError
| JSONDecodeError
| NotConnected
| ApiError
| AMQPError.

Inductive result (A : Type) : Type :=
| Ok (a : A)
| Raise (e : exn).
Arguments Ok {A} a.
Arguments Raise {A} e.

(** [bool(v)]: what [if v] and [if not v] test. *)
Definition truthy (v : json) : bool :=
  match v with
  | JNull => false
  | JBool b => b
  | JInt n => negb (n =? 0)
  | JStr s => negb (String.eqb s "")
  | JList l => match l with [] => false | _ => true end
  | JDict kv => match kv with [] => false | _ => true end
  end.

(** [a or b]. *)
Definition py_or (a b : json) : json := if truthy a then a else b.

(** Lookup in a [dict]: the first binding of the key. *)
Fixpoint dict_get (k : string) (kv : list (string * json)) : option json :=
  match kv with
  | [] => None
  | (k', v) :: rest => if String.eqb k k' then Some v else dict_get k rest
  end.

(** [d[k] = v]: an existing key keeps its place, a new key goes last. *)
Fixpoint dict_set (k : string) (v : json) (kv : list (string * json))
  : list (string * json) :=
  match kv with
  | [] => [(k, v)]
  | (k', v') :: rest =>
      if String.eqb k k' then (k', v) :: rest else (k', v') :: dict_set k v rest
  end.

(** [d.get(k, default)] for a [dict] [d]. *)
Definition dict_get_or (k : string) (default : json) (kv : list (string * json))
  : json :=
  match dict_get k kv with
  | Some v => v
  | None => default
  end.

(** [obj.get(k, default)]: only a [dict] has the method. *)
Definition py_get (obj : json) (k : string) (default : json) : result json :=
  match obj with
  | JDict kv => Ok (dict_get_or k default kv)
  | _ => Raise AttributeError
  end.

(** [obj[k]] with a string key. *)
Definition py_getitem (obj : json) (k : string) : result json :=
  match obj with
  | JDict kv => match dict_get k kv with Some v => Ok v | None => Raise (KeyError k) end
  | _ => Raise TypeError
  end.

(** [obj[k] = v] with a string key. *)
Definition py_setitem (obj : json) (k : string) (v : json) : result json :=
  match obj with
  | JDict kv => Ok (JDict (dict_set k v kv))
  | _ => Raise TypeError
  end.

(** [v == s] for a string [s]. *)
Definition py_eq_str (v : json) (s : string) : bool :=
  match v with
  | JStr s' => String.eqb s' s
  | _ => false
  end.

(** [v < n] for an integer [n]; [bool] is a subclass of [int]. *)
Definition py_lt_int (v : json) (n : Z) : result bool :=
  match v with
  | JInt c => Ok (c <? n)
  | JBool b => Ok (Z.b2z b <? n)
  | _ => Raise TypeError
  end.

(** [v + n] for an integer [n]. *)
Definition py_add_int (v : json) (n : Z) : result json :=
  match v with
  | JInt c => Ok (JInt (c + n))
  | JBool b => Ok (JInt (Z.b2z b + n))
  | _ => Raise TypeError
  end.

(** [n - v] for an integer [n]. *)
Definition py_rsub_int (n : Z) (v : json) : result Z :=
  match v with
  | JInt c => Ok (n - c)
  | JBool b => Ok (n - Z.b2z b)
  | _ => Raise TypeError
  end.

(** [s.replace(old, new)] for a one-character [old]. *)
Fixpoint str_replace (old : Ascii.ascii) (new : string) (s : string) : string :=
  match s with
  | EmptyString => EmptyString
  | String a rest =>
      if Ascii.eqb a old
      then new +:+ str_replace old new rest
      else String a (str_replace old new rest)
  end.

(** [s.startswith(prefix)]. *)
Definition startswith (s prefix : string) : bool :=
  String.eqb (String.substring 0 (String.length prefix) s) prefix.

(** ** [app/models.py] *)

Inductive MessageType : Type :=
| DOCUMENT_REQUEST
| CLAIM_UPDATE
| PAYMENT_REMINDER
| ENROLLMENT_NOTIFICATION
| BENEFICIARY_UPDATE
| SYSTEM_ALERT.

(** [message_type.value]. *)
Definition MessageType_value (t : MessageType) : string :=
  match t with
  | DOCUMENT_REQUEST => "document_request"
  | CLAIM_UPDATE => "claim_update"
  | PAYMENT_REMINDER => "payment_reminder"
  | ENROLLMENT_NOTIFICATION => "enrollment_notification"
  | BENEFICIARY_UPDATE => "beneficiary_update"
  | SYSTEM_ALERT => "system_alert"
  end.

(** [MessageType(v)]: lookup by value, [ValueError] when there is none. *)
Definition MessageType_of (v : json) : result MessageType :=
  if py_eq_str v "document_request" then Ok DOCUMENT_REQUEST
  else if py_eq_str v "claim_update" then Ok CLAIM_UPDATE
  else if py_eq_str v "payment_reminder" then Ok PAYMENT_REMINDER
  else if py_eq_str v "enrollment_notification" then Ok ENROLLMENT_NOTIFICATION
  else if py_eq_str v "beneficiary_update" then Ok BENEFICIARY_UPDATE
  else if py_eq_str v "system_alert" then Ok SYSTEM_ALERT
  else Raise ValueError.

(** A validated [MessageCreate]. *)
Record MessageCreate : Type := {
  mc_client_id : json;
  mc_message_type : MessageType;
  mc_content : json;
  mc_attachments : json;
  mc_metadata : json
}.

(** ** The two external services *)

Inductive ExchangeType : Type := direct | topic.

(** [pika.BasicProperties] as [publish_message] fills them. *)
Record BasicProperties : Type := {
  delivery_mode : Z;
  priority : Z;
  timestamp : Z;
  message_id : string;
  content_type : string
}.

(** A call to the Dropbox client or to the pika channel. *)
Inductive call : Type :=
| files_upload (path : string) (data : json)
| files_download (path : string)
| exchange_declare (exchange : string) (exchange_type : ExchangeType) (durable : bool)
| queue_declare (queue : string) (durable : bool)
    (arguments : option (list (string * json)))
| queue_bind (exchange queue : string) (routing_key : json)
| basic_publish (exchange : string) (routing_key : json) (body : json)
    (properties : BasicProperties)
| basic_ack (delivery_tag : Z)
| basic_nack (delivery_tag : Z) (requeue : bool).

(** The world the services live in.  [files] is the content of the Dropbox
    account, keyed by path; [channel] tells whether [self.channel] is set;
    [trace] lists the calls made so far, oldest first, each with whether it
    went through; [clock] counts every interaction with the environment. *)
Record World : Type := {
  files : gmap string json;
  channel : bool;
  trace : list (call * bool);
  clock : nat
}.

(** What the code does not decide: the settings, the rendering [str(v)] of a
    value that is not a string, pydantic's validation of a [MessageCreate],
    and, for each moment of [clock], whether Dropbox and the broker answer,
    what the clocks read and which UUID is drawn. *)
Record Env : Type := {
  daily_message_limit : Z;
  py_str : json -> string;
  validate : json -> MessageType -> json -> json -> json -> option MessageCreate;
  dropbox_up : nat -> bool;
  channel_up : nat -> bool;
  utcnow_isoformat : nat -> string;
  utcnow_timestamp : nat -> Z;
  today_isoformat : nat -> string;
  uuid4 : nat -> string
}.

(** ** Computations: state passing with exceptions *)

Definition Py (A : Type) : Type := World -> result A * World.

Definition ret {A} (a : A) : Py A := fun w => (Ok a, w).

Definition raise {A} (e : exn) : Py A := fun w => (Raise e, w).

Definition bind {A B} (c : Py A) (k : A -> Py B) : Py B :=
  fun w => match c w with
           | (Ok a, w') => k a w'
           | (Raise e, w') => (Raise e, w')
           end.

(** [try: c  except Exception as e: h e].  What [c] did to the world before
    it raised stays done. *)
Definition try_except {A} (c : Py A) (h : exn -> Py A) : Py A :=
  fun w => match c w with
           | (Ok a, w') => (Ok a, w')
           | (Raise e, w') => h e w'
           end.

Definition lift {A} (r : result A) : Py A := fun w => (r, w).

Declare Scope py_scope.
Delimit Scope py_scope with py.
Notation "x <- c ;; k" := (bind c (fun x => k))
  (at level 100, c at next level, right associativity) : py_scope.
Notation "c ;;; k" := (bind c (fun _ => k))
  (at level 100, right associativity) : py_scope.

(** The world after one more interaction with the environment. *)
Definition tick (w : World) : World :=
  {| files := files w; channel := channel w; trace := trace w;
     clock := S (clock w) |}.

(** The world after a call to a service has been made. *)
Definition logged (c : call) (ok : bool) (w : World) : World :=
  {| files := files w; channel := channel w;
     trace := trace w ++ [(c, ok)]; clock := S (clock w) |}.

(** The world after Dropbox has stored a document. *)
Definition stored (path : string) (data : json) (w : World) : World :=
  {| files := <[path := data]> (files w); channel := channel w;
     trace := trace w; clock := clock w |}.

Section Services.

Variable E : Env.

(** [f"{v}"]: a string is inserted as it is, any other value through
    [str]. *)
Definition fstr (v : json) : string :=
  match v with
  | JStr s => s
  | _ => py_str E v
  end.

(** [str(uuid4())]. *)
Definition new_uuid : Py string :=
  fun w => (Ok (uuid4 E (clock w)), tick w).

(** [datetime.utcnow().isoformat()]. *)
Definition utcnow : Py string :=
  fun w => (Ok (utcnow_isoformat E (clock w)), tick w).

(** [int(datetime.utcnow().timestamp())]. *)
Definition utcnow_unix : Py Z :=
  fun w => (Ok (utcnow_timestamp E (clock w)), tick w).

(** [date.today().isoformat()]. *)
Definition today : Py string :=
  fun w => (Ok (today_isoformat E (clock w)), tick w).

(** [self.dbx.files_upload(..., path, mode=WriteMode('overwrite'))]. *)
Definition dbx_files_upload (path : string) (data : json) : Py unit :=
  fun w =>
    if dropbox_up E (clock w)
    then (Ok tt, stored path data (logged (files_upload path data) true w))
    else (Raise ApiError, logged (files_upload path data) false w).

(** [self.dbx.files_download(path)] followed by [json.loads]. *)
Definition dbx_files_download (path : string) : Py json :=
  fun w =>
    if dropbox_up E (clock w)
    then match files w !! path with
         | Some j => (Ok j, logged (files_download path) true w)
         | None => (Raise ApiError, logged (files_download path) false w)
         end
    else (Raise ApiError, logged (files_download path) false w).

(** A method of [self.channel]; [AttributeError] when the channel is [None]. *)
Definition channel_call (c : call) : Py unit :=
  fun w =>
    if channel w
    then if channel_up E (clock w)
         then (Ok tt, logged c true w)
         else (Raise AMQPError, logged c false w)
    else (Raise AttributeError, w).

End Services.

(** ** [app/services/dropbox_manager.py] *)

Module DropboxManager.
Section DropboxManager.

Variable E : Env.

Definition upload_json (path : string) (data : json) : Py bool :=
  try_except
    (dbx_files_upload E path data ;;; ret true)%py
    (fun _ => ret false).

Definition download_json (path : string) : Py json :=
  try_except
    (dbx_files_download E path)
    (fun _ => ret JNull).

Definition metadata_path (client_id : json) : string :=
  "/clients/" +:+ fstr E client_id +:+ "/metadata.json".

Definition get_client_metadata (client_id : json) : Py json :=
  try_except
    (download_json (metadata_path client_id))
    (fun _ => ret JNull).

Definition update_client_metadata (client_id : json) (metadata : json) : Py bool :=
  try_except
    (upload_json (metadata_path client_id) metadata)
    (fun _ => ret false).

Definition archive_message (client_id message_id : json) (message_data : json)
  : Py bool :=
  try_except
    (upload_json
       ("/clients/" +:+ fstr E client_id +:+ "/messages/" +:+ fstr E message_id
          +:+ ".json")
       message_data)
    (fun _ => ret false).

End DropboxManager.
End DropboxManager.

(** *** File uploads

    [upload_file] and its two helpers talk to other endpoints of Dropbox
    than the JSON documents above; they are modelled on their own, with the
    list of the calls they make. *)

Inductive upload_call : Type :=
| files_upload_bytes (data : list Byte.byte) (path : string)
| files_upload_session_start (data : list Byte.byte)
| files_upload_session_append_v2 (data : list Byte.byte)
    (session_id : string) (offset : nat)
| files_upload_session_finish (data : list Byte.byte)
    (session_id : string) (offset : nat) (commit_path : string).

(** [self.chunk_size] (4 MiB as [__init__] sets it), and for the call made
    after [n] others whether Dropbox accepts it and the session id it
    hands out. *)
Record UploadEnv : Type := {
  chunk_size : nat;
  accepts : nat -> bool;
  session_id_at : nat -> string
}.

Module DropboxUpload.
Section DropboxUpload.

Variable U : UploadEnv.

Definition Calls : Type := list (upload_call * bool).

(** One call to the client: it is recorded with its outcome; a refused
    call raises. *)
Definition api (c : upload_call) (t : Calls) : bool * Calls :=
  let ok := accepts U (length t) in (ok, t ++ [(c, ok)]).

Definition _upload_small_file (file_data : list Byte.byte) (path : string)
    (t : Calls) : bool * Calls :=
  api (files_upload_bytes file_data path) t.

(** The [while] loop of [_upload_large_file]; [cursor] is [cursor.offset].
    A turn of the loop costs one unit of [fuel], and [None] stands for a
    loop that has not ended when the fuel is spent. *)
Fixpoint upload_session_loop (fuel : nat) (file_data : list Byte.byte)
    (path session_id : string) (offset cursor : nat) (t : Calls)
  : option bool * Calls :=
  if (offset <? length file_data)%nat then
    match fuel with
    | O => (None, t)
    | S fuel =>
        let size := Nat.min (chunk_size U) (length file_data - offset) in
        let chunk := take size (drop offset file_data) in
        if (length file_data <=? offset + size)%nat then
          let (ok, t) :=
            api (files_upload_session_finish chunk session_id cursor path) t in
          if ok
          then upload_session_loop fuel file_data path session_id
                 (offset + size) cursor t
          else (Some false, t)
        else
          let (ok, t) :=
            api (files_upload_session_append_v2 chunk session_id cursor) t in
          if ok
          then upload_session_loop fuel file_data path session_id
                 (offset + size) (cursor + length chunk) t
          else (Some false, t)
    end
  else (Some true, t).

Definition _upload_large_file (fuel : nat) (file_data : list Byte.byte)
    (path : string) (t : Calls) : option bool * Calls :=
  let first := take (chunk_size U) file_data in
  let session_id := session_id_at U (length t) in
  let (ok, t) := api (files_upload_session_start first) t in
  if ok
  then upload_session_loop fuel file_data path session_id
         (chunk_size U) (length first) t
  else (Some false, t).

Definition upload_file (fuel : nat) (file_data : list Byte.byte)
    (path filename : string) (t : Calls) : option bool * Calls :=
  let full_path := path +:+ "/" +:+ filename in
  if (chunk_size U <? length file_data)%nat
  then _upload_large_file fuel file_data full_path t
  else let (ok, t) := _upload_small_file file_data full_path t in (Some ok, t).

End DropboxUpload.
End DropboxUpload.

(** ** [app/services/amqp_manager.py] *)

Module AMQPManager.
Section AMQPManager.

Variable E : Env.

(** [if not self.channel: raise Exception("Not connected to RabbitMQ")]. *)
Definition require_channel : Py unit :=
  fun w => if channel w then (Ok tt, w) else (Raise NotConnected, w).

Definition setup_infrastructure : Py unit :=
  try_except
    (channel_call E (exchange_declare "insurance.direct" direct true) ;;;
     channel_call E (exchange_declare "insurance.workflow" topic true) ;;;
     channel_call E (exchange_declare "insurance.dlx" direct true))%py
    (fun e => raise e).

(** The arguments of the queue [client.<id>]. *)
Definition client_queue_arguments (client_id : json) (limit : Z)
  : list (string * json) :=
  [ ("x-message-ttl", JInt 86400000);
    ("x-max-length", JInt limit);
    ("x-overflow", JStr "reject-publish");
    ("x-dead-letter-exchange", JStr "insurance.dlx");
    ("x-dead-letter-routing-key", JStr ("failed." +:+ fstr E client_id)) ].

(** [message_limit or self.daily_message_limit]. *)
Definition effective_limit (message_limit : option Z) : Z :=
  match message_limit with
  | Some n => if n =? 0 then daily_message_limit E else n
  | None => daily_message_limit E
  end.

Definition create_client_queue (client_id : json) (message_limit : option Z)
  : Py bool :=
  try_except
    (require_channel ;;;
     let limit := effective_limit message_limit in
     let arguments := client_queue_arguments client_id limit in
     channel_call E
       (queue_declare ("client." +:+ fstr E client_id) true (Some arguments)) ;;;
     channel_call E
       (queue_bind "insurance.direct" ("client." +:+ fstr E client_id) client_id) ;;;
     channel_call E
       (queue_declare ("failed." +:+ fstr E client_id) true None) ;;;
     channel_call E
       (queue_bind "insurance.dlx" ("failed." +:+ fstr E client_id)
          (JStr ("failed." +:+ fstr E client_id))) ;;;
     ret true)%py
    (fun _ => ret false).

Definition publish_message (exchange : string) (routing_key : json)
    (message : json) (priority : Z) : Py bool :=
  try_except
    (require_channel ;;;
     ts <- utcnow_unix E ;;
     id <- lift (py_get message "id" (JStr "")) ;;
     let properties :=
       {| delivery_mode := 2; priority := priority; timestamp := ts;
          message_id := fstr E id; content_type := "application/json" |} in
     channel_call E (basic_publish exchange routing_key message properties) ;;;
     ret true)%py
    (fun _ => ret false).

Definition publish_client_message (client_id : json) (message : json) : Py bool :=
  publish_message "insurance.direct" client_id message 0.

Definition publish_workflow_message (routing_key : json) (message : json) : Py bool :=
  publish_message "insurance.workflow" routing_key message 0.

Definition workflow_queues : list string :=
  [ "enrollment.requests"; "enrollment.completed";
    "claims.submitted"; "claims.processed";
    "payments.due"; "payments.completed" ].

(** The loop of [setup_workflow_queues]. *)
Fixpoint declare_workflow_queues (queues : list string) : Py unit :=
  match queues with
  | [] => ret tt
  | queue :: rest =>
      (channel_call E (queue_declare queue true None) ;;;
       let routing_key := str_replace "."%char "." queue in
       channel_call E (queue_bind "insurance.workflow" queue (JStr routing_key)) ;;;
       declare_workflow_queues rest)%py
  end.

Definition setup_workflow_queues : Py bool :=
  try_except
    (declare_workflow_queues workflow_queues ;;; ret true)%py
    (fun _ => ret false).

End AMQPManager.
End AMQPManager.

(** ** [app/services/message_publisher.py] *)

(** The three buckets [send_bulk_messages] returns.  An entry of [failed] or
    [limit_exceeded] is the pair of its ['client_id'] and its ['error']. *)
Inductive ErrorText : Type :=
| Literal (s : string)
| StrOf (e : exn).

Record BulkResults : Type := {
  successful : list json;
  failed : list (json * ErrorText);
  limit_exceeded : list (json * ErrorText)
}.

Module MessagePublisher.
Section MessagePublisher.

Variable E : Env.

Import DropboxManager AMQPManager.

Definition check_message_limit (client_id : json) : Py bool :=
  try_except
    (metadata <- get_client_metadata E client_id ;;
     if negb (truthy metadata) then ret false else
     today <- today E ;;
     last_reset <- lift (py_get metadata "last_reset" JNull) ;;
     metadata <-
       (if negb (py_eq_str last_reset today) then
          metadata <- lift (py_setitem metadata "message_count_today" (JInt 0)) ;;
          metadata <- lift (py_setitem metadata "last_reset" (JStr today)) ;;
          update_client_metadata E client_id metadata ;;;
          ret metadata
        else ret metadata) ;;
     current_count <- lift (py_get metadata "message_count_today" (JInt 0)) ;;
     lift (py_lt_int current_count (daily_message_limit E)))%py
    (fun _ => ret false).

Definition increment_message_counter (client_id : json) : Py bool :=
  try_except
    (metadata <- get_client_metadata E client_id ;;
     if negb (truthy metadata) then ret false else
     count <- lift (py_get metadata "message_count_today" (JInt 0)) ;;
     count <- lift (py_add_int count 1) ;;
     metadata <- lift (py_setitem metadata "message_count_today" count) ;;
     now <- utcnow E ;;
     metadata <- lift (py_setitem metadata "last_message_sent" (JStr now)) ;;
     update_client_metadata E client_id metadata)%py
    (fun _ => ret false).

(** [f"/clients/{client_id}/messages/{id}.json"]. *)
Definition archive_path (client_id id : json) : string :=
  "/clients/" +:+ fstr E client_id +:+ "/messages/" +:+ fstr E id +:+ ".json".

(** The dictionary a successful send returns. *)
Definition sent_receipt (key : string) (message_id target timestamp : json) : json :=
  JDict [ ("message_id", message_id); (key, target);
          ("status", JStr "sent"); ("timestamp", timestamp) ].

Definition send_client_message (client_id : json) (message_data : MessageCreate)
  : Py json :=
  try_except
    (allowed <- check_message_limit client_id ;;
     if negb allowed then raise (MessageLimitExceededException client_id) else
     id <- new_uuid E ;;
     now <- utcnow E ;;
     let message := JDict
       [ ("id", JStr id);
         ("type", JStr (MessageType_value (mc_message_type message_data)));
         ("content", mc_content message_data);
         ("timestamp", JStr now);
         ("client_id", client_id);
         ("attachments", py_or (mc_attachments message_data) (JList []));
         ("metadata", py_or (mc_metadata message_data) (JDict [])) ] in
     archived <- upload_json E (archive_path client_id (JStr id)) message ;;
     if negb archived then ret JNull else
     published <- publish_client_message E client_id message ;;
     if negb published then ret JNull else
     increment_message_counter client_id ;;;
     ret (sent_receipt "client_id" (JStr id) client_id (JStr now)))%py
    (fun e => match e with
              | MessageLimitExceededException _ => raise e
              | _ => ret JNull
              end).

(** [f"/workflow/messages/{id}.json"]. *)
Definition workflow_archive_path (id : json) : string :=
  "/workflow/messages/" +:+ fstr E id +:+ ".json".

Definition send_workflow_message (routing_key message_type content metadata : json)
  : Py json :=
  try_except
    (id <- new_uuid E ;;
     now <- utcnow E ;;
     let message := JDict
       [ ("id", JStr id);
         ("type", message_type);
         ("content", content);
         ("timestamp", JStr now);
         ("routing_key", routing_key);
         ("metadata", py_or metadata (JDict [])) ] in
     archived <- upload_json E (workflow_archive_path (JStr id)) message ;;
     if negb archived then ret JNull else
     published <- publish_workflow_message E routing_key message ;;
     if negb published then ret JNull else
     ret (sent_receipt "routing_key" (JStr id) routing_key (JStr now)))%py
    (fun _ => ret JNull).

(** [results[...].append(...)]. *)
Definition add_successful (r : json) (results : BulkResults) : BulkResults :=
  {| successful := successful results ++ [r]; failed := failed results;
     limit_exceeded := limit_exceeded results |}.

Definition add_failed (client_id : json) (error : ErrorText) (results : BulkResults)
  : BulkResults :=
  {| successful := successful results;
     failed := failed results ++ [(client_id, error)];
     limit_exceeded := limit_exceeded results |}.

Definition add_limit_exceeded (client_id : json) (error : ErrorText)
    (results : BulkResults) : BulkResults :=
  {| successful := successful results; failed := failed results;
     limit_exceeded := limit_exceeded results ++ [(client_id, error)] |}.

(** [MessageCreate(client_id=..., message_type=MessageType(message_data['type']),
    content=message_data['content'], attachments=message_data.get(...),
    metadata=message_data.get(...))]. *)
Definition new_MessageCreate (client_id : json) (message_data : json)
  : result MessageCreate :=
  match py_getitem message_data "type" with
  | Raise e => Raise e
  | Ok type =>
  match MessageType_of type with
  | Raise e => Raise e
  | Ok message_type =>
  match py_getitem message_data "content" with
  | Raise e => Raise e
  | Ok content =>
  match py_get message_data "attachments" (JList []) with
  | Raise e => Raise e
  | Ok attachments =>
  match py_get message_data "metadata" (JDict []) with
  | Raise e => Raise e
  | Ok metadata =>
  match validate E client_id message_type content attachments metadata with
  | Some message => Ok message
  | None => Raise ValidationError
  end end end end end end.

(** The body of the loop of [send_bulk_messages], for one [message_data]. *)
Definition send_bulk_step (message_data : list (string * json))
    (results : BulkResults) : Py BulkResults :=
  try_except
    (client_id <- lift (py_getitem (JDict message_data) "client_id") ;;
     allowed <- check_message_limit client_id ;;
     if negb allowed
     then ret (add_limit_exceeded client_id (Literal "Daily limit exceeded") results)
     else
       message <- lift (new_MessageCreate client_id (JDict message_data)) ;;
       result <- send_client_message client_id message ;;
       if truthy result
       then ret (add_successful result results)
       else ret (add_failed client_id (Literal "Failed to send message") results))%py
    (fun e =>
       ret (add_failed
              (dict_get_or "client_id" (JStr "unknown") message_data)
              (StrOf e) results)).

Fixpoint send_bulk_loop (messages : list (list (string * json)))
    (results : BulkResults) : Py BulkResults :=
  match messages with
  | [] => ret results
  | message_data :: rest =>
      (results <- send_bulk_step message_data results ;;
       send_bulk_loop rest results)%py
  end.

Definition send_bulk_messages (messages : list (list (string * json)))
  : Py BulkResults :=
  send_bulk_loop messages
    {| successful := []; failed := []; limit_exceeded := [] |}.

Definition send_notification (client_id notification_type content priority : json)
  : Py json :=
  try_except
    (id <- new_uuid E ;;
     now <- utcnow E ;;
     let message := JDict
       [ ("id", JStr id);
         ("type", JStr "system_alert");
         ("content", content);
         ("timestamp", JStr now);
         ("client_id", client_id);
         ("notification_type", notification_type);
         ("priority", priority);
         ("metadata", JDict []) ] in
     upload_json E (archive_path client_id (JStr id)) message ;;;
     published <- publish_client_message E client_id message ;;
     if negb published then ret JNull else
     ret (sent_receipt "client_id" (JStr id) client_id (JStr now)))%py
    (fun _ => ret JNull).

Definition resend_failed_message (message_id client_id : json) : Py bool :=
  try_except
    (message <- download_json E (archive_path client_id message_id) ;;
     if negb (truthy message) then ret false else
     now <- utcnow E ;;
     message <- lift (py_setitem message "timestamp" (JStr now)) ;;
     retry_count <- lift (py_get message "retry_count" (JInt 0)) ;;
     retry_count <- lift (py_add_int retry_count 1) ;;
     message <- lift (py_setitem message "retry_count" retry_count) ;;
     upload_json E (archive_path client_id message_id) message ;;;
     publish_client_message E client_id message)%py
    (fun _ => ret false).

Definition get_message_stats (client_id : json) : Py json :=
  try_except
    (metadata <- get_client_metadata E client_id ;;
     if negb (truthy metadata) then ret JNull else
     messages_today <- lift (py_get metadata "message_count_today" (JInt 0)) ;;
     last_reset <- lift (py_get metadata "last_reset" JNull) ;;
     last_message_sent <- lift (py_get metadata "last_message_sent" JNull) ;;
     count <- lift (py_get metadata "message_count_today" (JInt 0)) ;;
     remaining <- lift (py_rsub_int (daily_message_limit E) count) ;;
     ret (JDict
            [ ("client_id", client_id);
              ("messages_today", messages_today);
              ("daily_limit", JInt (daily_message_limit E));
              ("last_reset", last_reset);
              ("last_message_sent", last_message_sent);
              ("remaining_messages", JInt (Z.max 0 remaining)) ]))%py
    (fun _ => ret JNull).

End MessagePublisher.
End MessagePublisher.

(** ** [app/services/message_consumer.py] *)

(** A delivered body, by what [json.loads(body.decode('utf-8'))] makes of
    it: bytes that are not UTF-8, text that is not JSON, or a document. *)
Inductive Body : Type :=
| NotUtf8
| NotJson
| Json (document : json).

(** [pika.spec.Basic.Deliver]. *)
Record Deliver : Type := {
  delivery_tag : Z;
  routing_key : string
}.

Module MessageConsumer.
Section MessageConsumer.

Variable E : Env.

Import DropboxManager.

(** [json.loads(body.decode('utf-8'))]. *)
Definition loads (body : Body) : result json :=
  match body with
  | NotUtf8 => Raise UnicodeDecodeError
  | NotJson => Raise JSONDecodeError
  | Json document => Ok document
  end.

(** The five handlers that differ only by the name of their action. *)
Definition handle_kind (kind : string) (message : json) : Py unit :=
  try_except
    (client_id <- lift (py_getitem message "client_id") ;;
     content <- lift (py_getitem message "content") ;;
     message_id <- lift (py_getitem message "id") ;;
     now <- utcnow E ;;
     let audit_log := JDict
       [ ("action", JStr (kind +:+ "_processed"));
         ("client_id", client_id);
         ("message_id", message_id);
         ("timestamp", JStr now);
         ("content", content) ] in
     message_id <- lift (py_getitem message "id") ;;
     upload_json E
       ("/clients/" +:+ fstr E client_id +:+ "/audit/" +:+ kind +:+ "_"
          +:+ fstr E message_id +:+ ".json")
       audit_log ;;;
     ret tt)%py
    (fun _ => ret tt).

Definition handle_document_request : json -> Py unit :=
  handle_kind "document_request".

Definition handle_claim_update : json -> Py unit :=
  handle_kind "claim_update".

Definition handle_payment_reminder : json -> Py unit :=
  handle_kind "payment_reminder".

Definition handle_enrollment_notification : json -> Py unit :=
  handle_kind "enrollment_notification".

Definition handle_beneficiary_update : json -> Py unit :=
  handle_kind "beneficiary_update".

Definition handle_system_alert (message : json) : Py unit :=
  try_except
    (client_id <- lift (py_getitem message "client_id") ;;
     content <- lift (py_getitem message "content") ;;
     notification_type <- lift (py_get message "notification_type" (JStr "general")) ;;
     message_id <- lift (py_getitem message "id") ;;
     now <- utcnow E ;;
     let audit_log := JDict
       [ ("action", JStr "system_alert_processed");
         ("client_id", client_id);
         ("message_id", message_id);
         ("notification_type", notification_type);
         ("timestamp", JStr now);
         ("content", content) ] in
     message_id <- lift (py_getitem message "id") ;;
     upload_json E
       ("/clients/" +:+ fstr E client_id +:+ "/audit/system_alert_"
          +:+ fstr E message_id +:+ ".json")
       audit_log ;;;
     ret tt)%py
    (fun _ => ret tt).

(** The chain of comparisons on [message.get('type')]. *)
Definition dispatch (message_type : json) (message : json) : Py unit :=
  if py_eq_str message_type "document_request" then handle_document_request message
  else if py_eq_str message_type "claim_update" then handle_claim_update message
  else if py_eq_str message_type "payment_reminder" then handle_payment_reminder message
  else if py_eq_str message_type "enrollment_notification"
       then handle_enrollment_notification message
  else if py_eq_str message_type "beneficiary_update"
       then handle_beneficiary_update message
  else if py_eq_str message_type "system_alert" then handle_system_alert message
  else ret tt.

Definition process_message (method : Deliver) (body : Body) : Py unit :=
  try_except
    (message <- lift (loads body) ;;
     client_id <- lift (py_get message "client_id" JNull) ;;
     message_id <- lift (py_get message "id" JNull) ;;
     message_type <- lift (py_get message "type" JNull) ;;
     dispatch message_type message ;;;
     now <- utcnow E ;;
     let confirmation := JDict
       [ ("message_id", message_id);
         ("client_id", client_id);
         ("processed", JStr now);
         ("status", JStr "delivered");
         ("message_type", message_type) ] in
     upload_json E
       ("/clients/" +:+ fstr E client_id +:+ "/audit/delivery-"
          +:+ fstr E message_id +:+ ".json")
       confirmation ;;;
     channel_call E (basic_ack (delivery_tag method)))%py
    (fun e => match e with
              | JSONDecodeError =>
                  channel_call E (basic_nack (delivery_tag method) false)
              | _ =>
                  channel_call E (basic_nack (delivery_tag method) true)
              end).

(** The three workflow handlers differ only by the name of their domain. *)
Definition handle_workflow (domain : string) (message : json) (routing_key : string)
  : Py unit :=
  try_except
    (message_id <- lift (py_getitem message "id") ;;
     now <- utcnow E ;;
     content <- lift (py_get message "content" (JStr "")) ;;
     let audit_log := JDict
       [ ("action", JStr (domain +:+ "_workflow_processed"));
         ("routing_key", JStr routing_key);
         ("message_id", message_id);
         ("timestamp", JStr now);
         ("content", content) ] in
     message_id <- lift (py_getitem message "id") ;;
     upload_json E
       ("/workflow/audit/" +:+ domain +:+ "_" +:+ fstr E message_id +:+ ".json")
       audit_log ;;;
     ret tt)%py
    (fun _ => ret tt).

Definition handle_enrollment_workflow : json -> string -> Py unit :=
  handle_workflow "enrollment".

Definition handle_claims_workflow : json -> string -> Py unit :=
  handle_workflow "claims".

Definition handle_payments_workflow : json -> string -> Py unit :=
  handle_workflow "payments".

Definition process_workflow_message (method : Deliver) (body : Body) : Py unit :=
  try_except
    (message <- lift (loads body) ;;
     let routing_key := routing_key method in
     message_id <- lift (py_get message "id" JNull) ;;
     (if startswith routing_key "enrollment."
      then handle_enrollment_workflow message routing_key
      else if startswith routing_key "claims."
      then handle_claims_workflow message routing_key
      else if startswith routing_key "payments."
      then handle_payments_workflow message routing_key
      else ret tt) ;;;
     now <- utcnow E ;;
     upload_json E
       ("/workflow/processed/" +:+ fstr E message_id +:+ ".json")
       (JDict [ ("message", message);
                ("routing_key", JStr routing_key);
                ("processed_at", JStr now);
                ("status", JStr "processed") ]) ;;;
     channel_call E (basic_ack (delivery_tag method)))%py
    (fun _ => channel_call E (basic_nack (delivery_tag method) true)).

End MessageConsumer.
End MessageConsumer.

(** ** [app/services/client_onboarding.py] *)

Module ClientOnboarding.
Section ClientOnboarding.

Variable E : Env.

Import DropboxManager AMQPManager.

(** [complete_onboarding], [deactivate_client] and [reactivate_client]
    differ only by the flag they set, the key of the date they record and
    the text of the notification they send. *)
Definition mark_client (flag_key : string) (flag : bool) (date_key : string)
    (content : string) (client_id : json) : Py bool :=
  try_except
    (metadata <- get_client_metadata E client_id ;;
     if negb (truthy metadata) then ret false else
     metadata <- lift (py_setitem metadata flag_key (JBool flag)) ;;
     now <- utcnow E ;;
     metadata <- lift (py_setitem metadata date_key (JStr now)) ;;
     updated <- update_client_metadata E client_id metadata ;;
     if negb updated then ret false else
     id <- new_uuid E ;;
     now <- utcnow E ;;
     let message := JDict
       [ ("id", JStr id);
         ("type", JStr "system_alert");
         ("content", JStr content);
         ("timestamp", JStr now);
         ("client_id", client_id);
         ("attachments", JList []) ] in
     publish_client_message E client_id message ;;;
     archive_message E client_id (JStr id) message ;;;
     ret true)%py
    (fun _ => ret false).

Definition complete_onboarding : json -> Py bool :=
  mark_client "onboarding_completed" true "onboarding_completed_date"
    "Your onboarding process has been completed. You can now access all features.".

Definition deactivate_client : json -> Py bool :=
  mark_client "is_active" false "deactivated_date"
    "Your account has been deactivated. Please contact support for assistance.".

Definition reactivate_client : json -> Py bool :=
  mark_client "is_active" true "reactivated_date"
    "Your account has been reactivated. Welcome back!".

Definition reset_daily_limits (client_id : json) : Py bool :=
  try_except
    (metadata <- get_client_metadata E client_id ;;
     if negb (truthy metadata) then ret false else
     today <- today E ;;
     last_reset <- lift (py_get metadata "last_reset" JNull) ;;
     if negb (py_eq_str last_reset today) then
       metadata <- lift (py_setitem metadata "message_count_today" (JInt 0)) ;;
       metadata <- lift (py_setitem metadata "last_reset" (JStr today)) ;;
       updated <- update_client_metadata E client_id metadata ;;
       if negb updated then ret false else ret true
     else ret true)%py
    (fun _ => ret false).

Definition allowed_fields : list string :=
  [ "email"; "phone"; "first_name"; "last_name"; "custom_metadata" ].

(** [field in allowed_fields]. *)
Definition is_allowed (field : string) : bool :=
  existsb (String.eqb field) allowed_fields.

(** The loop of [update_client_info] over [updates.items()]. *)
Fixpoint apply_updates (updates : list (string * json)) (metadata : json)
  : result json :=
  match updates with
  | [] => Ok metadata
  | (field, value) :: rest =>
      if is_allowed field
      then match py_setitem metadata field value with
           | Ok metadata => apply_updates rest metadata
           | Raise e => Raise e
           end
      else apply_updates rest metadata
  end.

Definition update_client_info (client_id : json) (updates : list (string * json))
  : Py bool :=
  try_except
    (metadata <- get_client_metadata E client_id ;;
     if negb (truthy metadata) then ret false else
     metadata <- lift (apply_updates updates metadata) ;;
     now <- utcnow E ;;
     metadata <- lift (py_setitem metadata "updated_date" (JStr now)) ;;
     updated <- update_client_metadata E client_id metadata ;;
     if negb updated then ret false else ret true)%py
    (fun _ => ret false).

End ClientOnboarding.
End ClientOnboarding.

(** ** [app/api/routers/messages.py] *)

(** The text of an error as the routes build it: a literal, [str(e)] of an
    exception, or a literal followed by such a text. *)
Inductive Detail : Type :=
| Text (s : string)
| StrOfExn (e : exn)
| StrOfHTTP (status_code : Z) (detail : Detail)
| Prefixed (prefix : string) (rest : Detail).

(** What a route can raise: an exception of the services, or FastAPI's
    [HTTPException], itself a subclass of [Exception]. *)
Inductive Raised : Type :=
| Plain (e : exn)
| HTTPException (status_code : Z) (detail : Detail).

(** [str(e)]. *)
Definition str_of (r : Raised) : Detail :=
  match r with
  | Plain e => StrOfExn e
  | HTTPException status_code detail => StrOfHTTP status_code detail
  end.

(** What a route returns: a [JSONResponse], or a plain value that FastAPI
    sends with status 200. *)
Inductive Response : Type :=
| JSONResponse (status_code : Z) (content : json)
| PlainBody (content : json).

(** The status the client sees: that of the response, that of the
    [HTTPException], 500 for any other exception. *)
Definition status_of (a : Response + Raised) : Z :=
  match a with
  | inl (JSONResponse status_code _) => status_code
  | inl (PlainBody _) => 200
  | inr (HTTPException status_code _) => status_code
  | inr (Plain _) => 500
  end.

(** The classes named by the [except] clauses of the routes. *)
Definition is_MessageLimitExceededException (r : Raised) : bool :=
  match r with
  | Plain (MessageLimitExceededException _) => true
  | _ => false
  end.

Definition is_HTTPException (r : Raised) : bool :=
  match r with
  | HTTPException _ _ => true
  | _ => false
  end.

(** [except Exception] takes everything, an [HTTPException] included. *)
Definition is_Exception (r : Raised) : bool := true.

Module MessagesRouter.
Section MessagesRouter.

Variable E : Env.

Import MessagePublisher.

Definition Route (A : Type) : Type := World -> (A + Raised) * World.

Definition route_return {A} (a : A) : Route A := fun w => (inl a, w).

Definition route_raise {A} (r : Raised) : Route A := fun w => (inr r, w).

Definition route_bind {A B} (c : Route A) (k : A -> Route B) : Route B :=
  fun w => match c w with
           | (inl a, w') => k a w'
           | (inr r, w') => (inr r, w')
           end.

(** A call into the services. *)
Definition service {A} (c : Py A) : Route A :=
  fun w => match c w with
           | (Ok a, w') => (inl a, w')
           | (Raise e, w') => (inr (Plain e), w')
           end.

(** The [except] clauses of a [try], in their order: the first whose class
    matches handles the exception, and without a match it goes on up. *)
Fixpoint handle {A} (clauses : list ((Raised -> bool) * (Raised -> Route A)))
    (r : Raised) : Route A :=
  match clauses with
  | [] => route_raise r
  | (matches, handler) :: rest =>
      if matches r then handler r else handle rest r
  end.

Definition route_try {A} (body : Route A)
    (clauses : list ((Raised -> bool) * (Raised -> Route A))) : Route A :=
  fun w => match body w with
           | (inl a, w') => (inl a, w')
           | (inr r, w') => handle clauses r w'
           end.

Notation "x <-- c ;; k" := (route_bind c (fun x => k))
  (at level 100, c at next level, right associativity).

(** [result[k]]. *)
Definition item (result : json) (k : string) : Route json :=
  service (lift (py_getitem result k)).

Definition send_message (message_data : MessageCreate) : Route Response :=
  route_try
    (result <-- service (send_client_message E (mc_client_id message_data)
                           message_data) ;;
     if negb (truthy result)
     then route_raise (HTTPException 400 (Text "Failed to send message"))
     else
       message_id <-- item result "message_id" ;;
       client_id <-- item result "client_id" ;;
       timestamp <-- item result "timestamp" ;;
       route_return
         (JSONResponse 201
            (JDict [ ("message", JStr "Message sent successfully");
                     ("message_id", message_id);
                     ("client_id", client_id);
                     ("timestamp", timestamp) ])))
    [ (is_MessageLimitExceededException,
       fun e => route_raise (HTTPException 429 (str_of e)));
      (is_Exception,
       fun e => route_raise
                  (HTTPException 500 (Prefixed "Error sending message: " (str_of e)))) ].

Definition send_notification (client_id notification_type content priority : json)
  : Route Response :=
  route_try
    (result <-- service (MessagePublisher.send_notification E client_id
                           notification_type content priority) ;;
     if negb (truthy result)
     then route_raise (HTTPException 400 (Text "Failed to send notification"))
     else
       message_id <-- item result "message_id" ;;
       client_id <-- item result "client_id" ;;
       timestamp <-- item result "timestamp" ;;
       route_return
         (JSONResponse 201
            (JDict [ ("message", JStr "Notification sent successfully");
                     ("message_id", message_id);
                     ("client_id", client_id);
                     ("timestamp", timestamp) ])))
    [ (is_Exception,
       fun e => route_raise
                  (HTTPException 500
                     (Prefixed "Error sending notification: " (str_of e)))) ].

Definition get_message_stats (client_id : json) : Route Response :=
  route_try
    (stats <-- service (MessagePublisher.get_message_stats E client_id) ;;
     if negb (truthy stats)
     then route_raise (HTTPException 404 (Text "Client not found"))
     else route_return (PlainBody stats))
    [ (is_HTTPException, fun e => route_raise e);
      (is_Exception,
       fun e => route_raise
                  (HTTPException 500
                     (Prefixed "Error getting message stats: " (str_of e)))) ].

Definition resend_failed_message (message_id client_id : json) : Route Response :=
  route_try
    (success <-- service (MessagePublisher.resend_failed_message E message_id
                            client_id) ;;
     if negb success
     then route_raise (HTTPException 400 (Text "Failed to resend message"))
     else route_return
            (JSONResponse 200
               (JDict [ ("message", JStr "Message resent successfully") ])))
    [ (is_Exception,
       fun e => route_raise
                  (HTTPException 500
                     (Prefixed "Error resending message: " (str_of e)))) ].

End MessagesRouter.
End MessagesRouter.

(** ** A quiet environment and small worlds, for the examples *)

(** Everything answers, the limit is the default 10, it is 2 January 2024
    all along, and every UUID drawn is the same placeholder. *)
Definition quiet : Env :=
  {| daily_message_limit := 10;
     py_str := fun _ => "?";
     validate := fun client_id message_type content attachments metadata =>
       Some {| mc_client_id := client_id; mc_message_type := message_type;
               mc_content := content; mc_attachments := attachments;
               mc_metadata := metadata |};
     dropbox_up := fun _ => true;
     channel_up := fun _ => true;
     utcnow_isoformat := fun _ => "2024-01-02T09:00:00";
     utcnow_timestamp := fun _ => 1704186000;
     today_isoformat := fun _ => "2024-01-02";
     uuid4 := fun _ => "6f1c" |}.

(** The same, with Dropbox refusing every call. *)
Definition dropbox_down : Env :=
  {| daily_message_limit := 10;
     py_str := py_str quiet;
     validate := validate quiet;
     dropbox_up := fun _ => false;
     channel_up := fun _ => true;
     utcnow_isoformat := utcnow_isoformat quiet;
     utcnow_timestamp := utcnow_timestamp quiet;
     today_isoformat := today_isoformat quiet;
     uuid4 := uuid4 quiet |}.

(** The same as [quiet], with Dropbox refusing its [k]-th call only. *)
Definition dropbox_down_at (k : nat) : Env :=
  {| daily_message_limit := 10;
     py_str := py_str quiet;
     validate := validate quiet;
     dropbox_up := fun n => negb (Nat.eqb n k);
     channel_up := fun _ => true;
     utcnow_isoformat := utcnow_isoformat quiet;
     utcnow_timestamp := utcnow_timestamp quiet;
     today_isoformat := today_isoformat quiet;
     uuid4 := uuid4 quiet |}.

(** A connected manager in front of an account that holds [fs]. *)
Definition world_of (fs : list (string * json)) : World :=
  {| files := list_to_map fs; channel := true; trace := []; clock := 0 |}.

(** The metadata of a client that has sent [count] messages since
    [last_reset]. *)
Definition quota_state (last_reset : string) (count : Z) : json :=
  JDict [ ("client_id", JStr "acme");
          ("last_reset", JStr last_reset);
          ("message_count_today", JInt count) ].

(** ** What a run leaves behind *)

Definition is_channel_call (c : call) : bool :=
  match c with
  | files_upload _ _ | files_download _ => false
  | _ => true
  end.

Definition is_publish (c : call) : bool :=
  match c with
  | basic_publish _ _ _ _ => true
  | _ => false
  end.

(** The calls to the channel in a trace, in order. *)
Definition channel_calls (t : list (call * bool)) : list (call * bool) :=
  filter (fun ev => is_channel_call (fst ev) = true) t.

(** [metadata.get('message_count_today', 0)] on the metadata the account
    holds for a client. *)
Definition stored_count (E : Env) (client_id : json) (w : World) : option json :=
  match files w !! DropboxManager.metadata_path E client_id with
  | Some (JDict kv) => Some (dict_get_or "message_count_today" (JInt 0) kv)
  | _ => None
  end.

(** ** Vocabulary of the properties *)

Section Vocabulary.

Variable E : Env.

Import DropboxManager.

(** A run that leaves the channel alone: the manager stays as connected as
    it was and the trace grows by calls to Dropbox only. *)
Definition off_channel (w w' : World) : Prop :=
  channel w' = channel w ∧
  ∃ evs, trace w' = trace w ++ evs ∧ channel_calls evs = [].

(** [f"/clients/{client_id}/audit/delivery-{message_id}.json"] and the
    confirmation written there, for a message that is a JSON object. *)
Definition delivery_path (kv : list (string * json)) : string :=
  "/clients/" +:+ fstr E (dict_get_or "client_id" JNull kv)
    +:+ "/audit/delivery-" +:+ fstr E (dict_get_or "id" JNull kv)
    +:+ ".json".

Definition delivery_confirmation (kv : list (string * json)) (now : string) : json :=
  JDict [ ("message_id", dict_get_or "id" JNull kv);
          ("client_id", dict_get_or "client_id" JNull kv);
          ("processed", JStr now);
          ("status", JStr "delivered");
          ("message_type", dict_get_or "type" JNull kv) ].

(** A call to Dropbox about the metadata of a client. *)
Definition on_metadata (client_id : json) (ev : call * bool) : Prop :=
  match fst ev with
  | files_download path | files_upload path _ => path = metadata_path E client_id
  | _ => False
  end.

(** A run that is about the quota of a client only: nothing moves but the
    metadata of that client, and every call made is about it. *)
Definition quota_only (client_id : json) (w w' : World) : Prop :=
  channel w' = channel w ∧
  (∀ path, path ≠ metadata_path E client_id → files w' !! path = files w !! path) ∧
  ∃ evs, trace w' = trace w ++ evs ∧ Forall (on_metadata client_id) evs.

(** What [get_client_metadata] hands over: the stored document when Dropbox
    answers and holds one, [None] otherwise. *)
Definition metadata_read (client_id : json) (w : World) : json :=
  match (if dropbox_up E (clock w)
         then files w !! metadata_path E client_id else None) with
  | Some j => j
  | None => JNull
  end.

(** The metadata after the reset of a new day. *)
Definition reset_metadata (today : string) (kv : list (string * json)) : json :=
  JDict (dict_set "last_reset" (JStr today)
           (dict_set "message_count_today" (JInt 0) kv)).

(** The envelope [send_client_message] builds. *)
Definition client_envelope (client_id : json) (message_data : MessageCreate)
    (id now : string) : json :=
  JDict [ ("id", JStr id);
          ("type", JStr (MessageType_value (mc_message_type message_data)));
          ("content", mc_content message_data);
          ("timestamp", JStr now);
          ("client_id", client_id);
          ("attachments", py_or (mc_attachments message_data) (JList []));
          ("metadata", py_or (mc_metadata message_data) (JDict [])) ].

(** The envelope [send_workflow_message] builds. *)
Definition workflow_envelope (routing_key message_type content metadata : json)
    (id now : string) : json :=
  JDict [ ("id", JStr id);
          ("type", message_type);
          ("content", content);
          ("timestamp", JStr now);
          ("routing_key", routing_key);
          ("metadata", py_or metadata (JDict [])) ].

(** The envelope [send_notification] builds. *)
Definition notification_envelope (client_id notification_type content priority : json)
    (id now : string) : json :=
  JDict [ ("id", JStr id);
          ("type", JStr "system_alert");
          ("content", content);
          ("timestamp", JStr now);
          ("client_id", client_id);
          ("notification_type", notification_type);
          ("priority", priority);
          ("metadata", JDict []) ].

(** The properties [publish_message] gives a message sent at time [ts]. *)
Definition publish_properties (message : json) (ts : Z) : BasicProperties :=
  {| delivery_mode := 2; priority := 0; timestamp := ts;
     message_id := fstr E (match py_get message "id" (JStr "") with
                           | Ok id => id
                           | Raise _ => JStr ""
                           end);
     content_type := "application/json" |}.

End Vocabulary.

(** A caller that sends the messages of a list to one client, one after
    the other, and keeps what each call returned or raised. *)
Fixpoint send_each (E : Env) (client_id : json) (messages : list MessageCreate)
    (w : World) : list (result json) * World :=
  match messages with
  | [] => ([], w)
  | message_data :: rest =>
      let (r, w1) := MessagePublisher.send_client_message E client_id message_data w in
      let (rs, w2) := send_each E client_id rest w1 in
      (r :: rs, w2)
  end.

(** A day without incident: both services answer every call and the date
    does not change. *)
Definition steady (E : Env) (day : string) : Prop :=
  (∀ n, dropbox_up E n = true) ∧
  (∀ n, channel_up E n = true) ∧
  (∀ n, today_isoformat E n = day).

(** The count and the date of reset in the metadata the store holds. *)
Definition quota_is (E : Env) (client_id : json) (day : string) (count : Z)
    (w : World) : Prop :=
  ∃ kv, files w !! DropboxManager.metadata_path E client_id = Some (JDict kv) ∧
        dict_get "last_reset" kv = Some (JStr day) ∧
        dict_get "message_count_today" kv = Some (JInt count).

(** Where one item of a batch ends up. *)
Inductive Outcome : Type :=
| Delivered (receipt : json)
| Failed (client_id : json) (error : ErrorText)
| LimitExceeded (client_id : json) (error : ErrorText).

(** The results once an outcome has been appended to its bucket. *)
Definition record_outcome (o : Outcome) (results : BulkResults) : BulkResults :=
  match o with
  | Delivered receipt => MessagePublisher.add_successful receipt results
  | Failed client_id error => MessagePublisher.add_failed client_id error results
  | LimitExceeded client_id error =>
      MessagePublisher.add_limit_exceeded client_id error results
  end.

Definition no_results : BulkResults :=
  {| successful := []; failed := []; limit_exceeded := [] |}.

(** The results of one part of a batch followed by those of the next. *)
Definition merge_results (a b : BulkResults) : BulkResults :=
  {| successful := successful a ++ successful b;
     failed := failed a ++ failed b;
     limit_exceeded := limit_exceeded a ++ limit_exceeded b |}.

(** The number of entries over the three buckets. *)
Definition entries (results : BulkResults) : nat :=
  length (successful results) + length (failed results)
  + length (limit_exceeded results).

(** The account of [acme] with [count] messages sent on 2 January 2024. *)
Definition acme_on_day (last_reset : string) (count : Z) : World :=
  world_of [ ("/clients/acme/metadata.json", quota_state last_reset count) ].

Definition hello : MessageCreate :=
  {| mc_client_id := JStr "acme"; mc_message_type := CLAIM_UPDATE;
     mc_content := JStr "claim 12 approved"; mc_attachments := JList [];
     mc_metadata := JDict [] |}.


(** Three clients: [acme] has used up its ten messages of the day, [bolt]
    and [cord] have sent none. *)
Definition three_clients : World :=
  world_of [ ("/clients/acme/metadata.json", quota_state "2024-01-02" 10);
             ("/clients/bolt/metadata.json", quota_state "2024-01-02" 0);
             ("/clients/cord/metadata.json", quota_state "2024-01-02" 0) ].

Definition item_for (client_id : string) : list (string * json) :=
  [ ("client_id", JStr client_id); ("type", JStr "payment_reminder");
    ("content", JStr "premium due") ].

(** The metadata of [acme] with the fields the registration gives it. *)
Definition acme_profile (last_reset : string) (count : Z) : json :=
  JDict [ ("client_id", JStr "acme");
          ("email", JStr "ops@acme.example");
          ("last_reset", JStr last_reset);
          ("message_count_today", JInt count);
          ("is_active", JBool true) ].

Definition acme_registered (last_reset : string) (count : Z) : World :=
  world_of [ ("/clients/acme/metadata.json", acme_profile last_reset count) ].

(** The calls [setup_workflow_queues] has to make for a list of queues. *)
Definition workflow_topology (queues : list string) : list call :=
  flat_map (λ queue, [ queue_declare queue true None;
                       queue_bind "insurance.workflow" queue (JStr queue) ])
    queues.

Definition accepted (calls : list call) : list (call * bool) :=
  map (λ c, (c, true)) calls.

(** [f"/clients/{client_id}/audit/{kind}_{message['id']}.json"]. *)
Definition audit_path (E : Env) (kind : string) (client_id message_id : json) : string :=
  "/clients/" +:+ fstr E client_id +:+ "/audit/" +:+ kind +:+ "_"
    +:+ fstr E message_id +:+ ".json".

(** The audit record of a handler; the one of [handle_system_alert] has the
    notification type as well. *)
Definition audit_record (t : MessageType)
    (client_id message_id notification_type content : json) (now : string) : json :=
  match t with
  | SYSTEM_ALERT =>
      JDict [ ("action", JStr "system_alert_processed");
              ("client_id", client_id);
              ("message_id", message_id);
              ("notification_type", notification_type);
              ("timestamp", JStr now);
              ("content", content) ]
  | _ =>
      JDict [ ("action", JStr (MessageType_value t +:+ "_processed"));
              ("client_id", client_id);
              ("message_id", message_id);
              ("timestamp", JStr now);
              ("content", content) ]
  end.

(** The bytes a call of an upload carries. *)
Definition sent_bytes (c : upload_call) : list Byte.byte :=
  match c with
  | files_upload_bytes data _ => data
  | files_upload_session_start data => data
  | files_upload_session_append_v2 data _ _ => data
  | files_upload_session_finish data _ _ _ => data
  end.

(** The calls of an upload that Dropbox took. *)
Definition taken (calls : list upload_call) : DropboxUpload.Calls :=
  map (λ c, (c, true)) calls.

(** A call that appends to the session [session_id]. *)
Definition in_session (session_id : string) (c : upload_call) : Prop :=
  match c with
  | files_upload_session_append_v2 _ s _ => s = session_id
  | _ => False
  end.

(** Every call that carries a cursor has as its offset the number of the
    bytes carried by the calls before it, [sent] of them before the first. *)
Fixpoint cursors_from (sent : nat) (calls : list upload_call) : Prop :=
  match calls with
  | [] => True
  | c :: rest =>
      match c with
      | files_upload_session_append_v2 _ _ offset
      | files_upload_session_finish _ _ offset _ => offset = sent
      | _ => True
      end ∧ cursors_from (sent + length (sent_bytes c)) rest
  end.

(** ** [app/services/webhook_manager.py] *)

(** [s.split(sep)] for a separator of one character. *)
Fixpoint split (sep : Ascii.ascii) (s : string) : list string :=
  match s with
  | EmptyString => [EmptyString]
  | String a rest =>
      if Ascii.eqb a sep then EmptyString :: split sep rest
      else match split sep rest with
           | [] => [String a EmptyString]
           | part :: parts => String a part :: parts
           end
  end.

(** [sep in s]. *)
Fixpoint contains (sep : Ascii.ascii) (s : string) : bool :=
  match s with
  | EmptyString => false
  | String a rest => Ascii.eqb a sep || contains sep rest
  end.

Module WebhookManager.

Definition _extract_client_id_from_path (file_path : string) : option string :=
  let path_parts := split "/"%char file_path in
  if (3 <=? length path_parts)%nat
     && bool_decide (path_parts !! 1%nat = Some "clients")
  then path_parts !! 2%nat
  else None.

End WebhookManager.

(** * Properties *)

(** ** Dictionaries *)

Lemma dict_get_set_eq k v kv : dict_get k (dict_set k v kv) = Some v.
Proof.
  induction kv as [|[k' v'] kv IH]; simpl.
  - by rewrite String.eqb_refl.
  - destruct (String.eqb k k') eqn:Hk; simpl; rewrite Hk; [done | exact IH].
Qed.

Lemma dict_get_set_ne k k' v kv :
  k ≠ k' → dict_get k (dict_set k' v kv) = dict_get k kv.
Proof.
  intros Hne. induction kv as [|[k0 v0] kv IH]; simpl.
  - destruct (String.eqb k k') eqn:Hk; [|done].
    apply String.eqb_eq in Hk. contradiction.
  - destruct (String.eqb k' k0) eqn:Hk0; simpl.
    + apply String.eqb_eq in Hk0. subst k0.
      destruct (String.eqb k k') eqn:Hk; [|done].
      apply String.eqb_eq in Hk. contradiction.
    + by rewrite IH.
Qed.

Lemma dict_get_or_set_eq k v d kv : dict_get_or k d (dict_set k v kv) = v.
Proof. unfold dict_get_or. by rewrite dict_get_set_eq. Qed.

Lemma dict_get_or_set_ne k k' v d kv :
  k ≠ k' → dict_get_or k d (dict_set k' v kv) = dict_get_or k d kv.
Proof. intros H. unfold dict_get_or. by rewrite dict_get_set_ne. Qed.

Lemma dict_set_nonempty k v kv : dict_set k v kv ≠ [].
Proof. destruct kv as [|[k' v'] kv]; simpl; [done|]. by destruct (String.eqb k k'). Qed.

(** From here on dictionaries and strings are taken as they are. *)
Arguments dict_get : simpl never.
Arguments dict_set : simpl never.
Arguments dict_get_or : simpl never.
Arguments py_eq_str : simpl never.
Arguments py_lt_int : simpl never.
Arguments py_add_int : simpl never.
Arguments String.eqb : simpl never.
Arguments String.append : simpl never.

(** ** Paths *)

Lemma append_inv_head (s a b : string) : s +:+ a = s +:+ b → a = b.
Proof. induction s as [|c s IH]; simpl; [done|]. intros [= H]. by apply IH. Qed.

(** The archive of a message never sits where the metadata of the same
    client is kept, whatever the identifiers are. *)
Lemma archive_path_not_metadata E client_id id :
  MessagePublisher.archive_path E client_id id
  ≠ DropboxManager.metadata_path E client_id.
Proof.
  unfold MessagePublisher.archive_path, DropboxManager.metadata_path.
  intros H. apply append_inv_head, append_inv_head in H. discriminate H.
Qed.

(** ** Worlds *)

Lemma files_tick w : files (tick w) = files w.
Proof. done. Qed.
Lemma files_logged c ok w : files (logged c ok w) = files w.
Proof. done. Qed.
Lemma files_stored p d w : files (stored p d w) = <[p := d]> (files w).
Proof. done. Qed.
Lemma channel_tick w : channel (tick w) = channel w.
Proof. done. Qed.
Lemma channel_logged c ok w : channel (logged c ok w) = channel w.
Proof. done. Qed.
Lemma channel_stored p d w : channel (stored p d w) = channel w.
Proof. done. Qed.
Lemma trace_tick w : trace (tick w) = trace w.
Proof. done. Qed.
Lemma trace_logged c ok w : trace (logged c ok w) = trace w ++ [(c, ok)].
Proof. done. Qed.
Lemma trace_stored p d w : trace (stored p d w) = trace w.
Proof. done. Qed.
Lemma clock_tick w : clock (tick w) = S (clock w).
Proof. done. Qed.
Lemma clock_logged c ok w : clock (logged c ok w) = S (clock w).
Proof. done. Qed.
Lemma clock_stored p d w : clock (stored p d w) = clock w.
Proof. done. Qed.

Create Rewrite HintDb world.
#[export] Hint Rewrite files_tick files_logged files_stored channel_tick
  channel_logged channel_stored trace_tick trace_logged trace_stored
  clock_tick clock_logged clock_stored : world.

(** ** The services, one call at a time *)

Section Runs.

Variable E : Env.

Import DropboxManager AMQPManager.

Lemma upload_json_run path data w :
  upload_json E path data w =
  if dropbox_up E (clock w)
  then (Ok true, stored path data (logged (files_upload path data) true w))
  else (Ok false, logged (files_upload path data) false w).
Proof.
  unfold upload_json, try_except, bind, dbx_files_upload.
  by destruct (dropbox_up E (clock w)).
Qed.

Lemma download_json_run path w :
  download_json E path w =
  match (if dropbox_up E (clock w) then files w !! path else None) with
  | Some j => (Ok j, logged (files_download path) true w)
  | None => (Ok JNull, logged (files_download path) false w)
  end.
Proof.
  unfold download_json, try_except, dbx_files_download.
  destruct (dropbox_up E (clock w)); [|done]. by destruct (files w !! path).
Qed.

Lemma get_client_metadata_run client_id w :
  get_client_metadata E client_id w = download_json E (metadata_path E client_id) w.
Proof.
  unfold get_client_metadata, try_except. rewrite download_json_run.
  by destruct (if dropbox_up E (clock w) then _ else _).
Qed.

Lemma update_client_metadata_run client_id metadata w :
  update_client_metadata E client_id metadata w =
  upload_json E (metadata_path E client_id) metadata w.
Proof.
  unfold update_client_metadata, try_except. rewrite upload_json_run.
  by destruct (dropbox_up E (clock w)).
Qed.

Lemma publish_message_run exchange routing_key message priority w :
  publish_message E exchange routing_key message priority w =
  if channel w then
    match py_get message "id" (JStr "") with
    | Ok id =>
        let c := basic_publish exchange routing_key message
                   {| delivery_mode := 2; priority := priority;
                      timestamp := utcnow_timestamp E (clock w);
                      message_id := fstr E id;
                      content_type := "application/json" |} in
        if channel_up E (S (clock w))
        then (Ok true, logged c true (tick w))
        else (Ok false, logged c false (tick w))
    | Raise _ => (Ok false, tick w)
    end
  else (Ok false, w).
Proof.
  unfold publish_message, try_except, bind, require_channel, utcnow_unix, lift,
    channel_call.
  destruct (channel w) eqn:Hc; [|done]. simpl.
  destruct (py_get message "id" (JStr "")); [|done].
  rewrite Hc. by destruct (channel_up E (S (clock w))).
Qed.

End Runs.

(** ** Provisioning (C9) *)

Section Provisioning.

Variable E : Env.

Import AMQPManager.

Lemma channel_call_up c w :
  channel w = true → channel_up E (clock w) = true →
  channel_call E c w = (Ok tt, logged c true w).
Proof. intros Hc Hup. unfold channel_call. by rewrite Hc, Hup. Qed.

(** C9, on the code.  On a connected channel that accepts the calls,
    [setup_infrastructure] declares the three exchanges [insurance.direct]
    (direct, durable), [insurance.workflow] (topic, durable) and
    [insurance.dlx] (direct, durable), and for every client id and every
    limit, given or not, [create_client_queue] makes exactly four calls,
    in this order: it declares [client.<id>] durable with the five
    arguments ttl 86400000, max-length, overflow reject-publish,
    dead-letter exchange [insurance.dlx] and dead-letter routing key
    [failed.<id>]; binds it to [insurance.direct] under the client id;
    declares [failed.<id>] durable; binds it to [insurance.dlx] under
    [failed.<id>]; and returns [True].  The max-length declared is the
    limit given when that is not 0.  For the limit 0 it is not 0: the
    [or] of [message_limit or self.daily_message_limit] takes 0 for no
    limit at all, and the queue is declared with the configured
    [daily_message_limit], as it is when no limit is given. *)
Theorem create_client_queue_topology (client_id : json) (message_limit : option Z)
    (w : World) :
  channel w = true →
  (∀ n, channel_up E n = true) →
  let id := fstr E client_id in
  let max_length :=
    match message_limit with
    | Some limit => if limit =? 0 then daily_message_limit E else limit
    | None => daily_message_limit E
    end in
  (fst (setup_infrastructure E w) = Ok tt ∧
   trace (snd (setup_infrastructure E w)) =
     trace w ++
     [ (exchange_declare "insurance.direct" direct true, true);
       (exchange_declare "insurance.workflow" topic true, true);
       (exchange_declare "insurance.dlx" direct true, true) ]) ∧
  (fst (create_client_queue E client_id message_limit w) = Ok true ∧
   trace (snd (create_client_queue E client_id message_limit w)) =
     trace w ++
     [ (queue_declare ("client." +:+ id) true
          (Some [ ("x-message-ttl", JInt 86400000);
                  ("x-max-length", JInt max_length);
                  ("x-overflow", JStr "reject-publish");
                  ("x-dead-letter-exchange", JStr "insurance.dlx");
                  ("x-dead-letter-routing-key", JStr ("failed." +:+ id)) ]),
        true);
       (queue_bind "insurance.direct" ("client." +:+ id) client_id, true);
       (queue_declare ("failed." +:+ id) true None, true);
       (queue_bind "insurance.dlx" ("failed." +:+ id) (JStr ("failed." +:+ id)),
        true) ]) ∧
  (∀ limit, message_limit = Some limit → limit ≠ 0 → max_length = limit) ∧
  (message_limit = Some 0 → max_length = daily_message_limit E).
Proof.
  intros Hc Hup id max_length. split; [|split; [|split]].
  - unfold setup_infrastructure, try_except, bind.
    repeat (rewrite channel_call_up by (simpl; auto); simpl).
    split; [done|]. by rewrite <- !app_assoc.
  - unfold create_client_queue, try_except, bind, require_channel.
    rewrite Hc.
    change (effective_limit E message_limit) with max_length.
    simpl.
    repeat (rewrite channel_call_up by (simpl; auto); simpl).
    split; [done|]. by rewrite <- !app_assoc.
  - intros limit -> Hlimit. subst max_length. by destruct (Z.eqb_spec limit 0).
  - by intros ->.
Qed.

End Provisioning.

Lemma create_client_queue_topology_witness :
  trace (snd (AMQPManager.create_client_queue quiet (JStr "acme") (Some 0)
                (world_of []))) =
  [ (queue_declare "client.acme" true
       (Some [ ("x-message-ttl", JInt 86400000);
               ("x-max-length", JInt 10);
               ("x-overflow", JStr "reject-publish");
               ("x-dead-letter-exchange", JStr "insurance.dlx");
               ("x-dead-letter-routing-key", JStr "failed.acme") ]),
     true);
    (queue_bind "insurance.direct" "client.acme" (JStr "acme"), true);
    (queue_declare "failed.acme" true None, true);
    (queue_bind "insurance.dlx" "failed.acme" (JStr "failed.acme"), true) ].
Proof.
  destruct (create_client_queue_topology quiet (JStr "acme") (Some 0) (world_of []))
    as (_ & [_ Htrace] & _);
    [reflexivity | intros n; reflexivity |].
  exact Htrace.
Defined.

(** C9 at the limit 0: the queue of client [acme] is declared with
    [x-max-length] 10, the configured daily limit, not 0. *)
Lemma create_client_queue_limit_zero :
  trace (snd (AMQPManager.create_client_queue quiet (JStr "acme") (Some 0)
                (world_of []))) !! 0%nat =
  Some (queue_declare "client.acme" true
          (Some [ ("x-message-ttl", JInt 86400000);
                  ("x-max-length", JInt 10);
                  ("x-overflow", JStr "reject-publish");
                  ("x-dead-letter-exchange", JStr "insurance.dlx");
                  ("x-dead-letter-routing-key", JStr "failed.acme") ]),
        true)
  ∧ JInt 10 ≠ JInt 0.
Proof. split; [reflexivity | discriminate]. Qed.

(** ** The consumer (C2, C3) *)

Section Consumer.

Variable E : Env.

Import DropboxManager MessageConsumer.

(** C3, on the code.  A body that cannot be decoded is discarded in one
    case only: by [process_message], when the text is UTF-8 but not JSON.
    [process_message] on bytes that are not UTF-8, and
    [process_workflow_message] on any undecodable body, answer with
    [basic_nack(requeue=True)]. *)
Theorem undecodable_body_verdicts (method : Deliver) (w : World) :
  process_message E method NotJson w
    = channel_call E (basic_nack (delivery_tag method) false) w ∧
  process_message E method NotUtf8 w
    = channel_call E (basic_nack (delivery_tag method) true) w ∧
  process_workflow_message E method NotJson w
    = channel_call E (basic_nack (delivery_tag method) true) w ∧
  process_workflow_message E method NotUtf8 w
    = channel_call E (basic_nack (delivery_tag method) true) w.
Proof. repeat split; reflexivity. Qed.

Lemma off_channel_refl w : off_channel w w.
Proof. split; [done|]. exists []. by rewrite app_nil_r. Qed.

Lemma off_channel_trans w1 w2 w3 :
  off_channel w1 w2 → off_channel w2 w3 → off_channel w1 w3.
Proof.
  intros [Hc1 (e1 & Ht1 & Hn1)] [Hc2 (e2 & Ht2 & Hn2)]. split; [congruence|].
  exists (e1 ++ e2). split.
  - by rewrite Ht2, Ht1, app_assoc.
  - unfold channel_calls in *. by rewrite filter_app, Hn1, Hn2.
Qed.

Lemma off_channel_tick w : off_channel w (tick w).
Proof. split; [done|]. exists []. by rewrite app_nil_r. Qed.

Lemma off_channel_upload path data w :
  off_channel w (snd (upload_json E path data w)).
Proof.
  rewrite upload_json_run. destruct (dropbox_up E (clock w)); simpl;
    (split; [done|]; by eexists [_]).
Qed.

Lemma off_channel_download path w :
  off_channel w (snd (download_json E path w)).
Proof.
  rewrite download_json_run.
  destruct (if dropbox_up E (clock w) then _ else _); simpl;
    (split; [done|]; by eexists [_]).
Qed.

(** A handler never raises and never touches the channel, whatever happens
    inside it: its own [except] clause ends every failure. *)
Lemma handle_kind_off_channel kind message w :
  fst (handle_kind E kind message w) = Ok tt ∧
  off_channel w (snd (handle_kind E kind message w)).
Proof.
  unfold handle_kind, try_except, bind, lift, utcnow.
  destruct (py_getitem message "client_id") as [client_id|];
    [|split; [done | apply off_channel_refl]].
  destruct (py_getitem message "content") as [content|];
    [|split; [done | apply off_channel_refl]].
  destruct (py_getitem message "id") as [message_id|];
    [|split; [done | apply off_channel_refl]].
  match goal with |- context [upload_json E ?p ?d ?w0] =>
    pose proof (off_channel_upload p d w0) as Hup;
    rewrite upload_json_run in Hup |- *
  end.
  destruct (dropbox_up E _); simpl in *;
    (split; [done | exact (off_channel_trans _ _ _ (off_channel_tick w) Hup)]).
Qed.

Lemma handle_system_alert_off_channel message w :
  fst (handle_system_alert E message w) = Ok tt ∧
  off_channel w (snd (handle_system_alert E message w)).
Proof.
  unfold handle_system_alert, try_except, bind, lift, utcnow.
  destruct (py_getitem message "client_id") as [client_id|];
    [|split; [done | apply off_channel_refl]].
  destruct (py_getitem message "content") as [content|];
    [|split; [done | apply off_channel_refl]].
  destruct (py_get message "notification_type" (JStr "general")) as [nt|];
    [|split; [done | apply off_channel_refl]].
  destruct (py_getitem message "id") as [message_id|];
    [|split; [done | apply off_channel_refl]].
  match goal with |- context [upload_json E ?p ?d ?w0] =>
    pose proof (off_channel_upload p d w0) as Hup;
    rewrite upload_json_run in Hup |- *
  end.
  destruct (dropbox_up E _); simpl in *;
    (split; [done | exact (off_channel_trans _ _ _ (off_channel_tick w) Hup)]).
Qed.

Lemma dispatch_off_channel message_type message w :
  fst (dispatch E message_type message w) = Ok tt ∧
  off_channel w (snd (dispatch E message_type message w)).
Proof.
  unfold dispatch, handle_document_request, handle_claim_update,
    handle_payment_reminder, handle_enrollment_notification,
    handle_beneficiary_update.
  repeat (match goal with |- context [if ?b then _ else _] => destruct b end;
          try apply handle_kind_off_channel;
          try apply handle_system_alert_off_channel).
  split; [done | apply off_channel_refl].
Qed.

(** What [process_message] does with a JSON object: dispatch, write the
    confirmation without looking at the outcome, acknowledge; a refused
    acknowledgement is followed by a nack with requeue. *)
Lemma process_message_object method kv w :
  let w1 := snd (dispatch E (dict_get_or "type" JNull kv) (JDict kv) w) in
  let now := utcnow_isoformat E (clock w1) in
  let w2 := snd (upload_json E (delivery_path E kv)
                   (delivery_confirmation kv now) (tick w1)) in
  process_message E method (Json (JDict kv)) w =
  match channel_call E (basic_ack (delivery_tag method)) w2 with
  | (Ok a, w3) => (Ok a, w3)
  | (Raise _, w3) => channel_call E (basic_nack (delivery_tag method) true) w3
  end.
Proof.
  intros w1 now w2. unfold process_message, try_except, bind, lift, utcnow. simpl.
  pose proof (dispatch_off_channel (dict_get_or "type" JNull kv) (JDict kv) w)
    as [Hok _].
  destruct (dispatch E _ (JDict kv) w) as [r w1'] eqn:Hd.
  simpl in Hok. subst r. subst w1 w2 now. unfold delivery_path, delivery_confirmation.
  simpl.
  destruct (upload_json E _ _ (tick w1')) as [[b|e] w2'] eqn:Hu.
  - simpl. unfold channel_call.
    destruct (channel w2'); [destruct (channel_up E (clock w2'))|]; reflexivity.
  - rewrite upload_json_run in Hu. by destruct (dropbox_up E _).
Qed.

(** C2, as amended.  Let the body decode to a JSON object, and let the
    channel be connected and accept the acknowledgement.  Then whatever
    happens inside the dispatched handler, also when it raises (a handler
    catches and logs its own exceptions), and whatever the Audit Sink
    answers, to the handler as to the delivery confirmation (an upload
    that Dropbox refuses gives [False], which nobody looks at),
    [process_message] attempts the delivery confirmation and then
    acknowledges the message: the calls to the channel are the one
    [basic_ack], there is no nack, and nothing is raised.  A body that
    decodes to a JSON value that is not an object is answered with
    [basic_nack(requeue=True)]. *)
Theorem handler_failure_still_acknowledged (method : Deliver)
    (kv : list (string * json)) (w : World) :
  channel w = true →
  (∀ n, channel_up E n = true) →
  (fst (process_message E method (Json (JDict kv)) w) = Ok tt ∧
   ∃ evs now k,
     trace (snd (process_message E method (Json (JDict kv)) w)) =
       trace w ++ evs ++
       [ (files_upload (delivery_path E kv) (delivery_confirmation kv now),
          dropbox_up E k);
         (basic_ack (delivery_tag method), true) ] ∧
     channel_calls evs = []) ∧
  (∀ j, (∀ kv', j ≠ JDict kv') →
     process_message E method (Json j) w
     = channel_call E (basic_nack (delivery_tag method) true) w).
Proof.
  intros Hc Hch. split.
  - rewrite process_message_object.
    destruct (dispatch_off_channel (dict_get_or "type" JNull kv) (JDict kv) w)
      as [_ [Hc1 (evs & Ht & Hevs)]].
    set (w1 := snd (dispatch E _ (JDict kv) w)) in *.
    rewrite upload_json_run. autorewrite with world.
    assert (∀ w2, channel w2 = true →
              channel_call E (basic_ack (delivery_tag method)) w2
              = (Ok tt, logged (basic_ack (delivery_tag method)) true w2)) as Hack.
    { intros w2 Hc2. unfold channel_call. by rewrite Hc2, Hch. }
    destruct (dropbox_up E (S (clock w1))) eqn:Hup; simpl;
      (rewrite Hack by (autorewrite with world; congruence)); simpl;
      (split; [done|]);
      exists evs, (utcnow_isoformat E (clock w1)), (S (clock w1));
      rewrite Hup; autorewrite with world;
      (split; [|done]); by rewrite Ht, <- !app_assoc.
  - intros j Hj. destruct j; try reflexivity. by destruct (Hj kv0).
Qed.

End Consumer.

Lemma handler_failure_still_acknowledged_witness :
  channel_calls
    (trace (snd (MessageConsumer.process_message dropbox_down
                   {| delivery_tag := 7; routing_key := "acme" |}
                   (Json (JDict [ ("id", JStr "m1"); ("client_id", JStr "acme");
                                  ("type", JStr "document_request") ]))
                   (world_of []))))
  = [ (basic_ack 7, true) ].
Proof.
  destruct (handler_failure_still_acknowledged dropbox_down
              {| delivery_tag := 7; routing_key := "acme" |}
              [ ("id", JStr "m1"); ("client_id", JStr "acme");
                ("type", JStr "document_request") ]
              (world_of []))
    as [(_ & evs & now & k & Ht & Hevs) _];
    [reflexivity | intros n; reflexivity |].
  rewrite Ht. unfold channel_calls in *. simpl.
  rewrite !filter_app, Hevs. reflexivity.
Defined.

(** C2 as stated fails, for the handler and for the Audit Sink.  First, a
    [document_request] without ['content'] makes its handler raise
    [KeyError]; the handler logs it and returns, so no audit record of the
    request is written, and [process_message] goes on to confirm the
    delivery and to acknowledge: there is no nack.  Second, with Dropbox
    refusing every call, the audit record of a well-formed request and the
    delivery confirmation are both refused; the two errors are logged and
    lost, and the message is acknowledged all the same. *)
Lemma failures_are_acknowledged :
  let incomplete := JDict [ ("id", JStr "m1"); ("client_id", JStr "acme");
                            ("type", JStr "document_request") ] in
  let request := JDict [ ("id", JStr "m2"); ("client_id", JStr "acme");
                         ("type", JStr "document_request");
                         ("content", JStr "policy copy") ] in
  (py_getitem incomplete "content" = Raise (KeyError "content") ∧
   MessageConsumer.process_message quiet
     {| delivery_tag := 7; routing_key := "acme" |} (Json incomplete) (world_of [])
   = (Ok tt,
      {| files := list_to_map
           [ ("/clients/acme/audit/delivery-m1.json",
              JDict [ ("message_id", JStr "m1"); ("client_id", JStr "acme");
                      ("processed", JStr "2024-01-02T09:00:00");
                      ("status", JStr "delivered");
                      ("message_type", JStr "document_request") ]) ];
         channel := true;
         trace :=
           [ (files_upload "/clients/acme/audit/delivery-m1.json"
                (JDict [ ("message_id", JStr "m1"); ("client_id", JStr "acme");
                         ("processed", JStr "2024-01-02T09:00:00");
                         ("status", JStr "delivered");
                         ("message_type", JStr "document_request") ]),
              true);
             (basic_ack 7, true) ];
         clock := 3 |})) ∧
  MessageConsumer.process_message dropbox_down
    {| delivery_tag := 8; routing_key := "acme" |} (Json request) (world_of [])
  = (Ok tt,
     {| files := ∅;
        channel := true;
        trace :=
          [ (files_upload "/clients/acme/audit/document_request_m2.json"
               (JDict [ ("action", JStr "document_request_processed");
                        ("client_id", JStr "acme");
                        ("message_id", JStr "m2");
                        ("timestamp", JStr "2024-01-02T09:00:00");
                        ("content", JStr "policy copy") ]),
             false);
            (files_upload "/clients/acme/audit/delivery-m2.json"
               (JDict [ ("message_id", JStr "m2"); ("client_id", JStr "acme");
                        ("processed", JStr "2024-01-02T09:00:00");
                        ("status", JStr "delivered");
                        ("message_type", JStr "document_request") ]),
             false);
            (basic_ack 8, true) ];
        clock := 5 |}).
Proof. repeat split. Qed.

(** C3 at work.  A workflow queue delivers bytes that are not JSON: the
    consumer answers [basic_nack(requeue=True)], and the broker will
    deliver the same bytes again. *)
Lemma workflow_garbage_is_requeued :
  trace (snd (MessageConsumer.process_workflow_message quiet
                {| delivery_tag := 7; routing_key := "claims.submitted" |}
                NotJson (world_of []))) =
  [ (basic_nack 7 true, true) ].
Proof. reflexivity. Qed.

(** ** The quota tracker (C1, C7) *)

Section Quota.

Variable E : Env.

Import DropboxManager AMQPManager MessagePublisher.

Lemma quota_only_refl c w : quota_only E c w w.
Proof. split; [done|]. split; [done|]. exists []. by rewrite app_nil_r. Qed.

Lemma quota_only_trans c w1 w2 w3 :
  quota_only E c w1 w2 → quota_only E c w2 w3 → quota_only E c w1 w3.
Proof.
  intros (Hc1 & Hf1 & e1 & Ht1 & He1) (Hc2 & Hf2 & e2 & Ht2 & He2).
  split; [congruence|]. split.
  - intros p Hp. by rewrite Hf2, Hf1.
  - exists (e1 ++ e2). split; [by rewrite Ht2, Ht1, app_assoc|].
    by apply Forall_app.
Qed.

Lemma quota_only_tick c w : quota_only E c w (tick w).
Proof. split; [done|]. split; [done|]. exists []. by rewrite app_nil_r. Qed.

Lemma quota_only_download c w :
  quota_only E c w (snd (get_client_metadata E c w)).
Proof.
  rewrite get_client_metadata_run, download_json_run.
  destruct (if dropbox_up E (clock w) then _ else _); simpl;
    (split; [done|]; split; [done|]; eexists [_]; split; [done|];
     by apply Forall_singleton).
Qed.

Lemma quota_only_update c metadata w :
  quota_only E c w (snd (update_client_metadata E c metadata w)).
Proof.
  rewrite update_client_metadata_run, upload_json_run.
  destruct (dropbox_up E (clock w)); simpl.
  - split; [done|]. split.
    + intros p Hp. autorewrite with world. by rewrite lookup_insert_ne.
    + eexists [_]. split; [done|]. by apply Forall_singleton.
  - split; [done|]. split; [done|]. eexists [_]. split; [done|].
    by apply Forall_singleton.
Qed.

Lemma get_client_metadata_fst c w :
  fst (get_client_metadata E c w) = Ok (metadata_read E c w).
Proof.
  rewrite get_client_metadata_run, download_json_run. unfold metadata_read.
  by destruct (if dropbox_up E (clock w) then _ else _).
Qed.

Lemma get_client_metadata_clock c w :
  clock (snd (get_client_metadata E c w)) = S (clock w).
Proof.
  rewrite get_client_metadata_run, download_json_run.
  by destruct (if dropbox_up E (clock w) then _ else _).
Qed.

Lemma get_client_metadata_files c w :
  files (snd (get_client_metadata E c w)) = files w.
Proof.
  rewrite get_client_metadata_run, download_json_run.
  by destruct (if dropbox_up E (clock w) then _ else _).
Qed.

(** [check_message_limit], branch by branch.  [w1] is the world after the
    metadata has been read and [today] the date read next. *)
Lemma check_message_limit_run c w :
  let w1 := snd (get_client_metadata E c w) in
  let today := today_isoformat E (clock w1) in
  check_message_limit E c w =
  match metadata_read E c w with
  | JDict [] => (Ok false, w1)
  | JDict kv =>
      if py_eq_str (dict_get_or "last_reset" JNull kv) today
      then (Ok match py_lt_int (dict_get_or "message_count_today" (JInt 0) kv)
                       (daily_message_limit E) with
               | Ok b => b
               | Raise _ => false
               end, tick w1)
      else (Ok (0 <? daily_message_limit E),
            snd (update_client_metadata E c (reset_metadata today kv) (tick w1)))
  | j => (Ok false, if truthy j then tick w1 else w1)
  end.
Proof.
  intros w1 today. unfold check_message_limit, try_except, bind.
  pose proof (get_client_metadata_fst c w) as Hm.
  destruct (get_client_metadata E c w) as [r w1'] eqn:Hg. simpl in Hm. subst r.
  subst w1 today. simpl.
  destruct (metadata_read E c w) as [|b|n|s|l|kv]; simpl; try done.
  - by destruct b.
  - by destruct (n =? 0).
  - by destruct (String.eqb s "").
  - by destruct l.
  - destruct kv as [|kv0 kv]; [done|]. simpl.
    unfold lift, today. simpl.
    destruct (py_eq_str _ _); simpl.
    + by destruct (py_lt_int _ _).
    + unfold reset_metadata.
      destruct (update_client_metadata E c _ _) as [[b|e] w3] eqn:Hu; simpl.
      * rewrite dict_get_or_set_ne by done.
        unfold dict_get_or. by rewrite dict_get_set_eq.
      * rewrite update_client_metadata_run, upload_json_run in Hu.
        by destruct (dropbox_up E _).
Qed.

(** [check_message_limit] never raises, and is about the quota only. *)
Lemma check_message_limit_total c w :
  ∃ allowed, fst (check_message_limit E c w) = Ok allowed.
Proof.
  rewrite check_message_limit_run.
  destruct (metadata_read E c w) as [| | | | |[|kv0 kv]]; simpl; eauto.
  destruct (py_eq_str _ _); simpl; eauto.
Qed.

Lemma check_message_limit_quota_only c w :
  quota_only E c w (snd (check_message_limit E c w)).
Proof.
  rewrite check_message_limit_run.
  pose proof (quota_only_download c w) as Hd.
  set (w1 := snd (get_client_metadata E c w)) in *.
  assert (quota_only E c w (tick w1)) as Ht
    by (eapply quota_only_trans; [exact Hd | apply quota_only_tick]).
  destruct (metadata_read E c w) as [|b|n|s|l|[|kv0 kv]]; simpl; try done.
  - by destruct b.
  - by destruct (negb (n =? 0)).
  - by destruct (negb (String.eqb s "")).
  - by destruct l.
  - destruct (py_eq_str _ _); simpl; [done|].
    eapply quota_only_trans; [exact Ht | apply quota_only_update].
Qed.

(** [increment_message_counter], branch by branch. *)
Lemma increment_message_counter_run c w :
  let w1 := snd (get_client_metadata E c w) in
  increment_message_counter E c w =
  match metadata_read E c w with
  | JDict [] => (Ok false, w1)
  | JDict kv =>
      match py_add_int (dict_get_or "message_count_today" (JInt 0) kv) 1 with
      | Ok count =>
          update_client_metadata E c
            (JDict (dict_set "last_message_sent"
                      (JStr (utcnow_isoformat E (clock w1)))
                      (dict_set "message_count_today" count kv)))
            (tick w1)
      | Raise _ => (Ok false, w1)
      end
  | _ => (Ok false, w1)
  end.
Proof.
  intros w1. unfold increment_message_counter, try_except, bind.
  pose proof (get_client_metadata_fst c w) as Hm.
  destruct (get_client_metadata E c w) as [r w1'] eqn:Hg. simpl in Hm. subst r.
  subst w1. simpl.
  destruct (metadata_read E c w) as [|b|n|s|l|kv]; simpl; try done.
  - by destruct b.
  - by destruct (n =? 0).
  - by destruct (String.eqb s "").
  - by destruct l.
  - destruct kv as [|kv0 kv]; [done|]. simpl. unfold lift, utcnow. simpl.
    destruct (py_add_int _ 1) as [count|]; simpl; [|done].
    destruct (update_client_metadata E c _ _) as [[b|e] w3] eqn:Hu; [done|].
    rewrite update_client_metadata_run, upload_json_run in Hu.
    by destruct (dropbox_up E _).
Qed.

Lemma increment_message_counter_quota_only c w :
  quota_only E c w (snd (increment_message_counter E c w)).
Proof.
  rewrite increment_message_counter_run.
  pose proof (quota_only_download c w) as Hd.
  set (w1 := snd (get_client_metadata E c w)) in *.
  destruct (metadata_read E c w) as [| | | | |[|kv0 kv]]; simpl; try done.
  destruct (py_add_int _ 1); simpl; [|done].
  eapply quota_only_trans; [exact Hd|].
  eapply quota_only_trans; [apply quota_only_tick | apply quota_only_update].
Qed.

End Quota.

(** ** Sending to a client *)

Section Sending.

Variable E : Env.

Import DropboxManager AMQPManager MessagePublisher.

Lemma publish_message_total exchange routing_key message priority w :
  ∃ ok, fst (publish_message E exchange routing_key message priority w) = Ok ok.
Proof.
  rewrite publish_message_run. destruct (channel w); [|by eexists].
  destruct (py_get message "id" (JStr "")); [|by eexists]. simpl.
  destruct (channel_up E (S (clock w))); by eexists.
Qed.

(** [send_client_message], step by step: the check and the world [w1] it
    leaves, the envelope, the archive and the world [w2] after it, the
    publication and the world [w3] after it, the increment. *)
Lemma send_client_message_run c m w :
  let w1 := snd (check_message_limit E c w) in
  let id := uuid4 E (clock w1) in
  let now := utcnow_isoformat E (S (clock w1)) in
  let message := client_envelope c m id now in
  let path := archive_path E c (JStr id) in
  let w2 := snd (upload_json E path message (tick (tick w1))) in
  let w3 := snd (publish_client_message E c message w2) in
  send_client_message E c m w =
  match fst (check_message_limit E c w) with
  | Ok true =>
      if dropbox_up E (S (S (clock w1))) then
        match fst (publish_client_message E c message w2) with
        | Ok true =>
            (Ok (sent_receipt "client_id" (JStr id) c (JStr now)),
             snd (increment_message_counter E c w3))
        | _ => (Ok JNull, w3)
        end
      else (Ok JNull, w2)
  | _ => (Raise (MessageLimitExceededException c), w1)
  end.
Proof.
  intros w1 id now message path w2 w3.
  destruct (check_message_limit_total E c w) as [allowed Ha].
  unfold send_client_message, try_except, bind.
  destruct (check_message_limit E c w) as [r w1'] eqn:Hc. simpl in Ha. subst r.
  subst w1 id now message path w2 w3. simpl.
  destruct allowed; simpl; [|done].
  unfold new_uuid, utcnow, client_envelope. simpl.
  rewrite upload_json_run. simpl.
  destruct (dropbox_up E (S (S (clock w1')))); simpl; [|done].
  match goal with |- context [publish_client_message E c ?msg ?w0] =>
    destruct (publish_message_total "insurance.direct" c msg 0 w0) as [ok Hp];
    unfold publish_client_message in *;
    destruct (publish_message E "insurance.direct" c msg 0 w0) as [r w3] eqn:Hpub
  end.
  simpl in Hp. subst r. simpl. destruct ok; simpl; [|done].
  pose proof (increment_message_counter_run E c w3) as Hi.
  destruct (increment_message_counter E c w3) as [[b|e] w4] eqn:Hinc; [done|].
  exfalso. simpl in Hi.
  destruct (metadata_read E c w3) as [| | | | |[|kv0 kv]]; try discriminate Hi.
  destruct (py_add_int _ 1); [|discriminate Hi].
  rewrite update_client_metadata_run, upload_json_run in Hi.
  by destruct (dropbox_up E _).
Qed.

Lemma metadata_read_stored c w j :
  dropbox_up E (clock w) = true →
  files w !! metadata_path E c = Some j →
  metadata_read E c w = j ∧
  snd (get_client_metadata E c w)
  = logged (files_download (metadata_path E c)) true w.
Proof.
  intros Hup Hf. unfold metadata_read.
  rewrite get_client_metadata_run, download_json_run, Hup, Hf. done.
Qed.

Lemma last_reset_is today kv :
  py_eq_str (dict_get_or "last_reset" JNull kv) today = true
  ↔ dict_get "last_reset" kv = Some (JStr today).
Proof.
  unfold dict_get_or, py_eq_str.
  destruct (dict_get "last_reset" kv) as [[| | |s| |]|]; split; try done.
  - intros H. apply String.eqb_eq in H. by subst.
  - intros [= ->]. apply String.eqb_refl.
Qed.

Lemma publish_message_trace exchange routing_key message priority w :
  trace w `prefix_of` trace (snd (publish_message E exchange routing_key message priority w)).
Proof.
  rewrite publish_message_run. destruct (channel w); [|done].
  destruct (py_get message "id" (JStr "")); simpl; [|done].
  destruct (channel_up E (S (clock w))); simpl; by apply prefix_app_r.
Qed.

Lemma quota_only_trace c w w' : quota_only E c w w' → trace w `prefix_of` trace w'.
Proof. intros (_ & _ & evs & -> & _). by apply prefix_app_r. Qed.

(** The boundary between admission and denial, for metadata that is
    readable and carries today's date. *)
Lemma check_on_the_day (c : json) (m : MessageCreate) (w : World)
    (kv : list (string * json)) (n : Z) :
  dropbox_up E (clock w) = true →
  files w !! metadata_path E c = Some (JDict kv) →
  dict_get "last_reset" kv = Some (JStr (today_isoformat E (S (clock w)))) →
  dict_get "message_count_today" kv = Some (JInt n) →
  let N := daily_message_limit E in
  let read := (files_download (metadata_path E c), true) in
  (n < N →
     fst (check_message_limit E c w) = Ok true ∧
     ∃ r id now ok evs,
       fst (send_client_message E c m w) = Ok r ∧
       trace (snd (send_client_message E c m w)) =
         trace w ++
         [ read;
           (files_upload (archive_path E c (JStr id)) (client_envelope c m id now),
            ok) ] ++ evs) ∧
  (N ≤ n →
     fst (check_message_limit E c w) = Ok false ∧
     fst (send_client_message E c m w)
       = Raise (MessageLimitExceededException c) ∧
     trace (snd (send_client_message E c m w)) = trace w ++ [read] ∧
     files (snd (send_client_message E c m w)) = files w).
Proof.
  intros Hup Hf Hlr Hn N read.
  destruct (metadata_read_stored c w _ Hup Hf) as [Hr Hw1].
  assert (check_message_limit E c w =
          (Ok (n <? N), tick (logged (files_download (metadata_path E c)) true w)))
    as Hcheck.
  { rewrite check_message_limit_run, Hr, Hw1.
    destruct kv as [|kv0 kv]; [discriminate Hlr|].
    apply last_reset_is in Hlr. autorewrite with world. rewrite Hlr.
    unfold dict_get_or. rewrite Hn. reflexivity. }
  split; intros Hcmp.
  - assert ((n <? N) = true) as Hlt by lia.
    rewrite Hlt in Hcheck. split; [by rewrite Hcheck|].
    rewrite send_client_message_run, Hcheck. simpl.
    rewrite upload_json_run. autorewrite with world.
    set (id := uuid4 E (S (S (clock w)))).
    set (now := utcnow_isoformat E (S (S (S (clock w))))).
    match goal with |- context [if dropbox_up E ?k then _ else _] =>
      destruct (dropbox_up E k) eqn:Hup2
    end; simpl.
    + set (w2 := stored _ _ _).
      assert (trace w2 = trace w ++
                [ read; (files_upload (archive_path E c (JStr id))
                           (client_envelope c m id now), true)]) as Ht2.
      { subst w2. autorewrite with world. by rewrite <- app_assoc. }
      pose proof (publish_message_trace "insurance.direct" c
                    (client_envelope c m id now) 0 w2) as [e3 He3].
      unfold publish_client_message.
      destruct (fst (publish_message E _ c _ 0 w2)) as [[|]|]; simpl.
      * pose proof (quota_only_trace c _ _
          (increment_message_counter_quota_only E c
             (snd (publish_message E "insurance.direct" c
                     (client_envelope c m id now) 0 w2)))) as [e4 He4].
        eexists _, id, now, true, (e3 ++ e4). split; [done|].
        rewrite He4, He3, Ht2. by rewrite <- !app_assoc.
      * eexists _, id, now, true, e3. split; [done|].
        rewrite He3, Ht2. by rewrite <- !app_assoc.
      * eexists _, id, now, true, e3. split; [done|].
        rewrite He3, Ht2. by rewrite <- !app_assoc.
    + eexists _, id, now, false, []. split; [done|].
      autorewrite with world. by rewrite <- app_assoc.
  - assert ((n <? N) = false) as Hlt by lia.
    rewrite Hlt in Hcheck. split; [by rewrite Hcheck|].
    rewrite send_client_message_run, Hcheck. simpl. done.
Qed.

(** On a day without incident a send that is admitted returns its receipt
    and leaves the count one higher, the date of reset as it was. *)
Lemma send_client_message_steady c m w day n :
  steady E day → channel w = true → quota_is E c day n w →
  n < daily_message_limit E →
  ∃ receipt, receipt ≠ JNull ∧
    fst (send_client_message E c m w) = Ok receipt ∧
    channel (snd (send_client_message E c m w)) = true ∧
    quota_is E c day (n + 1) (snd (send_client_message E c m w)).
Proof.
  intros (Hdbx & Hch & Hday) Hc (kv & Hf & Hlr & Hn) Hlt.
  destruct (metadata_read_stored c w _ (Hdbx _) Hf) as [Hr Hw1].
  assert (check_message_limit E c w =
          (Ok true, tick (logged (files_download (metadata_path E c)) true w)))
    as Hcheck.
  { rewrite check_message_limit_run, Hr, Hw1.
    destruct kv as [|kv0 kv]; [discriminate Hlr|].
    rewrite Hday. apply last_reset_is in Hlr. rewrite Hlr.
    unfold dict_get_or. rewrite Hn. unfold py_lt_int.
    by destruct (Z.ltb_spec n (daily_message_limit E)); [|lia]. }
  rewrite send_client_message_run, Hcheck. simpl. rewrite Hdbx.
  rewrite upload_json_run, Hdbx. simpl.
  set (w1 := tick (logged _ true w)).
  set (message := client_envelope c m _ _).
  set (path := archive_path E c _).
  set (w2 := stored path message _).
  unfold publish_client_message. rewrite publish_message_run.
  assert (channel w2 = true) as -> by done.
  simpl. rewrite Hch. simpl.
  set (w3 := logged _ true (tick w2)).
  eexists. split; [|split; [reflexivity|]]; [done|].
  assert (files w3 !! metadata_path E c = Some (JDict kv)) as Hf3.
  { subst w3 w2 w1. autorewrite with world.
    rewrite lookup_insert_ne; [done | apply archive_path_not_metadata]. }
  destruct (metadata_read_stored c w3 _ (Hdbx _) Hf3) as [Hr3 Hw4].
  rewrite increment_message_counter_run, Hr3, Hw4.
  destruct kv as [|kv0 kv]; [discriminate Hlr|].
  assert (dict_get_or "message_count_today" (JInt 0) (kv0 :: kv) = JInt n)
    as -> by (unfold dict_get_or; by rewrite Hn).
  unfold py_add_int.
  rewrite update_client_metadata_run, upload_json_run, Hdbx. simpl.
  split; [done|]. eexists. autorewrite with world.
  split; [apply lookup_insert_eq|]. split.
  - by rewrite !dict_get_set_ne.
  - rewrite dict_get_set_ne by done. apply dict_get_set_eq.
Qed.

Lemma send_client_message_exhausted c m w day :
  steady E day → quota_is E c day (daily_message_limit E) w →
  fst (send_client_message E c m w) = Raise (MessageLimitExceededException c).
Proof.
  intros (Hdbx & _ & Hday) (kv & Hf & Hlr & Hn).
  rewrite <- (Hday (S (clock w))) in Hlr.
  by apply (check_on_the_day c m w kv _ (Hdbx _) Hf Hlr Hn).
Qed.

(** From a count of [n], the sends of a day without incident go through
    until the limit is reached; the one after is denied. *)
Lemma send_each_until_limit c day (messages : list MessageCreate) last w n :
  steady E day → channel w = true → quota_is E c day n w →
  n + Z.of_nat (length messages) = daily_message_limit E →
  ∃ receipts,
    length receipts = length messages ∧
    Forall (λ receipt, receipt ≠ JNull) receipts ∧
    fst (send_each E c (messages ++ [last]) w)
    = map Ok receipts ++ [Raise (MessageLimitExceededException c)].
Proof.
  intros Hsteady. revert w n.
  induction messages as [|m rest IH]; intros w n Hc Hq Hlen; simpl in *.
  - exists []. split; [done|]. split; [done|].
    rewrite Z.add_0_r in Hlen. subst n.
    pose proof (send_client_message_exhausted c last w day Hsteady Hq) as Hr.
    destruct (send_client_message E c last w) as [r w1]. simpl in Hr. by subst r.
  - destruct (send_client_message_steady c m w day n Hsteady Hc Hq ltac:(lia))
      as (receipt & Hne & Hr & Hc1 & Hq1).
    destruct (send_client_message E c m w) as [r w1]. simpl in *. subst r.
    destruct (IH w1 (n + 1) Hc1 Hq1 ltac:(lia)) as (receipts & Hl & Hall & Hrs).
    destruct (send_each E c (rest ++ [last]) w1) as [rs w2]. simpl in *. subst rs.
    exists (receipt :: receipts). simpl. split; [by rewrite Hl|].
    split; [by constructor|done].
Qed.

(** C1.  Let the metadata of a client be readable and carry today's date
    as [last_reset] and the count [n], and let [N] be the daily limit.
    If [n < N], [check_message_limit] returns [True] and
    [send_client_message] proceeds: it does not raise, and right after the
    read of the metadata it uploads the envelope to the archive.  If
    [n >= N], [check_message_limit] returns [False] and
    [send_client_message] raises [MessageLimitExceededException] with
    nothing archived or published.  So on a day without incident that
    starts from a count of 0, [N + 1] calls in a row end thus: each of the
    first [N] returns its receipt, the last is denied. *)
Theorem admission_boundary (c : json) (m : MessageCreate) :
  let N := daily_message_limit E in
  (∀ (w : World) (kv : list (string * json)) (n : Z),
     dropbox_up E (clock w) = true →
     files w !! metadata_path E c = Some (JDict kv) →
     dict_get "last_reset" kv = Some (JStr (today_isoformat E (S (clock w)))) →
     dict_get "message_count_today" kv = Some (JInt n) →
     let read := (files_download (metadata_path E c), true) in
     (n < N →
        fst (check_message_limit E c w) = Ok true ∧
        ∃ r id now ok evs,
          fst (send_client_message E c m w) = Ok r ∧
          trace (snd (send_client_message E c m w)) =
            trace w ++
            [ read;
              (files_upload (archive_path E c (JStr id))
                 (client_envelope c m id now), ok) ] ++ evs) ∧
     (N ≤ n →
        fst (check_message_limit E c w) = Ok false ∧
        fst (send_client_message E c m w)
          = Raise (MessageLimitExceededException c) ∧
        trace (snd (send_client_message E c m w)) = trace w ++ [read] ∧
        files (snd (send_client_message E c m w)) = files w)) ∧
  (∀ (w : World) (day : string) (messages : list MessageCreate),
     steady E day → channel w = true → quota_is E c day 0 w →
     Z.of_nat (length messages) = N →
     ∃ receipts,
       length receipts = length messages ∧
       Forall (λ receipt, receipt ≠ JNull) receipts ∧
       fst (send_each E c (messages ++ [m]) w)
       = map Ok receipts ++ [Raise (MessageLimitExceededException c)]).
Proof.
  intros N. split.
  - intros w kv n. apply check_on_the_day.
  - intros w day messages Hsteady Hc Hq Hlen.
    by apply (send_each_until_limit c day messages m w 0).
Qed.

(** C7.  Let the metadata of a client be readable, and let its
    [last_reset] differ from the date read by [check_message_limit].  Then
    the metadata is given [message_count_today] 0 and today's date as
    [last_reset], it is sent to the store in that state, and the answer is
    the comparison of that count, 0, with the daily limit.  When the store
    accepts the write, it holds the reset metadata afterwards. *)
Theorem new_day_reset (c : json) (w : World) (kv : list (string * json)) :
  dropbox_up E (clock w) = true →
  files w !! metadata_path E c = Some (JDict kv) →
  kv ≠ [] →
  let today := today_isoformat E (S (clock w)) in
  dict_get "last_reset" kv ≠ Some (JStr today) →
  let kv' := dict_set "last_reset" (JStr today)
               (dict_set "message_count_today" (JInt 0) kv) in
  let run := check_message_limit E c w in
  dict_get "message_count_today" kv' = Some (JInt 0) ∧
  dict_get "last_reset" kv' = Some (JStr today) ∧
  (∀ k, k ≠ "message_count_today" → k ≠ "last_reset" →
        dict_get k kv' = dict_get k kv) ∧
  (∃ ok, trace (snd run) =
           trace w ++ [ (files_download (metadata_path E c), true);
                        (files_upload (metadata_path E c) (JDict kv'), ok) ] ∧
         files (snd run) =
           if ok then <[metadata_path E c := JDict kv']> (files w) else files w) ∧
  py_lt_int (JInt 0) (daily_message_limit E) = Ok (0 <? daily_message_limit E) ∧
  fst run = Ok (0 <? daily_message_limit E).
Proof.
  intros Hup Hf Hne today Hlr kv' run.
  destruct (metadata_read_stored c w _ Hup Hf) as [Hr Hw1].
  split; [|split; [|split]].
  - subst kv'. rewrite dict_get_set_ne by done. apply dict_get_set_eq.
  - apply dict_get_set_eq.
  - intros k Hk1 Hk2. subst kv'. by rewrite !dict_get_set_ne.
  - subst run. rewrite check_message_limit_run, Hr, Hw1.
    destruct kv as [|kv0 kv]; [done|]. autorewrite with world. fold today.
    destruct (py_eq_str _ today) eqn:Heq; [by apply last_reset_is in Heq|].
    simpl. rewrite update_client_metadata_run, upload_json_run.
    autorewrite with world. unfold reset_metadata. fold kv'.
    split; [|done].
    exists (dropbox_up E (S (S (clock w)))).
    destruct (dropbox_up E (S (S (clock w)))); simpl; autorewrite with world;
      by rewrite <- app_assoc.
Qed.

End Sending.

Lemma admission_boundary_witness :
  fst (MessagePublisher.check_message_limit quiet (JStr "acme")
         (acme_on_day "2024-01-02" 9)) = Ok true ∧
  fst (MessagePublisher.send_client_message quiet (JStr "acme") hello
         (acme_on_day "2024-01-02" 10))
  = Raise (MessageLimitExceededException (JStr "acme")) ∧
  ∃ receipts,
    length receipts = 10%nat ∧
    fst (send_each quiet (JStr "acme") (replicate 10 hello ++ [hello])
           (acme_on_day "2024-01-02" 0))
    = map Ok receipts ++ [Raise (MessageLimitExceededException (JStr "acme"))].
Proof.
  destruct (admission_boundary quiet (JStr "acme") hello) as [Hboundary Hday].
  split; [|split].
  - apply (Hboundary (acme_on_day "2024-01-02" 9)
             [ ("client_id", JStr "acme"); ("last_reset", JStr "2024-01-02");
               ("message_count_today", JInt 9) ] 9);
      [reflexivity | reflexivity | reflexivity | reflexivity | simpl; lia].
  - apply (Hboundary (acme_on_day "2024-01-02" 10)
             [ ("client_id", JStr "acme"); ("last_reset", JStr "2024-01-02");
               ("message_count_today", JInt 10) ] 10);
      [reflexivity | reflexivity | reflexivity | reflexivity | simpl; lia].
  - destruct (Hday (acme_on_day "2024-01-02" 0) "2024-01-02" (replicate 10 hello))
      as (receipts & Hlen & _ & Hrun).
    + repeat split.
    + reflexivity.
    + eexists. repeat split; reflexivity.
    + reflexivity.
    + exists receipts. split; [exact Hlen | exact Hrun].
Defined.

Lemma new_day_reset_witness :
  fst (MessagePublisher.check_message_limit quiet (JStr "acme")
         (acme_on_day "2024-01-01" 10)) = Ok true.
Proof.
  apply (new_day_reset quiet (JStr "acme") (acme_on_day "2024-01-01" 10)
           [ ("client_id", JStr "acme"); ("last_reset", JStr "2024-01-01");
             ("message_count_today", JInt 10) ]);
    [reflexivity | reflexivity | discriminate | discriminate].
Defined.

(** ** Archive, then publish (C4) *)

Section Archive.

Variable E : Env.

Import DropboxManager AMQPManager MessagePublisher.

(** What a publication of a JSON object leaves behind: nothing when the
    manager is not connected, one call to [basic_publish] otherwise, whose
    outcome is the answer. *)
Lemma publish_message_shape exchange routing_key message w :
  (∃ kv, message = JDict kv) →
  let run := publish_message E exchange routing_key message 0 w in
  (channel w = false ∧ run = (Ok false, w)) ∨
  (∃ ok, channel w = true ∧
     run = (Ok ok,
            logged (basic_publish exchange routing_key message
                      (publish_properties E message (utcnow_timestamp E (clock w))))
              ok (tick w))).
Proof.
  intros [kv ->] run. subst run. rewrite publish_message_run.
  destruct (channel w); [|by left]. right. simpl.
  destruct (channel_up E (S (clock w))); by eexists.
Qed.

(** The five courses of [send_client_message].  [w1] is the world as the
    quota check leaves it. *)
Lemma send_client_message_courses c m w :
  let w1 := snd (check_message_limit E c w) in
  let run := send_client_message E c m w in
  ∃ id now,
    let message := client_envelope c m id now in
    let path := archive_path E c (JStr id) in
    let archive ok := (files_upload path message, ok) in
    (run = (Raise (MessageLimitExceededException c), w1)) ∨
    (fst run = Ok JNull ∧ trace (snd run) = trace w1 ++ [archive false] ∧
     files (snd run) = files w1) ∨
    (fst run = Ok JNull ∧ trace (snd run) = trace w1 ++ [archive true] ∧
     files (snd run) = <[path := message]> (files w1)) ∨
    (∃ props,
       fst run = Ok JNull ∧
       trace (snd run) =
         trace w1 ++ [archive true;
                      (basic_publish "insurance.direct" c message props, false)] ∧
       files (snd run) = <[path := message]> (files w1)) ∨
    (∃ props w3,
       fst run = Ok (sent_receipt "client_id" (JStr id) c (JStr now)) ∧
       trace w3 =
         trace w1 ++ [archive true;
                      (basic_publish "insurance.direct" c message props, true)] ∧
       files w3 = <[path := message]> (files w1) ∧
       snd run = snd (increment_message_counter E c w3)).
Proof.
  intros w1 run. subst run. rewrite send_client_message_run. fold w1.
  exists (uuid4 E (clock w1)), (utcnow_isoformat E (S (clock w1))).
  set (message := client_envelope c m _ _).
  set (path := archive_path E c _).
  destruct (fst (check_message_limit E c w)) as [[|]|]; [|by left..].
  rewrite upload_json_run. autorewrite with world.
  destruct (dropbox_up E (S (S (clock w1)))); simpl.
  - unfold publish_client_message.
    destruct (publish_message_shape "insurance.direct" c message
                (stored path message
                   (logged (files_upload path message) true (tick (tick w1))))
                ltac:(by eexists))
      as [[Hc Hrun]|(ok & Hc & Hrun)]; rewrite Hrun; simpl.
    + right; right; left. by autorewrite with world.
    + destruct ok; simpl.
      * do 4 right. eexists _, _. split; [done|]. split; [|split; [|done]].
        -- autorewrite with world. by rewrite <- app_assoc.
        -- by autorewrite with world.
      * do 3 right. left. eexists. split; [done|]. autorewrite with world.
        by rewrite <- app_assoc.
  - right; left. by autorewrite with world.
Qed.

(** C4.  A run of [send_client_message] takes one of five courses, and a
    run of [send_workflow_message] one of four.  After the calls of the
    quota check (all about the metadata of the client), the calls made are:
    none, when the limit is reached; the upload of the envelope to the
    archive and nothing else, when that upload fails: then nothing is
    published and the result is [None]; the successful upload followed by
    at most one publication of the same envelope; and, after a successful
    publication only, the calls of the increment.  So no publication is
    ever attempted without the successful archival of its envelope
    right before it. *)
Theorem archive_before_publish (c : json) (m : MessageCreate)
    (routing_key message_type content metadata : json) (w : World) :
  (let run := send_client_message E c m w in
   ∃ quota_evs id now tail,
     let message := client_envelope c m id now in
     let archive ok := (files_upload (archive_path E c (JStr id)) message, ok) in
     trace (snd run) = trace w ++ quota_evs ++ tail ∧
     Forall (on_metadata E c) quota_evs ∧
     ((tail = [] ∧ fst run = Raise (MessageLimitExceededException c)) ∨
      (tail = [archive false] ∧ fst run = Ok JNull) ∨
      (tail = [archive true] ∧ fst run = Ok JNull) ∨
      (∃ props,
         tail = [archive true;
                 (basic_publish "insurance.direct" c message props, false)] ∧
         fst run = Ok JNull) ∨
      (∃ props counter_evs,
         tail = [archive true;
                 (basic_publish "insurance.direct" c message props, true)]
                ++ counter_evs ∧
         Forall (on_metadata E c) counter_evs ∧
         fst run = Ok (sent_receipt "client_id" (JStr id) c (JStr now))))) ∧
  (let run := send_workflow_message E routing_key message_type content metadata w in
   ∃ id now tail,
     let message :=
       workflow_envelope routing_key message_type content metadata id now in
     let archive ok := (files_upload (workflow_archive_path E (JStr id)) message, ok) in
     trace (snd run) = trace w ++ tail ∧
     ((tail = [archive false] ∧ fst run = Ok JNull) ∨
      (tail = [archive true] ∧ fst run = Ok JNull) ∨
      (∃ props,
         tail = [archive true;
                 (basic_publish "insurance.workflow" routing_key message props,
                  false)] ∧
         fst run = Ok JNull) ∨
      (∃ props,
         tail = [archive true;
                 (basic_publish "insurance.workflow" routing_key message props,
                  true)] ∧
         fst run = Ok (sent_receipt "routing_key" (JStr id) routing_key (JStr now))))).
Proof.
  split.
  - intros run.
    destruct (check_message_limit_quota_only E c w) as (_ & _ & quota_evs & Ht1 & Hq).
    destruct (send_client_message_courses c m w) as (id & now & Hcourse).
    exists quota_evs, id, now. simpl in Hcourse. fold run in Hcourse.
    destruct Hcourse as [Hrun|[(Hr & Ht & _)|[(Hr & Ht & _)|[(props & Hr & Ht & _)|
      (props & w3 & Hr & Ht & _ & Hend)]]]].
    + exists []. rewrite Hrun. simpl. rewrite app_nil_r. auto.
    + eexists. rewrite Ht, Ht1, <- app_assoc. split; [done|]. split; [done|].
      right; left. done.
    + eexists. rewrite Ht, Ht1, <- app_assoc. split; [done|]. split; [done|].
      right; right; left. done.
    + eexists. rewrite Ht, Ht1, <- app_assoc. split; [done|]. split; [done|].
      do 3 right. left. by exists props.
    + destruct (increment_message_counter_quota_only E c w3)
        as (_ & _ & counter_evs & Ht4 & Hcnt).
      eexists. rewrite Hend, Ht4, Ht, Ht1, <- !app_assoc. split; [done|].
      split; [done|]. do 4 right. by exists props, counter_evs.
  - intros run. subst run.
    unfold send_workflow_message, try_except, bind, new_uuid, utcnow. simpl.
    exists (uuid4 E (clock w)), (utcnow_isoformat E (S (clock w))).
    fold (workflow_envelope routing_key message_type content metadata
            (uuid4 E (clock w)) (utcnow_isoformat E (S (clock w)))).
    set (message := workflow_envelope _ _ _ _ _ _).
    set (path := workflow_archive_path E _).
    rewrite upload_json_run. autorewrite with world.
    destruct (dropbox_up E (S (S (clock w)))); simpl.
    + unfold publish_workflow_message.
      destruct (publish_message_shape "insurance.workflow" routing_key message
                  (stored path message
                     (logged (files_upload path message) true (tick (tick w))))
                  ltac:(by eexists))
        as [[Hc Hrun]|(ok & Hc & Hrun)]; rewrite Hrun; simpl.
      * exists [(files_upload path message, true)]. autorewrite with world.
        split; [done|]. right; left. done.
      * destruct ok; simpl.
        -- eexists. split; [by autorewrite with world; rewrite <- app_assoc|].
           do 3 right. eexists. done.
        -- eexists. split; [by autorewrite with world; rewrite <- app_assoc|].
           do 2 right. left. eexists. done.
    + exists [(files_upload path message, false)]. autorewrite with world.
      split; [done|]. left. done.
Qed.

(** ** The counter (C5) *)

Lemma metadata_read_dict c w kv0 kv :
  metadata_read E c w = JDict (kv0 :: kv) →
  files w !! metadata_path E c = Some (JDict (kv0 :: kv)).
Proof.
  unfold metadata_read. destruct (dropbox_up E (clock w)); [|done].
  destruct (files w !! metadata_path E c); [|done]. by intros ->.
Qed.

(** What [increment_message_counter] does to the store: nothing, or the
    count it read plus one, put back with the time of sending. *)
Lemma increment_message_counter_files c w :
  let w' := snd (increment_message_counter E c w) in
  files w' = files w ∨
  ∃ kv count now,
    files w !! metadata_path E c = Some (JDict kv) ∧
    py_add_int (dict_get_or "message_count_today" (JInt 0) kv) 1 = Ok count ∧
    files w' =
      <[metadata_path E c :=
          JDict (dict_set "last_message_sent" (JStr now)
                   (dict_set "message_count_today" count kv))]> (files w).
Proof.
  intros w'. subst w'. rewrite increment_message_counter_run.
  pose proof (get_client_metadata_files E c w) as Hf.
  destruct (metadata_read E c w) as [| | | | |[|kv0 kv]] eqn:Hr; simpl; auto.
  destruct (py_add_int _ 1) as [count|] eqn:Hadd; simpl; auto.
  rewrite update_client_metadata_run, upload_json_run. autorewrite with world.
  destruct (dropbox_up E _); simpl; autorewrite with world; [|auto].
  right. eexists _, count, _. rewrite Hf.
  split; [by apply metadata_read_dict|]. done.
Qed.

Lemma increment_message_counter_count c w :
  let w' := snd (increment_message_counter E c w) in
  stored_count E c w' = stored_count E c w ∨
  ∃ v v', stored_count E c w = Some v ∧ py_add_int v 1 = Ok v' ∧
          stored_count E c w' = Some v'.
Proof.
  intros w'. unfold stored_count.
  destruct (increment_message_counter_files c w)
    as [Hf|(kv & count & now & Hf & Hadd & Hf')]; subst w'.
  - left. by rewrite Hf.
  - right. rewrite Hf', Hf, lookup_insert_eq. eexists _, count.
    split; [done|]. split; [done|].
    rewrite dict_get_or_set_ne by done. by rewrite dict_get_or_set_eq.
Qed.

Lemma stored_count_archived c id message w w' :
  files w' = <[archive_path E c id := message]> (files w) →
  stored_count E c w' = stored_count E c w.
Proof.
  intros Hf. unfold stored_count. rewrite Hf, lookup_insert_ne; [done|].
  apply archive_path_not_metadata.
Qed.

(** What a successful send does to the count, when Dropbox answers every
    call: after the archive and the publication come the read of the
    metadata and the write of it with the count the check left plus one. *)
Lemma successful_send_adds_one c m w receipt kv v :
  let w1 := snd (check_message_limit E c w) in
  let run := send_client_message E c m w in
  fst run = Ok receipt → receipt ≠ JNull →
  (∀ n, dropbox_up E n = true) →
  files w1 !! metadata_path E c = Some (JDict kv) → kv ≠ [] →
  dict_get_or "message_count_today" (JInt 0) kv = JInt v →
  ∃ id now props sent_at,
    let message := client_envelope c m id now in
    let kv' := dict_set "last_message_sent" (JStr sent_at)
                 (dict_set "message_count_today" (JInt (v + 1)) kv) in
    trace (snd run) =
      trace w1 ++
      [ (files_upload (archive_path E c (JStr id)) message, true);
        (basic_publish "insurance.direct" c message props, true);
        (files_download (metadata_path E c), true);
        (files_upload (metadata_path E c) (JDict kv'), true) ] ∧
    files (snd run) !! metadata_path E c = Some (JDict kv') ∧
    stored_count E c w1 = Some (JInt v) ∧
    stored_count E c (snd run) = Some (JInt (v + 1)).
Proof.
  intros w1 run Hres Hne Hdbx Hf Hkv Hv.
  destruct (send_client_message_courses c m w) as (id & now & Hcourse).
  simpl in Hcourse. fold run w1 in Hcourse.
  destruct Hcourse as [Hrun|[(Hr & _)|[(Hr & _)|[(props & Hr & _)|
    (props & w3 & Hr & Ht & Hf3 & Hend)]]]];
    try (rewrite Hr in Hres; injection Hres as <-; done);
    [rewrite Hrun in Hres; discriminate Hres|].
  assert (files w3 !! metadata_path E c = Some (JDict kv)) as Hf3'.
  { rewrite Hf3, lookup_insert_ne; [done | apply archive_path_not_metadata]. }
  destruct (metadata_read_stored E c w3 _ (Hdbx _) Hf3') as [Hr3 Hw4].
  exists id, now, props, (utcnow_isoformat E (S (clock w3))).
  rewrite Hend, increment_message_counter_run, Hr3, Hw4.
  destruct kv as [|kv0 kv]; [done|]. rewrite Hv. unfold py_add_int.
  rewrite update_client_metadata_run, upload_json_run, Hdbx.
  cbv zeta. cbn [snd]. autorewrite with world.
  split; [by rewrite Ht, <- !app_assoc|].
  split; [apply lookup_insert_eq|].
  unfold stored_count. rewrite Hf. autorewrite with world.
  rewrite lookup_insert_eq, Hv.
  split; [done|].
  rewrite dict_get_or_set_ne by done. by rewrite dict_get_or_set_eq.
Qed.

(** What the quota check leaves of readable metadata whose [last_reset]
    is not the date read. *)
Lemma check_on_a_new_day c w kv :
  metadata_read E c w = JDict kv → kv ≠ [] →
  let today := today_isoformat E (S (clock w)) in
  dict_get "last_reset" kv ≠ Some (JStr today) →
  files (snd (check_message_limit E c w)) =
    (if dropbox_up E (S (S (clock w)))
     then <[metadata_path E c := reset_metadata today kv]> (files w)
     else files w).
Proof.
  intros Hr Hkv today Hlr. rewrite check_message_limit_run, Hr.
  pose proof (get_client_metadata_clock E c w) as Hclock.
  pose proof (get_client_metadata_files E c w) as Hfiles.
  destruct kv as [|kv0 kv]; [done|]. rewrite Hclock. fold today.
  destruct (py_eq_str _ today) eqn:Heq; [by apply last_reset_is in Heq|].
  rewrite update_client_metadata_run, upload_json_run.
  autorewrite with world. rewrite Hclock.
  destruct (dropbox_up E (S (S (clock w)))); simpl; autorewrite with world;
    by rewrite Hfiles.
Qed.

(** C5, as amended.  Relative to the world [w1] the quota check leaves,
    a call to [send_client_message] ends in one of four ways.  Denied: the
    exception is raised in [w1] itself.  Archival failed: [None], and the
    store is as in [w1].  Publication failed (not connected, or refused by
    the broker): [None], the archived envelope is in the store and the
    count is as in [w1].  Published: the receipt is returned and the count
    is as in [w1] or that count plus exactly one; it is that count plus one
    when Dropbox answers every call.  So the count is incremented only
    after a successful publication, and no failure path moves it after the
    check.  As for the check: it leaves the store alone when [last_reset]
    is the date it reads and when the metadata cannot be read; on readable
    metadata of another day it sends the reset, and the store then holds
    the count 0 when it accepts that write, and what it held when it
    refuses. *)
Theorem counter_incremented_only_after_publish (c : json) (m : MessageCreate)
    (w : World) :
  let w1 := snd (check_message_limit E c w) in
  let run := send_client_message E c m w in
  (∃ id now tail,
     let message := client_envelope c m id now in
     let path := archive_path E c (JStr id) in
     let archive ok := (files_upload path message, ok) in
     trace (snd run) = trace w1 ++ tail ∧
     ((fst run = Raise (MessageLimitExceededException c) ∧ snd run = w1) ∨
      (fst run = Ok JNull ∧ tail = [archive false] ∧ files (snd run) = files w1) ∨
      (fst run = Ok JNull ∧
       (tail = [archive true] ∨
        ∃ props, tail = [archive true;
                         (basic_publish "insurance.direct" c message props, false)]) ∧
       files (snd run) !! path = Some message ∧
       stored_count E c (snd run) = stored_count E c w1) ∨
      (fst run = Ok (sent_receipt "client_id" (JStr id) c (JStr now)) ∧
       (∃ props evs,
          tail = [archive true;
                  (basic_publish "insurance.direct" c message props, true)] ++ evs) ∧
       (stored_count E c (snd run) = stored_count E c w1 ∨
        ∃ v v', stored_count E c w1 = Some v ∧ py_add_int v 1 = Ok v' ∧
                stored_count E c (snd run) = Some v')))) ∧
  (∀ receipt kv v,
     fst run = Ok receipt → receipt ≠ JNull →
     (∀ n, dropbox_up E n = true) →
     files w1 !! metadata_path E c = Some (JDict kv) → kv ≠ [] →
     dict_get_or "message_count_today" (JInt 0) kv = JInt v →
     stored_count E c w1 = Some (JInt v) ∧
     stored_count E c (snd run) = Some (JInt (v + 1))) ∧
  (∀ kv, metadata_read E c w = JDict kv →
         dict_get "last_reset" kv
           = Some (JStr (today_isoformat E (S (clock w)))) →
         files w1 = files w) ∧
  (∀ kv, metadata_read E c w = JDict kv → kv ≠ [] →
         let today := today_isoformat E (S (clock w)) in
         let reset := dropbox_up E (S (S (clock w))) in
         dict_get "last_reset" kv ≠ Some (JStr today) →
         files w1 = (if reset
                     then <[metadata_path E c := reset_metadata today kv]> (files w)
                     else files w) ∧
         (reset = true → stored_count E c w1 = Some (JInt 0)) ∧
         (reset = false → stored_count E c w1 = stored_count E c w)) ∧
  ((∀ kv0 kv, metadata_read E c w ≠ JDict (kv0 :: kv)) → files w1 = files w).
Proof.
  intros w1 run. split; [|split; [|split; [|split]]].
  - destruct (send_client_message_courses c m w) as (id & now & Hcourse).
    exists id, now. simpl in Hcourse. fold run w1 in Hcourse.
    destruct Hcourse as [Hrun|[(Hr & Ht & Hf)|[(Hr & Ht & Hf)|[(props & Hr & Ht & Hf)|
      (props & w3 & Hr & Ht & Hf & Hend)]]]].
    + exists []. rewrite Hrun. simpl. rewrite app_nil_r. auto.
    + eexists. split; [exact Ht|]. right; left. done.
    + eexists. split; [exact Ht|]. right; right; left.
      split; [done|]. split; [by left|]. split.
      * by rewrite Hf, lookup_insert_eq.
      * by eapply stored_count_archived.
    + eexists. split; [exact Ht|]. right; right; left.
      split; [done|]. split; [right; by exists props|]. split.
      * by rewrite Hf, lookup_insert_eq.
      * by eapply stored_count_archived.
    + destruct (increment_message_counter_quota_only E c w3)
        as (_ & _ & evs & Ht4 & _).
      eexists. split; [by rewrite Hend, Ht4, Ht, <- app_assoc|].
      do 3 right. split; [done|]. split; [by exists props, evs|].
      rewrite Hend, <- (stored_count_archived c _ _ w1 w3 Hf).
      apply increment_message_counter_count.
  - intros receipt kv v Hres Hne Hdbx Hf Hkv Hv.
    destruct (successful_send_adds_one c m w receipt kv v Hres Hne Hdbx Hf Hkv Hv)
      as (id & now & props & sent_at & _ & _ & H1 & H2).
    by split.
  - intros kv Hr Hlr. subst w1. rewrite check_message_limit_run, Hr.
    rewrite get_client_metadata_clock.
    destruct kv as [|kv0 kv]; [discriminate Hlr|].
    apply last_reset_is in Hlr. rewrite Hlr. simpl.
    apply get_client_metadata_files.
  - intros kv Hr Hkv today reset Hlr.
    pose proof (check_on_a_new_day c w kv Hr Hkv Hlr) as Hfiles.
    fold w1 today reset in Hfiles. split; [exact Hfiles|]. split.
    + intros Hreset. rewrite Hreset in Hfiles.
      unfold stored_count. rewrite Hfiles, lookup_insert_eq. unfold reset_metadata.
      rewrite dict_get_or_set_ne by done. by rewrite dict_get_or_set_eq.
    + intros Hreset. rewrite Hreset in Hfiles.
      unfold stored_count. by rewrite Hfiles.
  - intros Hnot. subst w1. rewrite check_message_limit_run.
    pose proof (get_client_metadata_files E c w) as Hfiles.
    destruct (metadata_read E c w) as [|b|n|s|l|[|kv0 kv]] eqn:Hr; simpl;
      try exact Hfiles.
    + by destruct b.
    + by destruct (negb (n =? 0)).
    + by destruct (negb (String.eqb s "")).
    + by destruct l.
    + by destruct (Hnot kv0 kv).
Qed.

End Archive.

Lemma counter_incremented_only_after_publish_witness :
  files (snd (MessagePublisher.check_message_limit quiet (JStr "acme")
                (acme_on_day "2024-01-02" 3)))
  = files (acme_on_day "2024-01-02" 3) ∧
  stored_count quiet (JStr "acme")
    (snd (MessagePublisher.check_message_limit quiet (JStr "acme")
            (acme_on_day "2024-01-01" 5))) = Some (JInt 0) ∧
  stored_count (dropbox_down_at 2) (JStr "acme")
    (snd (MessagePublisher.check_message_limit (dropbox_down_at 2) (JStr "acme")
            (acme_on_day "2024-01-01" 5))) = Some (JInt 5).
Proof.
  split; [|split].
  - destruct (counter_incremented_only_after_publish quiet (JStr "acme") hello
                (acme_on_day "2024-01-02" 3)) as (_ & _ & Hsame & _).
    apply (Hsame [ ("client_id", JStr "acme"); ("last_reset", JStr "2024-01-02");
                   ("message_count_today", JInt 3) ]);
      reflexivity.
  - destruct (counter_incremented_only_after_publish quiet (JStr "acme") hello
                (acme_on_day "2024-01-01" 5)) as (_ & _ & _ & Hreset & _).
    destruct (Hreset [ ("client_id", JStr "acme"); ("last_reset", JStr "2024-01-01");
                       ("message_count_today", JInt 5) ])
      as (_ & Hzero & _); [reflexivity | discriminate | discriminate |].
    apply Hzero. reflexivity.
  - destruct (counter_incremented_only_after_publish (dropbox_down_at 2)
                (JStr "acme") hello (acme_on_day "2024-01-01" 5))
      as (_ & _ & _ & Hreset & _).
    destruct (Hreset [ ("client_id", JStr "acme"); ("last_reset", JStr "2024-01-01");
                       ("message_count_today", JInt 5) ])
      as (_ & _ & Hkept); [reflexivity | discriminate | discriminate |].
    rewrite Hkept; reflexivity.
Defined.

(** C5 as stated fails on the first send of a new day.  The account says 5
    messages were sent on 1 January; on 2 January the check resets the
    count and the store accepts that write, then Dropbox refuses the
    archive.  The call returns [None], a failure, and the stored count has
    gone from 5 to 0. *)
Lemma failed_send_changes_counter :
  let w := acme_on_day "2024-01-01" 5 in
  let run := MessagePublisher.send_client_message (dropbox_down_at 5)
               (JStr "acme") hello w in
  fst run = Ok JNull ∧
  stored_count (dropbox_down_at 5) (JStr "acme") w = Some (JInt 5) ∧
  stored_count (dropbox_down_at 5) (JStr "acme") (snd run) = Some (JInt 0) ∧
  trace (snd run) =
  [ (files_download "/clients/acme/metadata.json", true);
    (files_upload "/clients/acme/metadata.json" (quota_state "2024-01-02" 0), true);
    (files_upload "/clients/acme/messages/6f1c.json"
       (client_envelope (JStr "acme") hello "6f1c" "2024-01-02T09:00:00"), false) ].
Proof. repeat split; vm_compute; reflexivity. Qed.

(** ** Notifications (C10) *)

Section Notification.

Variable E : Env.

Import DropboxManager AMQPManager MessagePublisher.

Lemma check_message_limit_first_call c w :
  ∃ ok evs,
    trace (snd (check_message_limit E c w))
    = trace w ++ (files_download (metadata_path E c), ok) :: evs.
Proof.
  rewrite check_message_limit_run.
  assert (∃ ok, snd (get_client_metadata E c w)
                = logged (files_download (metadata_path E c)) ok w) as [ok Hw1].
  { rewrite get_client_metadata_run, download_json_run.
    destruct (if dropbox_up E (clock w) then _ else _); by eexists. }
  rewrite Hw1. exists ok.
  destruct (metadata_read E c w) as [|b|n|s|l|[|kv0 kv]]; simpl;
    try (by exists nil).
  - destruct b; by exists nil.
  - destruct (negb (n =? 0)); by exists nil.
  - destruct (negb (String.eqb s "")); by exists nil.
  - destruct l; by exists nil.
  - destruct (py_eq_str _ _); simpl; [by exists nil|].
    rewrite update_client_metadata_run, upload_json_run.
    destruct (dropbox_up E _); simpl; autorewrite with world;
      rewrite <- app_assoc; by eexists.
Qed.

Lemma increment_message_counter_first_call c w :
  ∃ ok evs,
    trace (snd (increment_message_counter E c w))
    = trace w ++ (files_download (metadata_path E c), ok) :: evs.
Proof.
  rewrite increment_message_counter_run.
  assert (∃ ok, snd (get_client_metadata E c w)
                = logged (files_download (metadata_path E c)) ok w) as [ok Hw1].
  { rewrite get_client_metadata_run, download_json_run.
    destruct (if dropbox_up E (clock w) then _ else _); by eexists. }
  rewrite Hw1. exists ok.
  destruct (metadata_read E c w) as [|b|n|s|l|[|kv0 kv]]; simpl;
    try (by exists nil).
  destruct (py_add_int _ 1); simpl; [|by exists nil].
  rewrite update_client_metadata_run, upload_json_run.
  destruct (dropbox_up E _); simpl; autorewrite with world;
    rewrite <- app_assoc; by eexists.
Qed.

(** C10.  [send_notification] never raises.  The calls it makes are the
    upload of the notification to the archive and, when the manager is
    connected, one publication to [insurance.direct] under the client id,
    whether the upload went through or not; there is no read of the
    metadata (no quota check) and no write to it (no increment), and the
    metadata of the client is what it was.  [send_client_message], for its
    part, starts with the read of the metadata, stops after a failed
    archival without publishing, and increments the counter after a
    successful send: the publication is followed by the read of the
    metadata, and when Dropbox answers every call the metadata is written
    back with the count the check left plus one, which is then the count
    the store holds. *)
Theorem notification_skips_quota (c notification_type content priority : json)
    (m : MessageCreate) (w : World) :
  (let run := send_notification E c notification_type content priority w in
   let id := uuid4 E (clock w) in
   let now := utcnow_isoformat E (S (clock w)) in
   let message :=
     notification_envelope c notification_type content priority id now in
   let path := archive_path E c (JStr id) in
   let archived := dropbox_up E (S (S (clock w))) in
   ((channel w = false ∧ fst run = Ok JNull ∧
     trace (snd run) = trace w ++ [(files_upload path message, archived)]) ∨
    (∃ props (published : bool),
       channel w = true ∧
       fst run = (if published
                  then Ok (sent_receipt "client_id" (JStr id) c (JStr now))
                  else Ok JNull) ∧
       trace (snd run) =
         trace w ++ [ (files_upload path message, archived);
                      (basic_publish "insurance.direct" c message props,
                       published) ])) ∧
   files (snd run) !! metadata_path E c = files w !! metadata_path E c) ∧
  (let run := send_client_message E c m w in
   let w1 := snd (check_message_limit E c w) in
   (∃ ok evs, trace (snd run)
              = trace w ++ (files_download (metadata_path E c), ok) :: evs) ∧
   (∀ path message evs,
      trace (snd run) = trace w1 ++ (files_upload path message, false) :: evs →
      evs = [] ∧ fst run = Ok JNull) ∧
   (∀ receipt, fst run = Ok receipt → receipt ≠ JNull →
      (∃ id now props read evs,
         let message := client_envelope c m id now in
         trace (snd run) =
           trace w1 ++
           [ (files_upload (archive_path E c (JStr id)) message, true);
             (basic_publish "insurance.direct" c message props, true);
             (files_download (metadata_path E c), read) ] ++ evs) ∧
      (∀ kv v,
         (∀ n, dropbox_up E n = true) →
         files w1 !! metadata_path E c = Some (JDict kv) → kv ≠ [] →
         dict_get_or "message_count_today" (JInt 0) kv = JInt v →
         ∃ id now props sent_at,
           let message := client_envelope c m id now in
           let kv' := dict_set "last_message_sent" (JStr sent_at)
                        (dict_set "message_count_today" (JInt (v + 1)) kv) in
           trace (snd run) =
             trace w1 ++
             [ (files_upload (archive_path E c (JStr id)) message, true);
               (basic_publish "insurance.direct" c message props, true);
               (files_download (metadata_path E c), true);
               (files_upload (metadata_path E c) (JDict kv'), true) ] ∧
           stored_count E c w1 = Some (JInt v) ∧
           stored_count E c (snd run) = Some (JInt (v + 1))))).
Proof.
  split.
  - intros run id now message path archived. subst run.
    unfold send_notification, try_except, bind, new_uuid, utcnow. simpl.
    fold id now. fold (notification_envelope c notification_type content priority id now).
    fold message path.
    rewrite upload_json_run. autorewrite with world. fold archived.
    set (w2 := if archived
               then stored path message
                      (logged (files_upload path message) true (tick (tick w)))
               else logged (files_upload path message) false (tick (tick w))).
    assert (trace w2 = trace w ++ [(files_upload path message, archived)]
            ∧ channel w2 = channel w
            ∧ files w2 !! metadata_path E c = files w !! metadata_path E c)
      as (Ht2 & Hc2 & Hf2).
    { subst w2. destruct archived; autorewrite with world; [|done].
      split; [done|]. split; [done|]. apply lookup_insert_ne.
      apply archive_path_not_metadata. }
    assert ((if archived
             then (Ok true, stored path message
                     (logged (files_upload path message) true (tick (tick w))))
             else (Ok false, logged (files_upload path message) false (tick (tick w))))
            = (Ok archived, w2)) as -> by (subst w2; by destruct archived).
    simpl. unfold publish_client_message.
    destruct (publish_message_shape E "insurance.direct" c message w2
                ltac:(by eexists))
      as [[Hc Hrun]|(ok & Hc & Hrun)]; rewrite Hrun; simpl.
    + split; [|exact Hf2]. left. split; [congruence|]. split; [done | exact Ht2].
    + assert (channel w = true) as Hcw by congruence.
      destruct ok; simpl; autorewrite with world.
      * split; [|exact Hf2]. right. eexists _, true. split; [done|].
        split; [done|]. by rewrite Ht2, <- app_assoc.
      * split; [|exact Hf2]. right. eexists _, false. split; [done|].
        split; [done|]. by rewrite Ht2, <- app_assoc.
  - intros run w1.
    destruct (send_client_message_courses E c m w) as (id & now & Hcourse).
    simpl in Hcourse. fold run w1 in Hcourse.
    destruct (check_message_limit_first_call c w) as (ok & evs1 & Ht1). fold w1 in Ht1.
    destruct Hcourse as [Hrun|[(Hr & Ht & Hf)|[(Hr & Ht & Hf)|[(props & Hr & Ht & Hf)|
      (props & w3 & Hr & Ht & Hf & Hend)]]]].
    + rewrite Hrun. simpl. split; [by eexists _, _|]. split.
      * intros path message evs H.
        rewrite <- (app_nil_r (trace w1)) in H at 1.
        by apply app_inv_head in H.
      * by intros receipt [=].
    + split; [|split].
      * rewrite Ht, Ht1, <- app_assoc. by eexists _, _.
      * intros path message evs H. rewrite Ht in H. apply app_inv_head in H.
        injection H as _ _ <-. by rewrite Hr.
      * rewrite Hr. by intros receipt [= <-].
    + split; [|split].
      * rewrite Ht, Ht1, <- app_assoc. by eexists _, _.
      * intros path message evs H. rewrite Ht in H. apply app_inv_head in H.
        discriminate H.
      * rewrite Hr. by intros receipt [= <-].
    + split; [|split].
      * rewrite Ht, Ht1, <- app_assoc. by eexists _, _.
      * intros path message evs H. rewrite Ht in H. apply app_inv_head in H.
        discriminate H.
      * rewrite Hr. by intros receipt [= <-].
    + destruct (increment_message_counter_quota_only E c w3)
        as (_ & _ & evs4 & Ht4 & _).
      split; [|split].
      * rewrite Hend, Ht4, Ht, Ht1, <- !app_assoc. by eexists _, _.
      * intros path message evs H. rewrite Hend, Ht4, Ht, <- app_assoc in H.
        apply app_inv_head in H. discriminate H.
      * intros receipt Hres Hne. split.
        -- destruct (increment_message_counter_first_call c w3)
             as (read & evs & Hinc).
           exists id, now, props, read, evs. cbv zeta.
           by rewrite Hend, Hinc, Ht, <- !app_assoc.
        -- intros kv v Hdbx Hfk Hkv Hv.
           destruct (successful_send_adds_one E c m w receipt kv v
                       Hres Hne Hdbx Hfk Hkv Hv)
             as (id' & now' & props' & sent_at & Htr & _ & H1 & H2).
           by exists id', now', props', sent_at.
Qed.

End Notification.

Lemma notification_skips_quota_witness :
  stored_count quiet (JStr "acme")
    (snd (MessagePublisher.send_client_message quiet (JStr "acme") hello
            (acme_on_day "2024-01-02" 3))) = Some (JInt 4).
Proof.
  destruct (notification_skips_quota quiet (JStr "acme") (JStr "outage")
              (JStr "maintenance at noon") (JInt 5) hello
              (acme_on_day "2024-01-02" 3)) as [_ (_ & _ & Hsent)].
  destruct (Hsent (MessagePublisher.sent_receipt "client_id" (JStr "6f1c")
                     (JStr "acme") (JStr "2024-01-02T09:00:00")))
    as [_ Hcount]; [reflexivity | discriminate |].
  destruct (Hcount [ ("client_id", JStr "acme"); ("last_reset", JStr "2024-01-02");
                     ("message_count_today", JInt 3) ] 3)
    as (_ & _ & _ & _ & _ & _ & Hafter);
    [intros n; reflexivity | reflexivity | discriminate | reflexivity |].
  exact Hafter.
Defined.

(** ** Resending (C6) *)

Section Resend.

Variable E : Env.

Import DropboxManager AMQPManager MessagePublisher.

(** C6.  Let the archive hold an envelope, a non-empty JSON object whose
    [retry_count] is absent (read as 0) or an integer [r], let Dropbox
    answer the read, and let the manager be connected.  Then
    [resend_failed_message] reads the envelope, gives it the time of the
    resend as [timestamp] and [r + 1] as [retry_count], every other field
    being kept, uploads it to the same path and publishes it to
    [insurance.direct] under the client id; the answer is that of the
    broker.  These three calls are all it makes: the metadata is neither
    read nor written, and [message_count_today] is what it was for every
    client. *)
Theorem resend_republishes_without_quota (message_id c : json) (w : World)
    (kv : list (string * json)) (r : Z) :
  dropbox_up E (clock w) = true →
  files w !! archive_path E c message_id = Some (JDict kv) →
  kv ≠ [] →
  dict_get_or "retry_count" (JInt 0) kv = JInt r →
  channel w = true →
  let path := archive_path E c message_id in
  let now := utcnow_isoformat E (S (clock w)) in
  let kv' := dict_set "retry_count" (JInt (r + 1))
               (dict_set "timestamp" (JStr now) kv) in
  let run := resend_failed_message E message_id c w in
  dict_get "timestamp" kv' = Some (JStr now) ∧
  dict_get "retry_count" kv' = Some (JInt (r + 1)) ∧
  (∀ k, k ≠ "timestamp" → k ≠ "retry_count" → dict_get k kv' = dict_get k kv) ∧
  (∃ (archived published : bool) props,
     trace (snd run) =
       trace w ++ [ (files_download path, true);
                    (files_upload path (JDict kv'), archived);
                    (basic_publish "insurance.direct" c (JDict kv') props,
                     published) ] ∧
     fst run = Ok published ∧
     files (snd run) =
       if archived then <[path := JDict kv']> (files w) else files w) ∧
  (∀ c', stored_count E c' (snd run) = stored_count E c' w).
Proof.
  intros Hup Hf Hne Hr Hc path now kv' run.
  assert (∃ (archived published : bool) props,
     trace (snd run) =
       trace w ++ [ (files_download path, true);
                    (files_upload path (JDict kv'), archived);
                    (basic_publish "insurance.direct" c (JDict kv') props,
                     published) ] ∧
     fst run = Ok published ∧
     files (snd run) =
       if archived then <[path := JDict kv']> (files w) else files w)
    as Hrun.
  { subst run. unfold resend_failed_message, try_except, bind.
    fold path in Hf |- *. rewrite download_json_run, Hup, Hf.
    destruct kv as [|kv0 kv]; [done|]. simpl.
    unfold utcnow, lift. simpl. rewrite dict_get_or_set_ne by done.
    rewrite Hr. simpl. fold now. fold kv'.
    rewrite upload_json_run. autorewrite with world.
    set (archived := dropbox_up E (S (S (clock w)))).
    set (w0 := tick (logged (files_download path) true w)).
    set (w2 := if archived
               then stored path (JDict kv')
                      (logged (files_upload path (JDict kv')) true w0)
               else logged (files_upload path (JDict kv')) false w0).
    assert ((if archived
             then (Ok true, stored path (JDict kv')
                     (logged (files_upload path (JDict kv')) true w0))
             else (Ok false, logged (files_upload path (JDict kv')) false w0))
            = (Ok archived, w2)) as -> by (subst w2; by destruct archived).
    assert (trace w2 = trace w ++ [ (files_download path, true);
                                    (files_upload path (JDict kv'), archived) ]
            ∧ channel w2 = true
            ∧ files w2 = if archived then <[path := JDict kv']> (files w)
                         else files w)
      as (Ht2 & Hc2 & Hf2).
    { subst w2 w0. destruct archived; autorewrite with world;
        by rewrite <- app_assoc. }
    simpl. unfold publish_client_message.
    destruct (publish_message_shape E "insurance.direct" c (JDict kv') w2
                ltac:(by eexists))
      as [[Hc' _]|(ok & _ & Hpub)]; [congruence|].
    rewrite Hpub. simpl. eexists archived, ok, _. autorewrite with world.
    rewrite Ht2, <- app_assoc. done. }
  split; [subst kv'; rewrite dict_get_set_ne by done; apply dict_get_set_eq|].
  split; [apply dict_get_set_eq|].
  split; [intros k Hk1 Hk2; subst kv'; by rewrite !dict_get_set_ne|].
  split; [exact Hrun|].
  destruct Hrun as (archived & _ & _ & _ & _ & Hfiles).
  intros c'. unfold stored_count. rewrite Hfiles.
  destruct archived; [|done].
  destruct (decide (path = metadata_path E c')) as [Heq|Hneq].
  - rewrite <- Heq, lookup_insert_eq. fold path in Hf. rewrite Hf.
    subst kv'. by rewrite !dict_get_or_set_ne.
  - by rewrite lookup_insert_ne.
Qed.

End Resend.

Lemma resend_republishes_without_quota_witness :
  let w := world_of
             [ ("/clients/acme/messages/6f1c.json",
                client_envelope (JStr "acme") hello "6f1c" "2024-01-01T17:00:00") ] in
  fst (MessagePublisher.resend_failed_message quiet (JStr "6f1c") (JStr "acme") w)
  = Ok true.
Proof.
  intros w.
  destruct (resend_republishes_without_quota quiet (JStr "6f1c") (JStr "acme") w
              [ ("id", JStr "6f1c"); ("type", JStr "claim_update");
                ("content", JStr "claim 12 approved");
                ("timestamp", JStr "2024-01-01T17:00:00");
                ("client_id", JStr "acme"); ("attachments", JList []);
                ("metadata", JDict []) ] 0)
    as (_ & _ & _ & _ & _);
    [reflexivity | reflexivity | discriminate | reflexivity | reflexivity |].
  reflexivity.
Defined.

(** ** Batches (C8) *)

Section Bulk.

Variable E : Env.

Import DropboxManager AMQPManager MessagePublisher.

Lemma send_client_message_result c m w :
  (∃ r, fst (send_client_message E c m w) = Ok r) ∨
  fst (send_client_message E c m w) = Raise (MessageLimitExceededException c).
Proof.
  rewrite send_client_message_run.
  destruct (fst (check_message_limit E c w)) as [[|]|]; simpl; auto.
  destruct (dropbox_up E _); simpl; [|by left; eexists].
  destruct (fst (publish_client_message E c _ _)) as [[|]|]; simpl;
    left; by eexists.
Qed.

(** One turn of the loop appends one entry to one bucket; which one, and
    the world left behind, do not depend on the results so far. *)
Lemma send_bulk_step_outcome message_data w :
  ∃ o w', ∀ results,
    send_bulk_step E message_data results w = (Ok (record_outcome o results), w').
Proof.
  unfold send_bulk_step, try_except, bind, lift.
  destruct (py_getitem (JDict message_data) "client_id") as [c|e];
    [|by eexists (Failed _ _), _].
  destruct (check_message_limit_total E c w) as [allowed Ha].
  destruct (check_message_limit E c w) as [r w1]. simpl in Ha. subst r.
  destruct allowed; simpl; [|by eexists (LimitExceeded _ _), _].
  destruct (new_MessageCreate E c (JDict message_data)) as [m|e];
    [|by eexists (Failed _ _), _].
  destruct (send_client_message_result c m w1) as [[r Hr]|Hr];
    destruct (send_client_message E c m w1) as [r' w2]; simpl in Hr; subst r'.
  - destruct (truthy r); [by eexists (Delivered _), _ | by eexists (Failed _ _), _].
  - by eexists (Failed _ _), _.
Qed.

Lemma merge_no_results_r a : merge_results a no_results = a.
Proof. destruct a. unfold merge_results. simpl. by rewrite !app_nil_r. Qed.

Lemma merge_record o a b :
  merge_results (record_outcome o a) b
  = merge_results a (merge_results (record_outcome o no_results) b).
Proof.
  destruct o; unfold merge_results, record_outcome, add_successful, add_failed,
    add_limit_exceeded; simpl; by rewrite <- ?app_assoc.
Qed.

Lemma entries_record o a : entries (record_outcome o a) = S (entries a).
Proof.
  destruct o; unfold entries, record_outcome, add_successful, add_failed,
    add_limit_exceeded; simpl; rewrite length_app; simpl; lia.
Qed.

Lemma entries_merge a b : entries (merge_results a b) = (entries a + entries b)%nat.
Proof. unfold entries, merge_results. simpl. rewrite !length_app. lia. Qed.

(** The loop from any results is the loop from none, merged in, and it
    yields as many entries as there are items. *)
Lemma send_bulk_loop_merge messages w :
  ∃ r w', entries r = length messages ∧
    ∀ results,
      send_bulk_loop E messages results w = (Ok (merge_results results r), w').
Proof.
  revert w. induction messages as [|message_data rest IH]; intros w.
  - exists no_results, w. split; [done|]. intros results. simpl. unfold ret.
    by rewrite merge_no_results_r.
  - destruct (send_bulk_step_outcome message_data w) as (o & w1 & Hstep).
    destruct (IH w1) as (r & w' & Hlen & Hloop).
    exists (merge_results (record_outcome o no_results) r), w'. split.
    + rewrite entries_merge, entries_record, Hlen. done.
    + intros results. simpl. unfold bind. rewrite Hstep, Hloop.
      by rewrite merge_record.
Qed.

Lemma send_bulk_loop_app pre post results w :
  send_bulk_loop E (pre ++ post) results w =
  match send_bulk_loop E pre results w with
  | (Ok r, w') => send_bulk_loop E post r w'
  | (Raise e, w') => (Raise e, w')
  end.
Proof.
  revert results w. induction pre as [|message_data pre IH]; intros results w.
  - done.
  - simpl. unfold bind.
    destruct (send_bulk_step E message_data results w) as [[r|e] w1]; [|done].
    apply IH.
Qed.

Lemma merge_no_results_l a : merge_results no_results a = a.
Proof. by destruct a. Qed.

(** A check that denies leaves the store as it was, unless the limit is
    not even positive. *)
Lemma denied_check_keeps_files c w :
  0 < daily_message_limit E →
  fst (check_message_limit E c w) = Ok false →
  files (snd (check_message_limit E c w)) = files w.
Proof.
  intros Hpos. rewrite check_message_limit_run.
  pose proof (get_client_metadata_files E c w) as Hf.
  destruct (metadata_read E c w) as [|b|n|s|l|[|kv0 kv]]; simpl; try done.
  - by destruct b.
  - by destruct (negb (n =? 0)).
  - by destruct (negb (String.eqb s "")).
  - by destruct l.
  - destruct (py_eq_str _ _); simpl; [done|].
    intros [= H]. lia.
Qed.

(** One turn of the loop, case by case: where the item goes is decided by
    its ['client_id'], by the answer of [check_message_limit], by the
    construction of the [MessageCreate] and by what [send_client_message]
    returns or raises, and the world left is the one of the last of these
    that ran. *)
Lemma send_bulk_step_cases item results w0 :
  let step := send_bulk_step E item results w0 in
  (dict_get "client_id" item = None →
   step = (Ok (add_failed (JStr "unknown") (StrOf (KeyError "client_id")) results),
           w0)) ∧
  (∀ c0, dict_get "client_id" item = Some c0 →
     let checked := check_message_limit E c0 w0 in
     (fst checked = Ok false →
      step = (Ok (add_limit_exceeded c0 (Literal "Daily limit exceeded") results),
              snd checked)) ∧
     (fst checked = Ok true →
      (∀ e, new_MessageCreate E c0 (JDict item) = Raise e →
         step = (Ok (add_failed c0 (StrOf e) results), snd checked)) ∧
      (∀ m0, new_MessageCreate E c0 (JDict item) = Ok m0 →
         let sent := send_client_message E c0 m0 (snd checked) in
         snd step = snd sent ∧
         (∀ r, fst sent = Ok r → truthy r = true →
            fst step = Ok (add_successful r results)) ∧
         (∀ r, fst sent = Ok r → truthy r = false →
            fst step
            = Ok (add_failed c0 (Literal "Failed to send message") results)) ∧
         (∀ e, fst sent = Raise e →
            fst step = Ok (add_failed c0 (StrOf e) results))))).
Proof.
  intros step. subst step. cbv zeta.
  unfold send_bulk_step, try_except, bind, lift, py_getitem. split.
  - intros Hc. rewrite Hc. unfold dict_get_or. by rewrite Hc.
  - intros c0 Hc. rewrite Hc.
    assert (dict_get_or "client_id" (JStr "unknown") item = c0) as Hor
      by (unfold dict_get_or; by rewrite Hc).
    destruct (check_message_limit E c0 w0) as [r w1]. simpl. split.
    + intros ->. reflexivity.
    + intros ->. simpl. split.
      * intros e ->. by rewrite Hor.
      * intros m0 ->. simpl.
        destruct (send_client_message E c0 m0 w1) as [[r|e] w2]; simpl.
        -- split; [by destruct (truthy r)|].
           split; [by intros r' [= <-] ->|].
           split; [by intros r' [= <-] ->|]. by intros e [=].
        -- split; [done|]. split; [by intros r' [=]|].
           split; [by intros r' [=]|]. intros e' [= <-]. by rewrite Hor.
Qed.

(** C8.  Each item of a batch is classified by what happens to it, and
    lands in exactly one bucket.  An item without ['client_id'] is
    [failed] under the client [unknown].  Otherwise the quota of its
    client is checked: a denial puts the client in [limit_exceeded] and
    nothing more is done for the item.  An admitted item that cannot be
    made a [MessageCreate] is [failed] with the error.  For the others
    [send_client_message] is called, and the world after the item is the
    one that call leaves: its receipt goes to [successful], [None] makes
    the item [failed] with "Failed to send message", and an exception
    makes it [failed] with the text of the exception.  So a batch of [n]
    items yields [n] entries and [send_bulk_messages] never raises.  Let
    an item of client [c] come after the items [pre] and before the items
    [post], and let the check of [c] deny it.  Then the item adds [c] to
    [limit_exceeded] and nothing else; the check is about the quota of [c]
    only, makes no call to the channel and, the limit being positive,
    leaves the store as it was; and the batch yields the entries of [pre]
    followed by those of [post], each bucket in order, exactly as [post]
    alone yields them from the world the check has left. *)
Theorem bulk_over_quota_isolated (pre post : list (list (string * json)))
    (message_data : list (string * json)) (c : json) (w : World) :
  (∀ item results w0,
     let step := send_bulk_step E item results w0 in
     (dict_get "client_id" item = None →
      step = (Ok (add_failed (JStr "unknown") (StrOf (KeyError "client_id")) results),
              w0)) ∧
     (∀ c0, dict_get "client_id" item = Some c0 →
        let checked := check_message_limit E c0 w0 in
        (fst checked = Ok false →
         step = (Ok (add_limit_exceeded c0 (Literal "Daily limit exceeded") results),
                 snd checked)) ∧
        (fst checked = Ok true →
         (∀ e, new_MessageCreate E c0 (JDict item) = Raise e →
            step = (Ok (add_failed c0 (StrOf e) results), snd checked)) ∧
         (∀ m0, new_MessageCreate E c0 (JDict item) = Ok m0 →
            let sent := send_client_message E c0 m0 (snd checked) in
            snd step = snd sent ∧
            (∀ r, fst sent = Ok r → truthy r = true →
               fst step = Ok (add_successful r results)) ∧
            (∀ r, fst sent = Ok r → truthy r = false →
               fst step
               = Ok (add_failed c0 (Literal "Failed to send message") results)) ∧
            (∀ e, fst sent = Raise e →
               fst step = Ok (add_failed c0 (StrOf e) results)))))) ∧
  (∀ item results w0, ∃ o,
     fst (send_bulk_step E item results w0) = Ok (record_outcome o results)) ∧
  (∀ messages w0, ∃ results,
     fst (send_bulk_messages E messages w0) = Ok results ∧
     (length (successful results) + length (failed results)
      + length (limit_exceeded results) = length messages)%nat) ∧
  (let w_pre := snd (send_bulk_messages E pre w) in
   let w_checked := snd (check_message_limit E c w_pre) in
   dict_get "client_id" message_data = Some c →
   fst (check_message_limit E c w_pre) = Ok false →
   ∃ r_pre r_post,
     fst (send_bulk_messages E pre w) = Ok r_pre ∧
     fst (send_bulk_messages E post w_checked) = Ok r_post ∧
     fst (send_bulk_messages E (pre ++ message_data :: post) w) =
       Ok {| successful := successful r_pre ++ successful r_post;
             failed := failed r_pre ++ failed r_post;
             limit_exceeded :=
               limit_exceeded r_pre
               ++ (c, Literal "Daily limit exceeded") :: limit_exceeded r_post |} ∧
     snd (send_bulk_messages E (pre ++ message_data :: post) w)
       = snd (send_bulk_messages E post w_checked) ∧
     quota_only E c w_pre w_checked ∧
     (0 < daily_message_limit E → files w_checked = files w_pre)).
Proof.
  split; [|split; [|split]].
  - intros item results w0. apply send_bulk_step_cases.
  - intros item results w0.
    destruct (send_bulk_step_outcome item w0) as (o & w' & Hstep).
    exists o. by rewrite Hstep.
  - intros messages w0. unfold send_bulk_messages. fold no_results.
    destruct (send_bulk_loop_merge messages w0) as (r & w' & Hlen & Hloop).
    exists r. rewrite Hloop, merge_no_results_l. done.
  - intros w_pre w_checked Hc Hdenied.
    unfold send_bulk_messages in *. fold no_results in *.
    destruct (send_bulk_loop_merge pre w) as (r_pre & w1 & _ & Hpre).
    destruct (send_bulk_loop_merge post w_checked) as (r_post & w2 & _ & Hpost).
    exists r_pre, r_post.
    assert (w_pre = w1) as Hw1 by (subst w_pre; by rewrite Hpre).
    rewrite send_bulk_loop_app, !Hpre, !Hpost, !merge_no_results_l. simpl.
    unfold bind.
    assert (send_bulk_step E message_data r_pre w1 =
            (Ok (add_limit_exceeded c (Literal "Daily limit exceeded") r_pre),
             w_checked)) as ->.
    { unfold send_bulk_step, try_except, bind, lift, py_getitem. rewrite Hc.
      subst w_checked. rewrite <- Hw1.
      destruct (check_message_limit E c w_pre) as [r w']. simpl in Hdenied.
      by subst r. }
    rewrite Hpost. simpl.
    split; [done|]. split; [done|]. split.
    { unfold merge_results, add_limit_exceeded. simpl. by rewrite <- app_assoc. }
    split; [done|]. split; [apply check_message_limit_quota_only|].
    intros Hpos. by apply denied_check_keeps_files.
Qed.

End Bulk.

Lemma bulk_over_quota_isolated_witness :
  (∃ r_post,
     fst (MessagePublisher.send_bulk_messages quiet
            [item_for "bolt"; item_for "cord"]
            (snd (MessagePublisher.check_message_limit quiet (JStr "acme")
                    three_clients))) = Ok r_post ∧
     fst (MessagePublisher.send_bulk_messages quiet
            [item_for "acme"; item_for "bolt"; item_for "cord"] three_clients) =
       Ok {| successful := successful r_post;
             failed := failed r_post;
             limit_exceeded :=
               (JStr "acme", Literal "Daily limit exceeded")
               :: limit_exceeded r_post |}) ∧
  fst (MessagePublisher.send_bulk_step quiet (item_for "bolt") no_results
         three_clients)
  = Ok (MessagePublisher.add_successful
          (MessagePublisher.sent_receipt "client_id" (JStr "6f1c") (JStr "bolt")
             (JStr "2024-01-02T09:00:00"))
          no_results).
Proof.
  destruct (bulk_over_quota_isolated quiet [] [item_for "bolt"; item_for "cord"]
              (item_for "acme") (JStr "acme") three_clients)
    as (Hcases & _ & _ & Hiso).
  split.
  - destruct Hiso as (r_pre & r_post & Hpre & Hpost & Hall & _);
      [reflexivity | reflexivity |].
    exists r_post. split; [exact Hpost|].
    injection Hpre as <-. exact Hall.
  - destruct (Hcases (item_for "bolt") no_results three_clients) as [_ Hclient].
    destruct (Hclient (JStr "bolt")) as [_ Hadmitted]; [reflexivity|].
    destruct Hadmitted as [_ Hsend]; [reflexivity|].
    destruct (Hsend {| mc_client_id := JStr "bolt";
                       mc_message_type := PAYMENT_REMINDER;
                       mc_content := JStr "premium due";
                       mc_attachments := JList [];
                       mc_metadata := JDict [] |})
      as (_ & Hdelivered & _); [reflexivity|].
    apply Hdelivered; reflexivity.
Defined.

(** The batch of the specification: [acme] is over quota, [bolt] and [cord]
    are not.  The two are delivered, in their order, and [acme] is the one
    entry of [limit_exceeded]. *)
Lemma bulk_three_clients :
  fst (MessagePublisher.send_bulk_messages quiet
         [item_for "acme"; item_for "bolt"; item_for "cord"] three_clients) =
  Ok {| successful :=
          [ MessagePublisher.sent_receipt "client_id" (JStr "6f1c") (JStr "bolt")
              (JStr "2024-01-02T09:00:00");
            MessagePublisher.sent_receipt "client_id" (JStr "6f1c") (JStr "cord")
              (JStr "2024-01-02T09:00:00") ];
        failed := [];
        limit_exceeded := [ (JStr "acme", Literal "Daily limit exceeded") ] |}.
Proof. vm_compute. reflexivity. Qed.

(** * Further properties of the code *)

(** ** The store of JSON documents *)

Section Store.

Variable E : Env.

Import DropboxManager.

(** [upload_json] answers whether Dropbox took the document, and the store
    then holds it at that path and is otherwise as before; a refused upload
    changes nothing.  An accepted upload followed by an answered
    [download_json] of the same path gives the document back, and the same
    holds of [update_client_metadata] followed by [get_client_metadata]. *)
Theorem upload_download_round_trip (path : string) (data : json)
    (client_id : json) (w : World) :
  let ok := dropbox_up E (clock w) in
  let w1 := snd (upload_json E path data w) in
  let w2 := snd (update_client_metadata E client_id data w) in
  fst (upload_json E path data w) = Ok ok ∧
  files w1 = (if ok then <[path := data]> (files w) else files w) ∧
  (ok = true → dropbox_up E (clock w1) = true →
     fst (download_json E path w1) = Ok data ∧
     files (snd (download_json E path w1)) = files w1) ∧
  (ok = true → dropbox_up E (clock w2) = true →
     fst (get_client_metadata E client_id w2) = Ok data).
Proof.
  intros ok w1 w2. subst w1 w2. rewrite update_client_metadata_run.
  rewrite !upload_json_run. fold ok. destruct ok eqn:Hok; simpl.
  - split; [done|]. split; [done|]. split.
    + intros _ Hup. rewrite download_json_run.
      autorewrite with world in Hup |- *. rewrite Hup, lookup_insert_eq. done.
    + intros _ Hup. rewrite get_client_metadata_run, download_json_run.
      autorewrite with world in Hup |- *. rewrite Hup, lookup_insert_eq. done.
  - split; [done|]. split; [done|]. split; intros [=].
Qed.

End Store.

Lemma upload_download_round_trip_witness :
  fst (DropboxManager.download_json quiet "/workflow/processed/m1.json"
         (snd (DropboxManager.upload_json quiet "/workflow/processed/m1.json"
                 (JDict [("status", JStr "processed")]) (world_of []))))
  = Ok (JDict [("status", JStr "processed")]).
Proof.
  apply (upload_download_round_trip quiet "/workflow/processed/m1.json"
           (JDict [("status", JStr "processed")]) (JStr "acme") (world_of []));
    reflexivity.
Defined.

(** ** The quota, seen from its other users *)

Section QuotaUsers.

Variable E : Env.

Import DropboxManager AMQPManager MessagePublisher.

Lemma metadata_read_unreadable c w :
  dropbox_up E (clock w) = false ∨ files w !! metadata_path E c = None →
  metadata_read E c w = JNull ∧
  snd (get_client_metadata E c w)
  = logged (files_download (metadata_path E c)) false w.
Proof.
  intros H. unfold metadata_read.
  rewrite get_client_metadata_run, download_json_run.
  destruct H as [-> | Hf]; [done|]. rewrite Hf. by destruct (dropbox_up E _).
Qed.

(** [get_message_stats], branch by branch. *)
Lemma get_message_stats_run c w :
  let w1 := snd (get_client_metadata E c w) in
  get_message_stats E c w =
  match metadata_read E c w with
  | JDict [] => (Ok JNull, w1)
  | JDict kv =>
      let count := dict_get_or "message_count_today" (JInt 0) kv in
      (Ok match py_rsub_int (daily_message_limit E) count with
          | Ok remaining =>
              JDict [ ("client_id", c);
                      ("messages_today", count);
                      ("daily_limit", JInt (daily_message_limit E));
                      ("last_reset", dict_get_or "last_reset" JNull kv);
                      ("last_message_sent",
                       dict_get_or "last_message_sent" JNull kv);
                      ("remaining_messages", JInt (Z.max 0 remaining)) ]
          | Raise _ => JNull
          end, w1)
  | _ => (Ok JNull, w1)
  end.
Proof.
  intros w1. unfold get_message_stats, try_except, bind.
  pose proof (get_client_metadata_fst E c w) as Hm.
  destruct (get_client_metadata E c w) as [r w1'] eqn:Hg. simpl in Hm. subst r.
  subst w1. simpl.
  destruct (metadata_read E c w) as [|b|n|s|l|kv]; simpl; try done.
  - by destruct b.
  - by destruct (n =? 0).
  - by destruct (String.eqb s "").
  - by destruct l.
  - destruct kv as [|kv0 kv]; [done|]. simpl. unfold lift. simpl.
    by destruct (py_rsub_int _ _).
Qed.

(** [get_message_stats] on readable metadata with an integer count [n]
    reports [n] and [max(0, N - n)] remaining messages after one read and
    no write: it never resets the count, so that on a new day it still
    reports the count of the day before.  When [last_reset] is the date of
    the day, [remaining_messages] is positive exactly when
    [check_message_limit] admits. *)
Theorem get_message_stats_reads (c : json) (w : World)
    (kv : list (string * json)) (n : Z) :
  dropbox_up E (clock w) = true →
  files w !! metadata_path E c = Some (JDict kv) →
  kv ≠ [] →
  dict_get_or "message_count_today" (JInt 0) kv = JInt n →
  let N := daily_message_limit E in
  get_message_stats E c w =
    (Ok (JDict [ ("client_id", c);
                 ("messages_today", JInt n);
                 ("daily_limit", JInt N);
                 ("last_reset", dict_get_or "last_reset" JNull kv);
                 ("last_message_sent", dict_get_or "last_message_sent" JNull kv);
                 ("remaining_messages", JInt (Z.max 0 (N - n))) ]),
     logged (files_download (metadata_path E c)) true w) ∧
  (dict_get "last_reset" kv = Some (JStr (today_isoformat E (S (clock w)))) →
   fst (check_message_limit E c w) = Ok (0 <? Z.max 0 (N - n))).
Proof.
  intros Hup Hf Hne Hn N.
  destruct (metadata_read_stored E c w _ Hup Hf) as [Hr Hw1].
  destruct kv as [|kv0 kv]; [done|]. split.
  - rewrite get_message_stats_run, Hr, Hw1. simpl. rewrite Hn. done.
  - intros Hlr. rewrite check_message_limit_run, Hr, Hw1.
    apply last_reset_is in Hlr. autorewrite with world. rewrite Hlr, Hn.
    simpl. unfold py_lt_int. f_equal. fold N.
    destruct (Z.ltb_spec n N), (Z.ltb_spec 0 (Z.max 0 (N - n))); lia.
Qed.

(** [increment_message_counter] on readable metadata with an integer
    count [n] sends the metadata back with the count [n + 1] and the time
    as [last_message_sent], every other field kept, and answers whether
    the store took it; a refused write leaves the store as it was.  When
    the count is not a number nothing is written and the answer is
    [False]. *)
Theorem increment_adds_one (c : json) (w : World) (kv : list (string * json)) :
  dropbox_up E (clock w) = true →
  files w !! metadata_path E c = Some (JDict kv) →
  kv ≠ [] →
  let read := logged (files_download (metadata_path E c)) true w in
  let now := utcnow_isoformat E (S (clock w)) in
  let written := dropbox_up E (S (S (clock w))) in
  let run := increment_message_counter E c w in
  (∀ n, dict_get_or "message_count_today" (JInt 0) kv = JInt n →
     let kv' := dict_set "last_message_sent" (JStr now)
                  (dict_set "message_count_today" (JInt (n + 1)) kv) in
     fst run = Ok written ∧
     trace (snd run) =
       trace w ++ [ (files_download (metadata_path E c), true);
                    (files_upload (metadata_path E c) (JDict kv'), written) ] ∧
     files (snd run) =
       (if written then <[metadata_path E c := JDict kv']> (files w)
        else files w) ∧
     dict_get "message_count_today" kv' = Some (JInt (n + 1)) ∧
     dict_get "last_message_sent" kv' = Some (JStr now) ∧
     (∀ k, k ≠ "message_count_today" → k ≠ "last_message_sent" →
           dict_get k kv' = dict_get k kv)) ∧
  (∀ e, py_add_int (dict_get_or "message_count_today" (JInt 0) kv) 1 = Raise e →
     run = (Ok false, read)).
Proof.
  intros Hup Hf Hne read now written run.
  destruct (metadata_read_stored E c w _ Hup Hf) as [Hr Hw1].
  destruct kv as [|kv0 kv]; [done|]. split.
  - intros n Hn kv'. subst run.
    rewrite increment_message_counter_run, Hr, Hw1, Hn.
    unfold py_add_int. rewrite update_client_metadata_run, upload_json_run.
    autorewrite with world. fold now written kv'.
    split; [by destruct written|]. split; [|split].
    + destruct written; simpl; autorewrite with world; by rewrite <- app_assoc.
    + by destruct written.
    + split; [subst kv'; rewrite dict_get_set_ne by done; apply dict_get_set_eq|].
      split; [apply dict_get_set_eq|].
      intros k Hk1 Hk2. subst kv'. by rewrite !dict_get_set_ne.
  - intros e He. subst run.
    rewrite increment_message_counter_run, Hr, Hw1, He. done.
Qed.

(** When the metadata of a client cannot be read, because Dropbox does not
    answer or holds none, the client is treated as over quota:
    [check_message_limit] answers [False], [send_client_message] raises
    [MessageLimitExceededException], the counter is not incremented and
    there are no statistics; in each case the failed read is the only call
    made. *)
Theorem unreadable_metadata_denies (c : json) (m : MessageCreate) (w : World) :
  dropbox_up E (clock w) = false ∨ files w !! metadata_path E c = None →
  let w1 := logged (files_download (metadata_path E c)) false w in
  check_message_limit E c w = (Ok false, w1) ∧
  send_client_message E c m w = (Raise (MessageLimitExceededException c), w1) ∧
  increment_message_counter E c w = (Ok false, w1) ∧
  get_message_stats E c w = (Ok JNull, w1).
Proof.
  intros H w1. destruct (metadata_read_unreadable c w H) as [Hr Hw1].
  assert (check_message_limit E c w = (Ok false, w1)) as Hcheck
    by (by rewrite check_message_limit_run, Hr, Hw1).
  split; [done|]. split; [|split].
  - by rewrite send_client_message_run, Hcheck.
  - by rewrite increment_message_counter_run, Hr, Hw1.
  - by rewrite get_message_stats_run, Hr, Hw1.
Qed.

(** The reset of a new day happens once.  After a check that has reset the
    count and seen the store accept the write, a second check that reads
    the same date makes one read and no write, and gives the same answer. *)
Theorem reset_happens_once (c : json) (w : World) (kv : list (string * json)) :
  dropbox_up E (clock w) = true →
  files w !! metadata_path E c = Some (JDict kv) →
  kv ≠ [] →
  let today := today_isoformat E (S (clock w)) in
  dict_get "last_reset" kv ≠ Some (JStr today) →
  dropbox_up E (S (S (clock w))) = true →
  let w1 := snd (check_message_limit E c w) in
  dropbox_up E (clock w1) = true →
  today_isoformat E (S (clock w1)) = today →
  check_message_limit E c w1 =
    (fst (check_message_limit E c w),
     tick (logged (files_download (metadata_path E c)) true w1)).
Proof.
  intros Hup Hf Hne today Hlr Hwr w1 Hup1 Htoday.
  destruct (metadata_read_stored E c w _ Hup Hf) as [Hr Hw0].
  assert (check_message_limit E c w =
          (Ok (0 <? daily_message_limit E),
           stored (metadata_path E c) (reset_metadata today kv)
             (logged (files_upload (metadata_path E c) (reset_metadata today kv))
                true (tick (logged (files_download (metadata_path E c)) true w)))))
    as Hcheck.
  { rewrite check_message_limit_run, Hr, Hw0.
    destruct kv as [|kv0 kv]; [done|]. autorewrite with world. fold today.
    destruct (py_eq_str _ today) eqn:Heq; [by apply last_reset_is in Heq|].
    simpl. rewrite update_client_metadata_run, upload_json_run.
    autorewrite with world. by rewrite Hwr. }
  assert (w1 = stored (metadata_path E c) (reset_metadata today kv)
             (logged (files_upload (metadata_path E c) (reset_metadata today kv))
                true (tick (logged (files_download (metadata_path E c)) true w))))
    as Hw1eq by (subst w1; by rewrite Hcheck).
  replace (fst (check_message_limit E c w))
    with (@Ok bool (0 <? daily_message_limit E)) by (by rewrite Hcheck).
  clearbody w1.
  assert (files w1 !! metadata_path E c = Some (reset_metadata today kv)) as Hf1
    by (rewrite Hw1eq; autorewrite with world; apply lookup_insert_eq).
  destruct (metadata_read_stored E c w1 _ Hup1 Hf1) as [Hr1 Hw1].
  rewrite check_message_limit_run, Hr1, Hw1. unfold reset_metadata.
  pose proof (dict_set_nonempty "last_reset" (JStr today)
                (dict_set "message_count_today" (JInt 0) kv)) as Hne'.
  destruct (dict_set "last_reset" _ _) as [|kv0' kv'] eqn:Hkv'; [done|].
  rewrite <- Hkv'. autorewrite with world. rewrite Htoday.
  rewrite dict_get_or_set_eq. unfold py_eq_str. rewrite String.eqb_refl.
  rewrite dict_get_or_set_ne by done. rewrite dict_get_or_set_eq. done.
Qed.

End QuotaUsers.

Lemma get_message_stats_reads_witness :
  fst (MessagePublisher.get_message_stats quiet (JStr "acme")
         (acme_on_day "2024-01-01" 12)) =
  Ok (JDict [ ("client_id", JStr "acme");
              ("messages_today", JInt 12);
              ("daily_limit", JInt 10);
              ("last_reset", JStr "2024-01-01");
              ("last_message_sent", JNull);
              ("remaining_messages", JInt 0) ]).
Proof.
  destruct (get_message_stats_reads quiet (JStr "acme")
              (acme_on_day "2024-01-01" 12)
              [ ("client_id", JStr "acme"); ("last_reset", JStr "2024-01-01");
                ("message_count_today", JInt 12) ] 12) as [Hstats _];
    [reflexivity | reflexivity | discriminate | reflexivity |].
  rewrite Hstats. reflexivity.
Defined.

Lemma increment_adds_one_witness :
  stored_count quiet (JStr "acme")
    (snd (MessagePublisher.increment_message_counter quiet (JStr "acme")
            (acme_on_day "2024-01-02" 3))) = Some (JInt 4).
Proof.
  destruct (increment_adds_one quiet (JStr "acme") (acme_on_day "2024-01-02" 3)
              [ ("client_id", JStr "acme"); ("last_reset", JStr "2024-01-02");
                ("message_count_today", JInt 3) ]) as [Hint _];
    [reflexivity | reflexivity | discriminate |].
  destruct (Hint 3) as (_ & _ & Hfiles & _); [reflexivity|].
  unfold stored_count. rewrite Hfiles. reflexivity.
Defined.

Lemma unreadable_metadata_denies_witness :
  fst (MessagePublisher.send_client_message quiet (JStr "nobody") hello
         (acme_on_day "2024-01-02" 3))
  = Raise (MessageLimitExceededException (JStr "nobody")).
Proof.
  destruct (unreadable_metadata_denies quiet (JStr "nobody") hello
              (acme_on_day "2024-01-02" 3)) as (_ & Hsend & _);
    [right; reflexivity|].
  rewrite Hsend. reflexivity.
Defined.

Lemma reset_happens_once_witness :
  trace (snd (MessagePublisher.check_message_limit quiet (JStr "acme")
                (snd (MessagePublisher.check_message_limit quiet (JStr "acme")
                        (acme_on_day "2024-01-01" 10))))) =
  [ (files_download "/clients/acme/metadata.json", true);
    (files_upload "/clients/acme/metadata.json" (quota_state "2024-01-02" 0), true);
    (files_download "/clients/acme/metadata.json", true) ].
Proof.
  rewrite (reset_happens_once quiet (JStr "acme") (acme_on_day "2024-01-01" 10)
             [ ("client_id", JStr "acme"); ("last_reset", JStr "2024-01-01");
               ("message_count_today", JInt 10) ]);
    [reflexivity | reflexivity | reflexivity | discriminate | discriminate
    | reflexivity | reflexivity | reflexivity].
Defined.

(** ** Client administration *)

Section Administration.

Variable E : Env.

Import DropboxManager AMQPManager MessagePublisher ClientOnboarding.

(** [reset_daily_limits], branch by branch. *)
Lemma reset_daily_limits_run c w :
  let w1 := snd (get_client_metadata E c w) in
  let today := today_isoformat E (clock w1) in
  reset_daily_limits E c w =
  match metadata_read E c w with
  | JDict [] => (Ok false, w1)
  | JDict kv =>
      if py_eq_str (dict_get_or "last_reset" JNull kv) today
      then (Ok true, tick w1)
      else update_client_metadata E c (reset_metadata today kv) (tick w1)
  | j => (Ok false, if truthy j then tick w1 else w1)
  end.
Proof.
  intros w1 day. unfold reset_daily_limits, try_except, bind.
  pose proof (get_client_metadata_fst E c w) as Hm.
  destruct (get_client_metadata E c w) as [r w1'] eqn:Hg. simpl in Hm. subst r.
  subst w1 day. simpl.
  destruct (metadata_read E c w) as [|b|n|s|l|kv]; simpl; try done.
  - by destruct b.
  - by destruct (n =? 0).
  - by destruct (String.eqb s "").
  - by destruct l.
  - destruct kv as [|kv0 kv]; [done|]. simpl.
    unfold lift, today. simpl.
    destruct (py_eq_str _ _); simpl; [done|].
    unfold reset_metadata.
    rewrite update_client_metadata_run, upload_json_run.
    by destruct (dropbox_up E _).
Qed.

(** The reset an administrator asks for and the reset of the quota check
    are the same operation: [reset_daily_limits] and [check_message_limit]
    leave the same world behind, call for call and document for document.
    They differ by their answer only: on readable metadata
    [reset_daily_limits] answers [True] when the count is already of the
    day, and otherwise whether the store took the reset. *)
Theorem reset_daily_limits_agrees_with_check (c : json) (w : World) :
  snd (reset_daily_limits E c w) = snd (check_message_limit E c w) ∧
  (∀ kv, dropbox_up E (clock w) = true →
         files w !! metadata_path E c = Some (JDict kv) → kv ≠ [] →
         fst (reset_daily_limits E c w) =
         Ok (if py_eq_str (dict_get_or "last_reset" JNull kv)
                  (today_isoformat E (S (clock w)))
             then true
             else dropbox_up E (S (S (clock w))))).
Proof.
  split.
  - rewrite reset_daily_limits_run, check_message_limit_run.
    destruct (metadata_read E c w) as [| | | | |[|kv0 kv]]; simpl; try done.
    by destruct (py_eq_str _ _).
  - intros kv Hup Hf Hne.
    destruct (metadata_read_stored E c w _ Hup Hf) as [Hr Hw1].
    rewrite reset_daily_limits_run, Hr, Hw1.
    destruct kv as [|kv0 kv]; [done|]. autorewrite with world.
    destruct (py_eq_str _ _); [done|].
    rewrite update_client_metadata_run, upload_json_run. autorewrite with world.
    by destruct (dropbox_up E (S (S (clock w)))).
Qed.

(** The answer of [check_message_limit] does not depend on [is_active]:
    with the same clock, two stores whose metadata for the client differ by
    that field only get the same answer.  A deactivated client is admitted
    like any other. *)
Theorem admission_ignores_is_active (c : json) (w w' : World)
    (kv : list (string * json)) (v : json) :
  files w !! metadata_path E c = Some (JDict kv) →
  kv ≠ [] →
  files w' !! metadata_path E c = Some (JDict (dict_set "is_active" v kv)) →
  clock w' = clock w →
  fst (check_message_limit E c w') = fst (check_message_limit E c w).
Proof.
  intros Hf Hne Hf' Hclock.
  rewrite !check_message_limit_run, !get_client_metadata_clock.
  unfold metadata_read. rewrite Hclock, Hf, Hf'.
  destruct (dropbox_up E (clock w)); [|done].
  pose proof (dict_set_nonempty "is_active" v kv) as Hne'.
  destruct kv as [|kv0 kv]; [done|].
  destruct (dict_set "is_active" v (kv0 :: kv)) as [|kv0' kv'] eqn:Hset; [done|].
  rewrite <- Hset. rewrite !dict_get_or_set_ne by done.
  destruct (py_eq_str _ _); simpl; [|done]. done.
Qed.

(** [mark_client] on readable metadata: the flag and the date are set,
    every other field is kept, and the answer is whether the store took the
    metadata; only then is the notification published and archived, and
    whatever becomes of it the answer is [True] and the metadata stays as
    written. *)
Lemma mark_client_run flag_key flag date_key content c w kv :
  dropbox_up E (clock w) = true →
  files w !! metadata_path E c = Some (JDict kv) →
  kv ≠ [] →
  let now := utcnow_isoformat E (S (clock w)) in
  let kv' := dict_set date_key (JStr now) (dict_set flag_key (JBool flag) kv) in
  let written := dropbox_up E (S (S (clock w))) in
  let run := mark_client E flag_key flag date_key content c w in
  fst run = Ok written ∧
  files (snd run) !! metadata_path E c
    = Some (JDict (if written then kv' else kv)) ∧
  (written = false →
   trace (snd run) =
     trace w ++ [ (files_download (metadata_path E c), true);
                  (files_upload (metadata_path E c) (JDict kv'), false) ]).
Proof.
  intros Hup Hf Hne now kv' written run. subst run.
  unfold mark_client, try_except, bind.
  rewrite get_client_metadata_run, download_json_run, Hup, Hf.
  destruct kv as [|kv0 kv]; [done|]. simpl. unfold lift, utcnow. simpl.
  fold now kv'. rewrite update_client_metadata_run, upload_json_run.
  autorewrite with world. fold written.
  destruct written; simpl.
  - unfold new_uuid, utcnow. simpl.
    match goal with |- context [publish_client_message E c ?msg ?w0] =>
      destruct (publish_message_total E "insurance.direct" c msg 0 w0) as [ok Hp];
      pose proof (publish_message_trace E "insurance.direct" c msg 0 w0) as Htr;
      assert (files (snd (publish_client_message E c msg w0)) = files w0) as Hpf;
      [ unfold publish_client_message; rewrite publish_message_run;
        destruct (channel w0); [|done]; simpl;
        by destruct (channel_up E _) |];
      unfold publish_client_message in *;
      destruct (publish_message E "insurance.direct" c msg 0 w0) as [r w3]
    end.
    simpl in Hp, Hpf. subst r. simpl.
    unfold archive_message, try_except. rewrite upload_json_run.
    destruct (dropbox_up E (clock w3)); simpl; autorewrite with world.
    + split; [done|]. split; [|by intros [=]]. rewrite Hpf.
      rewrite lookup_insert_ne
        by exact (archive_path_not_metadata E c (JStr (uuid4 E (S (S (S (clock w))))))).
      autorewrite with world. apply lookup_insert_eq.
    + split; [done|]. split; [|by intros [=]]. rewrite Hpf.
      autorewrite with world. apply lookup_insert_eq.
  - split; [done|]. autorewrite with world. split; [done|].
    intros _. by rewrite <- app_assoc.
Qed.

(** [deactivate_client] on readable metadata records [is_active = False]
    and the date, [reactivate_client] records [is_active = True] and the
    date, and both keep every other field: the count of the day and the
    date of its reset are not touched.  The answer is whether the store
    took the metadata, whatever becomes of the notification sent after;
    when the store refuses, nothing is published. *)
Theorem activation_keeps_quota (c : json) (w : World) (kv : list (string * json)) :
  dropbox_up E (clock w) = true →
  files w !! metadata_path E c = Some (JDict kv) →
  kv ≠ [] →
  let now := utcnow_isoformat E (S (clock w)) in
  let written := dropbox_up E (S (S (clock w))) in
  let off := dict_set "deactivated_date" (JStr now)
               (dict_set "is_active" (JBool false) kv) in
  let on := dict_set "reactivated_date" (JStr now)
              (dict_set "is_active" (JBool true) kv) in
  (fst (deactivate_client E c w) = Ok written ∧
   files (snd (deactivate_client E c w)) !! metadata_path E c
     = Some (JDict (if written then off else kv)) ∧
   (written = false →
    Forall (λ ev, is_publish (fst ev) = false)
      (drop (length (trace w)) (trace (snd (deactivate_client E c w)))))) ∧
  (fst (reactivate_client E c w) = Ok written ∧
   files (snd (reactivate_client E c w)) !! metadata_path E c
     = Some (JDict (if written then on else kv))) ∧
  dict_get "is_active" off = Some (JBool false) ∧
  dict_get "is_active" on = Some (JBool true) ∧
  (∀ k, k ≠ "is_active" → k ≠ "deactivated_date" → dict_get k off = dict_get k kv) ∧
  (∀ k, k ≠ "is_active" → k ≠ "reactivated_date" → dict_get k on = dict_get k kv).
Proof.
  intros Hup Hf Hne now written off on.
  destruct (mark_client_run "is_active" false "deactivated_date"
              "Your account has been deactivated. Please contact support for assistance."
              c w kv Hup Hf Hne) as (Hr1 & Hf1 & Ht1).
  destruct (mark_client_run "is_active" true "reactivated_date"
              "Your account has been reactivated. Welcome back!"
              c w kv Hup Hf Hne) as (Hr2 & Hf2 & _).
  split; [|split; [|split; [|split; [|split]]]].
  - split; [exact Hr1|]. split; [exact Hf1|].
    intros Hw. unfold deactivate_client. rewrite (Ht1 Hw).
    rewrite drop_app_length. by repeat constructor.
  - split; [exact Hr2 | exact Hf2].
  - subst off. rewrite dict_get_set_ne by done. apply dict_get_set_eq.
  - subst on. rewrite dict_get_set_ne by done. apply dict_get_set_eq.
  - intros k H1 H2. subst off. by rewrite !dict_get_set_ne.
  - intros k H1 H2. subst on. by rewrite !dict_get_set_ne.
Qed.

End Administration.

Lemma reset_daily_limits_agrees_with_check_witness :
  fst (ClientOnboarding.reset_daily_limits quiet (JStr "acme")
         (acme_on_day "2024-01-01" 10)) = Ok true.
Proof.
  destruct (reset_daily_limits_agrees_with_check quiet (JStr "acme")
              (acme_on_day "2024-01-01" 10)) as [_ Hanswer].
  rewrite (Hanswer [ ("client_id", JStr "acme"); ("last_reset", JStr "2024-01-01");
                     ("message_count_today", JInt 10) ]);
    [reflexivity | reflexivity | reflexivity | discriminate].
Defined.

Lemma admission_ignores_is_active_witness :
  fst (MessagePublisher.check_message_limit quiet (JStr "acme")
         (world_of [ ("/clients/acme/metadata.json",
                      JDict [ ("client_id", JStr "acme");
                              ("last_reset", JStr "2024-01-02");
                              ("message_count_today", JInt 3);
                              ("is_active", JBool false) ]) ]))
  = fst (MessagePublisher.check_message_limit quiet (JStr "acme")
           (acme_on_day "2024-01-02" 3)).
Proof.
  apply (admission_ignores_is_active quiet (JStr "acme")
           (acme_on_day "2024-01-02" 3) _
           [ ("client_id", JStr "acme"); ("last_reset", JStr "2024-01-02");
             ("message_count_today", JInt 3) ] (JBool false));
    [reflexivity | discriminate | reflexivity | reflexivity].
Defined.

Lemma activation_keeps_quota_witness :
  stored_count quiet (JStr "acme")
    (snd (ClientOnboarding.deactivate_client quiet (JStr "acme")
            (acme_registered "2024-01-02" 3))) = Some (JInt 3).
Proof.
  destruct (activation_keeps_quota quiet (JStr "acme")
              (acme_registered "2024-01-02" 3)
              [ ("client_id", JStr "acme"); ("email", JStr "ops@acme.example");
                ("last_reset", JStr "2024-01-02");
                ("message_count_today", JInt 3); ("is_active", JBool true) ])
    as ((_ & Hfiles & _) & _);
    [reflexivity | reflexivity | discriminate |].
  unfold stored_count. rewrite Hfiles. reflexivity.
Defined.

Section ClientInfo.

Variable E : Env.

Import DropboxManager ClientOnboarding.

(** The loop over the updates of a dictionary: fields outside
    [allowed_fields] and fields that are not updated keep their value, and
    an allowed field takes the value given for it. *)
Lemma apply_updates_dict (updates : list (string * json)) :
  ∀ kv, ∃ kv',
    apply_updates updates (JDict kv) = Ok (JDict kv') ∧
    (kv ≠ [] → kv' ≠ []) ∧
    (∀ k, is_allowed k = false → dict_get k kv' = dict_get k kv) ∧
    (∀ k, k ∉ updates.*1 → dict_get k kv' = dict_get k kv) ∧
    (∀ k v, NoDup updates.*1 → (k, v) ∈ updates → is_allowed k = true →
            dict_get k kv' = Some v).
Proof.
  induction updates as [|[field value] rest IH]; intros kv.
  - exists kv. split; [done|]. split; [done|]. split; [done|]. split; [done|].
    intros k v _ H. by apply elem_of_nil in H.
  - simpl. destruct (is_allowed field) eqn:Hallowed.
    + destruct (IH (dict_set field value kv)) as (kv' & Hrun & Hne & Hout & Hnot & Hin).
      exists kv'. split; [exact Hrun|]. split; [|split; [|split]].
      * intros _. apply Hne, dict_set_nonempty.
      * intros k Hk. rewrite Hout by done. apply dict_get_set_ne. congruence.
      * intros k Hk. rewrite not_elem_of_cons in Hk.
        destruct Hk as [Hk1 Hk2]. rewrite Hnot by done. by apply dict_get_set_ne.
      * intros k v Hnd Hkv Hk.
        apply NoDup_cons in Hnd as [Hfresh Hnd].
        apply elem_of_cons in Hkv as [[= -> ->]|Hkv].
        -- rewrite Hnot by done. apply dict_get_set_eq.
        -- by apply Hin.
    + destruct (IH kv) as (kv' & Hrun & Hne & Hout & Hnot & Hin).
      exists kv'. split; [exact Hrun|]. split; [exact Hne|].
      split; [exact Hout|]. split.
      * intros k Hk. rewrite not_elem_of_cons in Hk. destruct Hk as [_ Hk].
        by apply Hnot.
      * intros k v Hnd Hkv Hk.
        apply NoDup_cons in Hnd as [_ Hnd].
        apply elem_of_cons in Hkv as [[= -> ->]|Hkv]; [congruence|].
        by apply Hin.
Qed.

(** [update_client_info] on readable metadata changes the fields
    [email], [phone], [first_name], [last_name] and [custom_metadata] only,
    each to the value given for it, and records [updated_date]; every
    other field, the count of the day, the date of its reset and
    [is_active] among them, keeps its value whatever the updates say.  The
    answer is whether the store took the metadata; a refused write leaves
    it as it was. *)
Theorem update_client_info_fields (c : json) (updates : list (string * json))
    (w : World) (kv : list (string * json)) :
  dropbox_up E (clock w) = true →
  files w !! metadata_path E c = Some (JDict kv) →
  kv ≠ [] →
  let now := utcnow_isoformat E (S (clock w)) in
  let written := dropbox_up E (S (S (clock w))) in
  let run := update_client_info E c updates w in
  ∃ kv',
    fst run = Ok written ∧
    files (snd run) = (if written then <[metadata_path E c := JDict kv']> (files w)
                       else files w) ∧
    dict_get "updated_date" kv' = Some (JStr now) ∧
    (∀ k, is_allowed k = false → k ≠ "updated_date" →
          dict_get k kv' = dict_get k kv) ∧
    (∀ k, k ∉ updates.*1 → k ≠ "updated_date" → dict_get k kv' = dict_get k kv) ∧
    (∀ k v, NoDup updates.*1 → (k, v) ∈ updates → is_allowed k = true →
            dict_get k kv' = Some v).
Proof.
  intros Hup Hf Hne now written run. subst run.
  destruct (apply_updates_dict updates kv) as (kv1 & Hrun & Hne1 & Hout & Hnot & Hin).
  exists (dict_set "updated_date" (JStr now) kv1).
  unfold update_client_info, try_except, bind.
  rewrite get_client_metadata_run, download_json_run, Hup, Hf.
  destruct kv as [|kv0 kv]; [done|]. simpl. unfold lift. rewrite Hrun.
  unfold utcnow. simpl. fold now.
  rewrite update_client_metadata_run, upload_json_run. autorewrite with world.
  fold written. split; [by destruct written|]. split; [by destruct written|].
  split; [apply dict_get_set_eq|]. split; [|split].
  - intros k Hk1 Hk2. rewrite dict_get_set_ne by done. by apply Hout.
  - intros k Hk1 Hk2. rewrite dict_get_set_ne by done. by apply Hnot.
  - intros k v Hnd Hkv Hk. rewrite dict_get_set_ne; [by apply (Hin k v)|].
    intros ->. discriminate Hk.
Qed.

End ClientInfo.

Lemma update_client_info_fields_witness :
  stored_count quiet (JStr "acme")
    (snd (ClientOnboarding.update_client_info quiet (JStr "acme")
            [ ("email", JStr "it@acme.example"); ("message_count_today", JInt 0) ]
            (acme_registered "2024-01-02" 7))) = Some (JInt 7).
Proof.
  destruct (update_client_info_fields quiet (JStr "acme")
              [ ("email", JStr "it@acme.example"); ("message_count_today", JInt 0) ]
              (acme_registered "2024-01-02" 7)
              [ ("client_id", JStr "acme"); ("email", JStr "ops@acme.example");
                ("last_reset", JStr "2024-01-02");
                ("message_count_today", JInt 7); ("is_active", JBool true) ])
    as (kv' & _ & Hfiles & _ & Hkept & _);
    [reflexivity | reflexivity | discriminate |].
  unfold stored_count. rewrite Hfiles. simpl. rewrite lookup_insert_eq.
  unfold dict_get_or. rewrite Hkept; [reflexivity | reflexivity | discriminate].
Defined.

(** ** Workflow queues and the consumer *)

Section Workflow.

Variable E : Env.

Import DropboxManager AMQPManager MessageConsumer.

Lemma str_replace_same a s : str_replace a (String a "") s = s.
Proof.
  induction s as [|b s IH]; [done|]. simpl.
  destruct (Ascii.eqb_spec b a) as [->|]; simpl; by rewrite IH.
Qed.

Lemma declare_workflow_queues_run queues w :
  channel w = true →
  let run := declare_workflow_queues E queues w in
  (fst run = Ok tt ∧
   trace (snd run) = trace w ++ accepted (workflow_topology queues)) ∨
  (∃ e calls c,
     fst run = Raise e ∧
     trace (snd run) = trace w ++ accepted calls ++ [(c, false)] ∧
     (calls ++ [c]) `prefix_of` workflow_topology queues).
Proof.
  assert (∀ c w0, channel w0 = true →
            channel_call E c w0
            = if channel_up E (clock w0) then (Ok tt, logged c true w0)
              else (Raise AMQPError, logged c false w0)) as Hcall.
  { intros c w0 H0. unfold channel_call. by rewrite H0. }
  revert w. induction queues as [|queue rest IH]; intros w Hc; simpl.
  - left. by rewrite app_nil_r.
  - rewrite str_replace_same. unfold bind. rewrite (Hcall _ w Hc).
    destruct (channel_up E (clock w)).
    + rewrite Hcall by (autorewrite with world; exact Hc).
      autorewrite with world.
      destruct (channel_up E (S (clock w))).
      * set (w2 := logged _ true (logged _ true w)).
        assert (channel w2 = true) as Hc2
          by (subst w2; autorewrite with world; exact Hc).
        destruct (IH w2 Hc2) as [[Hr Ht]|(e & calls & c & Hr & Ht & Hp)].
        -- left. split; [done|]. rewrite Ht. subst w2. autorewrite with world.
           by rewrite <- !app_assoc.
        -- right. exists e, (queue_declare queue true None
                              :: queue_bind "insurance.workflow" queue (JStr queue)
                              :: calls), c.
           split; [done|]. split.
           ++ rewrite Ht. subst w2. autorewrite with world.
              by rewrite <- !app_assoc.
           ++ simpl. by do 2 apply prefix_cons.
      * right. exists AMQPError, [queue_declare queue true None],
                 (queue_bind "insurance.workflow" queue (JStr queue)).
        split; [done|]. split; [autorewrite with world; simpl; by rewrite <- ?app_assoc|].
        simpl. do 2 apply prefix_cons. apply prefix_nil.
    + right. exists AMQPError, [], (queue_declare queue true None).
      split; [done|]. split; [by autorewrite with world|].
      simpl. apply prefix_cons, prefix_nil.
Qed.

(** [setup_workflow_queues] declares each of the six workflow queues
    durable and binds it to [insurance.workflow] under its own name (the
    [replace('.', '.')] changes nothing), in the order of the list.  It
    answers [True] when the channel took all twelve calls; at the first
    refusal it stops and answers [False]; without a channel it makes no
    call and answers [False].  Every one of the six names starts with a
    prefix on which [process_workflow_message] dispatches. *)
Theorem setup_workflow_queues_binds_by_name (w : World) :
  let run := setup_workflow_queues E w in
  (channel w = true →
   (fst run = Ok true ∧
    trace (snd run) = trace w ++ accepted (workflow_topology workflow_queues)) ∨
   (∃ calls c,
      fst run = Ok false ∧
      trace (snd run) = trace w ++ accepted calls ++ [(c, false)] ∧
      (calls ++ [c]) `prefix_of` workflow_topology workflow_queues)) ∧
  (channel w = false → run = (Ok false, w)) ∧
  Forall (λ queue, startswith queue "enrollment." || startswith queue "claims."
                   || startswith queue "payments." = true) workflow_queues.
Proof.
  intros run. subst run. unfold setup_workflow_queues, try_except, bind.
  split; [|split].
  - intros Hc.
    destruct (declare_workflow_queues_run workflow_queues w Hc)
      as [[Hr Ht]|(e & calls & c & Hr & Ht & Hp)];
      destruct (declare_workflow_queues E workflow_queues w) as [r w'];
      simpl in Hr, Ht; subst r; simpl.
    + by left.
    + right. by exists calls, c.
  - intros Hc. simpl. unfold bind, channel_call. by rewrite Hc.
  - unfold workflow_queues. repeat constructor.
Qed.

(** A workflow handler never raises and never touches the channel. *)
Lemma handle_workflow_off_channel domain message routing_key w :
  fst (handle_workflow E domain message routing_key w) = Ok tt ∧
  off_channel w (snd (handle_workflow E domain message routing_key w)).
Proof.
  unfold handle_workflow, try_except, bind, lift, utcnow.
  destruct (py_getitem message "id") as [message_id|];
    [|split; [done | apply off_channel_refl]].
  destruct (py_get message "content" (JStr "")) as [content|];
    [|split; [done | apply off_channel_tick]].
  match goal with |- context [upload_json E ?p ?d ?w0] =>
    pose proof (off_channel_upload E p d w0) as Hup;
    rewrite upload_json_run in Hup |- *
  end.
  destruct (dropbox_up E _); simpl in *;
    (split; [done | exact (off_channel_trans _ _ _ (off_channel_tick w) Hup)]).
Qed.

(** A workflow message whose body is a JSON object is acknowledged
    whatever Dropbox does: the handler chosen by the prefix of the routing
    key and the upload of the processed record may fail, the calls to the
    channel are the one [basic_ack] all the same.  With a routing key that
    has none of the three prefixes no handler runs and the processed record
    is the only upload. *)
Theorem workflow_object_acknowledged (method : Deliver)
    (kv : list (string * json)) (w : World) :
  channel w = true →
  (∀ n, channel_up E n = true) →
  let run := process_workflow_message E method (Json (JDict kv)) w in
  let key := routing_key method in
  fst run = Ok tt ∧
  ∃ evs now archived,
    trace (snd run) =
      trace w ++ evs ++
      [ (files_upload
           ("/workflow/processed/" +:+ fstr E (dict_get_or "id" JNull kv) +:+ ".json")
           (JDict [ ("message", JDict kv);
                    ("routing_key", JStr key);
                    ("processed_at", JStr now);
                    ("status", JStr "processed") ]), archived);
        (basic_ack (delivery_tag method), true) ] ∧
    channel_calls evs = [] ∧
    (startswith key "enrollment." = false → startswith key "claims." = false →
     startswith key "payments." = false → evs = []).
Proof.
  intros Hc Hch run key. subst run.
  unfold process_workflow_message, try_except, bind, lift. simpl. fold key.
  set (handler := if startswith key "enrollment." then _ else _).
  assert (fst (handler w) = Ok tt ∧ off_channel w (snd (handler w)) ∧
          (startswith key "enrollment." = false → startswith key "claims." = false →
           startswith key "payments." = false → snd (handler w) = w))
    as (Hok & [Hc1 (evs & Ht & Hevs)] & Hnone).
  { subst handler. unfold handle_enrollment_workflow, handle_claims_workflow,
      handle_payments_workflow.
    destruct (startswith key "enrollment.");
      [destruct (handle_workflow_off_channel "enrollment" (JDict kv) key w)
         as [Hr Hoff];
       split; [exact Hr | split; [exact Hoff | intros; discriminate]]|].
    destruct (startswith key "claims.");
      [destruct (handle_workflow_off_channel "claims" (JDict kv) key w)
         as [Hr Hoff];
       split; [exact Hr | split; [exact Hoff | intros; discriminate]]|].
    destruct (startswith key "payments.");
      [destruct (handle_workflow_off_channel "payments" (JDict kv) key w)
         as [Hr Hoff];
       split; [exact Hr | split; [exact Hoff | intros; discriminate]]|].
    split; [done|]. split; [apply off_channel_refl | done]. }
  destruct (handler w) as [r w1] eqn:Hh. simpl in *. subst r.
  unfold utcnow. simpl. rewrite upload_json_run. autorewrite with world.
  assert (∀ w2, channel w2 = true →
            channel_call E (basic_ack (delivery_tag method)) w2
            = (Ok tt, logged (basic_ack (delivery_tag method)) true w2)) as Hack.
  { intros w2 Hc2. unfold channel_call. by rewrite Hc2, Hch. }
  destruct (dropbox_up E (S (clock w1))); simpl.
  - rewrite Hack by (autorewrite with world; congruence). simpl.
    split; [done|]. eexists evs, _, true. autorewrite with world.
    rewrite Ht, <- !app_assoc. split; [done|]. split; [done|].
    intros H1 H2 H3. specialize (Hnone H1 H2 H3). subst w1.
    rewrite <- (app_nil_r (trace w)) in Ht at 1.
    apply app_inv_head in Ht. done.
  - rewrite Hack by (autorewrite with world; congruence). simpl.
    split; [done|]. eexists evs, _, false. autorewrite with world.
    rewrite Ht, <- !app_assoc. split; [done|]. split; [done|].
    intros H1 H2 H3. specialize (Hnone H1 H2 H3). subst w1.
    rewrite <- (app_nil_r (trace w)) in Ht at 1.
    apply app_inv_head in Ht. done.
Qed.

End Workflow.

Lemma setup_workflow_queues_binds_by_name_witness :
  fst (AMQPManager.setup_workflow_queues quiet (world_of [])) = Ok true.
Proof.
  destruct (setup_workflow_queues_binds_by_name quiet (world_of []))
    as [Hconnected _].
  destruct Hconnected as [[Hr _]|(calls & c & Hr & _)]; [reflexivity | exact Hr |].
  discriminate Hr.
Defined.

Lemma workflow_object_acknowledged_witness :
  channel_calls
    (trace (snd (MessageConsumer.process_workflow_message dropbox_down
                   {| delivery_tag := 9; routing_key := "claims.submitted" |}
                   (Json (JDict [("id", JStr "w1"); ("content", JStr "claim 12")]))
                   (world_of []))))
  = [ (basic_ack 9, true) ].
Proof.
  destruct (workflow_object_acknowledged dropbox_down
              {| delivery_tag := 9; routing_key := "claims.submitted" |}
              [("id", JStr "w1"); ("content", JStr "claim 12")] (world_of []))
    as (_ & evs & now & archived & Ht & Hevs & _);
    [reflexivity | intros n; reflexivity |].
  rewrite Ht. unfold channel_calls in *. simpl.
  rewrite !filter_app, Hevs. reflexivity.
Defined.

(** ** What the consumer does with a message of a known type *)

Section Delivery.

Variable E : Env.

Import DropboxManager AMQPManager MessagePublisher MessageConsumer.

Lemma handle_kind_run kind kv client_id content message_id w :
  dict_get "client_id" kv = Some client_id →
  dict_get "content" kv = Some content →
  dict_get "id" kv = Some message_id →
  handle_kind E kind (JDict kv) w =
  (Ok tt,
   snd (upload_json E (audit_path E kind client_id message_id)
          (JDict [ ("action", JStr (kind +:+ "_processed"));
                   ("client_id", client_id);
                   ("message_id", message_id);
                   ("timestamp", JStr (utcnow_isoformat E (clock w)));
                   ("content", content) ]) (tick w))).
Proof.
  intros Hc Hk Hi.
  unfold handle_kind, try_except, bind, lift, utcnow, py_getitem, audit_path.
  rewrite Hc, Hk, Hi. rewrite !upload_json_run.
  by destruct (dropbox_up E _).
Qed.

Lemma handle_system_alert_run kv client_id content message_id w :
  dict_get "client_id" kv = Some client_id →
  dict_get "content" kv = Some content →
  dict_get "id" kv = Some message_id →
  handle_system_alert E (JDict kv) w =
  (Ok tt,
   snd (upload_json E (audit_path E "system_alert" client_id message_id)
          (audit_record SYSTEM_ALERT client_id message_id
             (dict_get_or "notification_type" (JStr "general") kv) content
             (utcnow_isoformat E (clock w))) (tick w))).
Proof.
  intros Hc Hk Hi.
  unfold handle_system_alert, try_except, bind, lift, utcnow, py_getitem, py_get,
    audit_path, audit_record.
  rewrite Hc, Hk, Hi. rewrite !upload_json_run.
  by destruct (dropbox_up E _).
Qed.

(** A handler that misses one of the three fields it reads writes nothing. *)
Lemma handle_kind_incomplete kind kv w :
  dict_get "client_id" kv = None ∨ dict_get "content" kv = None
  ∨ dict_get "id" kv = None →
  handle_kind E kind (JDict kv) w = (Ok tt, w).
Proof.
  intros H. unfold handle_kind, try_except, bind, lift, py_getitem.
  destruct (dict_get "client_id" kv); [|done].
  destruct (dict_get "content" kv); [|done].
  destruct (dict_get "id" kv); [|done].
  by destruct H as [H|[H|H]].
Qed.

Lemma handle_system_alert_incomplete kv w :
  dict_get "client_id" kv = None ∨ dict_get "content" kv = None
  ∨ dict_get "id" kv = None →
  handle_system_alert E (JDict kv) w = (Ok tt, w).
Proof.
  intros H. unfold handle_system_alert, try_except, bind, lift, py_getitem, py_get.
  destruct (dict_get "client_id" kv); [|done].
  destruct (dict_get "content" kv); [|done].
  destruct (dict_get "id" kv); [|done].
  by destruct H as [H|[H|H]].
Qed.

Lemma dispatch_known (t : MessageType) kv client_id content message_id w :
  dict_get "client_id" kv = Some client_id →
  dict_get "content" kv = Some content →
  dict_get "id" kv = Some message_id →
  dispatch E (JStr (MessageType_value t)) (JDict kv) w =
  (Ok tt,
   snd (upload_json E (audit_path E (MessageType_value t) client_id message_id)
          (audit_record t client_id message_id
             (dict_get_or "notification_type" (JStr "general") kv) content
             (utcnow_isoformat E (clock w))) (tick w))).
Proof.
  intros Hc Hk Hi.
  destruct t; unfold dispatch; cbv [MessageType_value py_eq_str];
    cbn [String.eqb Ascii.eqb Bool.eqb];
    unfold handle_document_request, handle_claim_update, handle_payment_reminder,
      handle_enrollment_notification, handle_beneficiary_update;
    first [ exact (handle_kind_run _ kv client_id content message_id w Hc Hk Hi)
          | exact (handle_system_alert_run kv client_id content message_id w Hc Hk Hi) ].
Qed.

Lemma dispatch_unhandled message_type kv w :
  MessageType_of message_type = Raise ValueError
  ∨ dict_get "client_id" kv = None ∨ dict_get "content" kv = None
  ∨ dict_get "id" kv = None →
  dispatch E message_type (JDict kv) w = (Ok tt, w).
Proof.
  intros H. unfold dispatch, handle_document_request, handle_claim_update,
    handle_payment_reminder, handle_enrollment_notification,
    handle_beneficiary_update.
  unfold MessageType_of in H.
  repeat (match goal with |- context [if py_eq_str ?v ?s then _ else _] =>
            destruct (py_eq_str v s) end;
          [destruct H as [H|H]; [discriminate H|];
           first [ exact (handle_kind_incomplete _ kv w H)
                 | exact (handle_system_alert_incomplete kv w H) ] |]).
  reflexivity.
Qed.

(** A message object of one of the six types that has its [client_id],
    [content] and [id] goes through the consumer in three steps when
    Dropbox and the channel take what they are sent: the handler of its type
    writes the audit record named after the type and the message, the
    delivery confirmation is written, and the message is acknowledged.
    Nothing else is called. *)
Theorem known_type_is_audited (method : Deliver) (t : MessageType)
    (kv : list (string * json)) (client_id content message_id : json) (w : World) :
  (∀ n, dropbox_up E n = true) →
  channel w = true →
  (∀ n, channel_up E n = true) →
  dict_get "type" kv = Some (JStr (MessageType_value t)) →
  dict_get "client_id" kv = Some client_id →
  dict_get "content" kv = Some content →
  dict_get "id" kv = Some message_id →
  let run := process_message E method (Json (JDict kv)) w in
  fst run = Ok tt ∧
  ∃ handled confirmed,
    trace (snd run) =
      trace w ++
      [ (files_upload (audit_path E (MessageType_value t) client_id message_id)
           (audit_record t client_id message_id
              (dict_get_or "notification_type" (JStr "general") kv) content handled),
         true);
        (files_upload (delivery_path E kv) (delivery_confirmation kv confirmed), true);
        (basic_ack (delivery_tag method), true) ].
Proof.
  intros Hdbx Hc Hch Ht Hcid Hk Hi run. subst run.
  pose proof (dispatch_known t kv client_id content message_id w Hcid Hk Hi) as Hd.
  assert (dict_get_or "type" JNull kv = JStr (MessageType_value t)) as Hty
    by (unfold dict_get_or; by rewrite Ht).
  rewrite <- Hty in Hd.
  rewrite process_message_object. cbv zeta. rewrite !Hd.
  rewrite !upload_json_run, !Hdbx. simpl.
  unfold channel_call. autorewrite with world. rewrite Hc, Hch. simpl.
  split; [done|]. eexists _, _. autorewrite with world.
  rewrite <- !app_assoc. reflexivity.
Qed.

(** A message object whose type is none of the six, or which misses the
    [client_id], the [content] or the [id] its handler reads, leaves no
    audit record of a handler; it is confirmed and acknowledged like any
    other, so it is not delivered again. *)
Theorem unhandled_message_is_confirmed (method : Deliver)
    (kv : list (string * json)) (w : World) :
  (∀ n, dropbox_up E n = true) →
  channel w = true →
  (∀ n, channel_up E n = true) →
  MessageType_of (dict_get_or "type" JNull kv) = Raise ValueError
  ∨ dict_get "client_id" kv = None ∨ dict_get "content" kv = None
  ∨ dict_get "id" kv = None →
  let run := process_message E method (Json (JDict kv)) w in
  fst run = Ok tt ∧
  ∃ confirmed,
    trace (snd run) =
      trace w ++
      [ (files_upload (delivery_path E kv) (delivery_confirmation kv confirmed), true);
        (basic_ack (delivery_tag method), true) ].
Proof.
  intros Hdbx Hc Hch H run. subst run.
  rewrite process_message_object. cbv zeta.
  rewrite !(dispatch_unhandled _ kv w H).
  rewrite !upload_json_run, !Hdbx. simpl.
  unfold channel_call. autorewrite with world. rewrite Hc, Hch. simpl.
  split; [done|]. eexists. autorewrite with world.
  rewrite <- !app_assoc. reflexivity.
Qed.

(** The envelope [send_client_message] publishes for a client is one the
    consumer handles: for every message type the handler of that type
    finds the three fields it reads and writes its audit record, under the
    identifier the publisher gave the message, before the message is
    confirmed and acknowledged. *)
Theorem published_envelope_is_audited (method : Deliver) (client_id : json)
    (message_data : MessageCreate) (id now : string) (w : World) :
  (∀ n, dropbox_up E n = true) →
  channel w = true →
  (∀ n, channel_up E n = true) →
  let kind := MessageType_value (mc_message_type message_data) in
  let run := process_message E method
               (Json (client_envelope client_id message_data id now)) w in
  fst run = Ok tt ∧
  ∃ audit_log confirmation,
    trace (snd run) =
      trace w ++
      [ (files_upload
           ("/clients/" +:+ fstr E client_id +:+ "/audit/" +:+ kind +:+ "_" +:+ id
              +:+ ".json") audit_log, true);
        (files_upload
           ("/clients/" +:+ fstr E client_id +:+ "/audit/delivery-" +:+ id +:+ ".json")
           confirmation, true);
        (basic_ack (delivery_tag method), true) ] ∧
    py_get audit_log "action" JNull = Ok (JStr (kind +:+ "_processed")) ∧
    py_get audit_log "content" JNull = Ok (mc_content message_data) ∧
    py_get confirmation "status" JNull = Ok (JStr "delivered").
Proof.
  intros Hdbx Hc Hch kind run. subst run. unfold client_envelope.
  set (kv := [("id", JStr id); _; _; _; _; _; _]).
  pose proof (dispatch_known (mc_message_type message_data) kv client_id
                (mc_content message_data) (JStr id) w
                eq_refl eq_refl eq_refl) as Hd.
  change (JStr (MessageType_value (mc_message_type message_data)))
    with (dict_get_or "type" JNull kv) in Hd at 1.
  rewrite process_message_object. cbv zeta. rewrite !Hd.
  rewrite !upload_json_run, !Hdbx. simpl.
  unfold channel_call. autorewrite with world. rewrite Hc, Hch. simpl.
  split; [done|]. eexists _, _. autorewrite with world.
  rewrite <- !app_assoc. split; [reflexivity|].
  subst kind. by destruct (mc_message_type message_data).
Qed.

End Delivery.

Lemma known_type_is_audited_witness :
  fst (MessageConsumer.process_message quiet
         {| delivery_tag := 4; routing_key := "acme" |}
         (Json (JDict [ ("id", JStr "m1"); ("type", JStr "claim_update");
                        ("content", JStr "claim 12 was paid");
                        ("client_id", JStr "acme") ]))
         (world_of [])) = Ok tt.
Proof.
  apply (known_type_is_audited quiet {| delivery_tag := 4; routing_key := "acme" |}
           CLAIM_UPDATE
           [ ("id", JStr "m1"); ("type", JStr "claim_update");
             ("content", JStr "claim 12 was paid"); ("client_id", JStr "acme") ]
           (JStr "acme") (JStr "claim 12 was paid") (JStr "m1") (world_of []));
    first [reflexivity | intros n; reflexivity].
Defined.

Lemma unhandled_message_is_confirmed_witness :
  fst (MessageConsumer.process_message quiet
         {| delivery_tag := 5; routing_key := "acme" |}
         (Json (JDict [ ("id", JStr "m2"); ("type", JStr "newsletter");
                        ("content", JStr "hello"); ("client_id", JStr "acme") ]))
         (world_of [])) = Ok tt.
Proof.
  apply (unhandled_message_is_confirmed quiet
           {| delivery_tag := 5; routing_key := "acme" |}
           [ ("id", JStr "m2"); ("type", JStr "newsletter");
             ("content", JStr "hello"); ("client_id", JStr "acme") ] (world_of []));
    first [reflexivity | intros n; reflexivity | left; reflexivity].
Defined.

Lemma published_envelope_is_audited_witness :
  fst (MessageConsumer.process_message quiet
         {| delivery_tag := 6; routing_key := "acme" |}
         (Json (client_envelope (JStr "acme") hello "m3" "2024-05-01T10:00:00"))
         (world_of [])) = Ok tt.
Proof.
  apply (published_envelope_is_audited quiet
           {| delivery_tag := 6; routing_key := "acme" |}
           (JStr "acme") hello "m3" "2024-05-01T10:00:00" (world_of []));
    first [reflexivity | intros n; reflexivity].
Defined.

(** ** The routes of [app/api/routers/messages.py] *)

Section Routes.

Variable E : Env.

Import DropboxManager AMQPManager MessagePublisher.

(** What [send_client_message] can answer. *)
Lemma send_client_message_answers c m w :
  fst (send_client_message E c m w) = Raise (MessageLimitExceededException c)
  ∨ fst (send_client_message E c m w) = Ok JNull
  ∨ ∃ id now,
      fst (send_client_message E c m w)
      = Ok (sent_receipt "client_id" (JStr id) c (JStr now)).
Proof.
  rewrite send_client_message_run. cbv zeta.
  destruct (fst (check_message_limit E c w)) as [[|]|]; [|by left..].
  destruct (dropbox_up E _); [|by right; left].
  destruct (fst (publish_client_message E c _ _)) as [[|]|];
    [|by right; left..].
  right. right. by eexists _, _.
Qed.

(** What the publisher's [send_notification] can answer. *)
Lemma send_notification_answers c notification_type content priority w :
  fst (send_notification E c notification_type content priority w) = Ok JNull
  ∨ ∃ id now,
      fst (send_notification E c notification_type content priority w)
      = Ok (sent_receipt "client_id" (JStr id) c (JStr now)).
Proof.
  unfold send_notification, try_except, bind, new_uuid, utcnow.
  rewrite upload_json_run. unfold publish_client_message.
  destruct (dropbox_up E _); simpl;
    match goal with |- context [publish_message E ?x ?k ?msg ?p ?w0] =>
      destruct (publish_message_total E x k msg p w0) as [ok Hp];
      destruct (publish_message E x k msg p w0) as [r w3] eqn:Hpub
    end;
    simpl in Hp; subst r; simpl; (destruct ok; simpl; [|by left]);
    right; by eexists _, _.
Qed.

(** What the publisher's [get_message_stats] can answer. *)
Lemma get_message_stats_answers c w :
  fst (get_message_stats E c w) = Ok JNull
  ∨ ∃ entry stats, fst (get_message_stats E c w) = Ok (JDict (entry :: stats)).
Proof.
  unfold get_message_stats, try_except, bind, lift, py_get.
  destruct (get_client_metadata E c w) as [[metadata|e] w1]; simpl; [|by left].
  destruct (truthy metadata); simpl; [|by left].
  destruct metadata; simpl; try by left.
  destruct (py_rsub_int _ _); simpl; [|by left].
  right. by eexists _, _.
Qed.

(** The route [POST /messages/send] answers 201 with the identifier, the
    client and the timestamp of the receipt when [send_client_message]
    returns one, and 429 when it raises [MessageLimitExceededException].
    When [send_client_message] returns [None] the route raises its 400
    inside its own [try], where [except Exception] catches it: the client is
    answered 500 with the text of the 400 in the detail, never 400.  The
    route itself calls no service. *)
Theorem send_route_statuses (message_data : MessageCreate) (w : World) :
  let c := mc_client_id message_data in
  let served := send_client_message E c message_data w in
  let answer := MessagesRouter.send_message E message_data w in
  snd answer = snd served ∧
  ((fst served = Raise (MessageLimitExceededException c) ∧
    fst answer
    = inr (HTTPException 429 (StrOfExn (MessageLimitExceededException c)))) ∨
   (fst served = Ok JNull ∧
    fst answer
    = inr (HTTPException 500
             (Prefixed "Error sending message: "
                (StrOfHTTP 400 (Text "Failed to send message"))))) ∨
   (∃ id now,
      fst served = Ok (sent_receipt "client_id" (JStr id) c (JStr now)) ∧
      fst answer
      = inl (JSONResponse 201
               (JDict [ ("message", JStr "Message sent successfully");
                        ("message_id", JStr id);
                        ("client_id", c);
                        ("timestamp", JStr now) ])))) ∧
  status_of (fst answer) ≠ 400.
Proof.
  intros c served answer. subst answer served.
  unfold MessagesRouter.send_message, MessagesRouter.route_try,
    MessagesRouter.route_bind, MessagesRouter.service. fold c.
  destruct (send_client_message_answers c message_data w)
    as [H|[H|(id & now & H)]];
    destruct (send_client_message E c message_data w) as [r w1];
    simpl in H; subst r; simpl.
  - split; [done|]. split; [by left | done].
  - split; [done|]. split; [by right; left | done].
  - split; [done|]. split; [|done]. right. right. by exists id, now.
Qed.

(** The route [GET /messages/{client_id}/stats] lets its own 404 through:
    it answers 404 when [get_message_stats] returns [None] and 200 with the
    statistics otherwise, and nothing else.  The metadata of a client that
    cannot be read, because Dropbox refuses the download or has no such
    file, is one of the cases answered 404 "Client not found". *)
Theorem stats_route_statuses (c : json) (w : World) :
  let served := get_message_stats E c w in
  let answer := MessagesRouter.get_message_stats E c w in
  snd answer = snd served ∧
  ((fst served = Ok JNull ∧
    fst answer = inr (HTTPException 404 (Text "Client not found"))) ∨
   (∃ entry stats,
      fst served = Ok (JDict (entry :: stats)) ∧
      fst answer = inl (PlainBody (JDict (entry :: stats))))) ∧
  (dropbox_up E (clock w) = false ∨ files w !! metadata_path E c = None →
   status_of (fst answer) = 404).
Proof.
  intros served answer. subst answer served.
  unfold MessagesRouter.get_message_stats, MessagesRouter.route_try,
    MessagesRouter.route_bind, MessagesRouter.service.
  pose proof (get_message_stats_run E c w) as Hrun. cbv zeta in Hrun.
  destruct (get_message_stats_answers c w) as [H|(entry & stats & H)];
    destruct (get_message_stats E c w) as [r w1];
    simpl in H; subst r; simpl.
  - split; [done|]. split; [by left | done].
  - split; [done|]. split; [right; by exists entry, stats|].
    intros Hun. destruct (metadata_read_unreadable E c w Hun) as [Hread _].
    rewrite Hread in Hrun. discriminate Hrun.
Qed.

(** The routes [POST /messages/{message_id}/resend] and
    [POST /messages/send-notification] have the one clause [except
    Exception], which catches the 400 they raise themselves: a resend that
    returns [False] and a notification that returns [None] are answered 500
    with the text of the 400 in the detail.  Otherwise the answers are 200
    and 201.  Neither route calls a service itself. *)
Theorem caught_400_is_answered_500 (message_id c notification_type content
    priority : json) (w : World) :
  let resent := resend_failed_message E message_id c w in
  let resend := MessagesRouter.resend_failed_message E message_id c w in
  let notified := send_notification E c notification_type content priority w in
  let notify :=
    MessagesRouter.send_notification E c notification_type content priority w in
  (snd resend = snd resent ∧
   ((fst resent = Ok true ∧
     fst resend
     = inl (JSONResponse 200 (JDict [("message", JStr "Message resent successfully")])))
    ∨
    (fst resent = Ok false ∧
     fst resend
     = inr (HTTPException 500
              (Prefixed "Error resending message: "
                 (StrOfHTTP 400 (Text "Failed to resend message"))))))) ∧
  (snd notify = snd notified ∧
   ((∃ id now,
       fst notified = Ok (sent_receipt "client_id" (JStr id) c (JStr now)) ∧
       fst notify
       = inl (JSONResponse 201
                (JDict [ ("message", JStr "Notification sent successfully");
                         ("message_id", JStr id);
                         ("client_id", c);
                         ("timestamp", JStr now) ])))
    ∨
    (fst notified = Ok JNull ∧
     fst notify
     = inr (HTTPException 500
              (Prefixed "Error sending notification: "
                 (StrOfHTTP 400 (Text "Failed to send notification"))))))).
Proof.
  intros resent resend notified notify. subst resent resend notified notify. split.
  - unfold MessagesRouter.resend_failed_message, MessagesRouter.route_try,
      MessagesRouter.route_bind, MessagesRouter.service.
    assert (∃ b, fst (resend_failed_message E message_id c w) = Ok b) as [b Hb].
    { unfold resend_failed_message, try_except.
      match goal with |- context [match ?body w with _ => _ end] =>
        destruct (body w) as [[b|e] w1] end; simpl; eauto. }
    destruct (resend_failed_message E message_id c w) as [r w1].
    simpl in Hb. subst r. destruct b; simpl; (split; [done|]); [by left | by right].
  - unfold MessagesRouter.send_notification, MessagesRouter.route_try,
      MessagesRouter.route_bind, MessagesRouter.service.
    destruct (send_notification_answers c notification_type content priority w)
      as [H|(id & now & H)];
      destruct (send_notification E c notification_type content priority w)
        as [r w1];
      simpl in H; subst r; simpl.
    + split; [done|]. by right.
    + split; [done|]. left. by exists id, now.
Qed.

End Routes.

(** ** Uploading a file, in one call or in a session *)

Section Upload.

Variable U : UploadEnv.

Import DropboxUpload.

Local Open Scope nat_scope.

Lemma upload_session_loop_done fuel data path sid offset cursor t :
  length data ≤ offset →
  upload_session_loop U fuel data path sid offset cursor t = (Some true, t).
Proof.
  intros H. assert ((offset <? length data) = false) as Hlt
    by (apply Nat.ltb_ge; lia).
  destruct fuel; simpl; by rewrite Hlt.
Qed.

Lemma cursors_from_last sent calls c :
  cursors_from sent (calls ++ [c]) →
  match c with
  | files_upload_session_append_v2 _ _ offset
  | files_upload_session_finish _ _ offset _ =>
      offset = sent + length (concat (map sent_bytes calls))
  | _ => True
  end.
Proof.
  revert sent. induction calls as [|a calls IH]; intros sent; simpl.
  - intros [H _]. destruct c; try done; lia.
  - intros [_ H]. apply IH in H. rewrite length_app.
    destruct c; try done; lia.
Qed.

(** The loop of [_upload_large_file], from any turn on. *)
Lemma upload_session_loop_spec data path sid fuel :
  ∀ offset cursor t,
    0 < chunk_size U → offset < length data → length data - offset ≤ fuel →
    ∃ b appends c,
      upload_session_loop U fuel data path sid offset cursor t
      = (Some b, t ++ taken appends ++ [(c, b)]) ∧
      Forall (in_session sid) appends ∧
      Forall (λ a, length (sent_bytes a) = chunk_size U) appends ∧
      cursors_from cursor (appends ++ [c]) ∧
      (b = true →
       ∃ last offset',
         c = files_upload_session_finish last sid offset' path ∧
         0 < length last ≤ chunk_size U ∧
         concat (map sent_bytes (appends ++ [c])) = drop offset data).
Proof.
  induction fuel as [|fuel IH]; intros offset cursor t Hcs Hlt Hfuel; [lia|].
  cbn [upload_session_loop].
  assert ((offset <? length data) = true) as -> by (apply Nat.ltb_lt; lia).
  set (size := Nat.min (chunk_size U) (length data - offset)).
  set (chunk := take size (drop offset data)).
  assert (length chunk = size) as Hchunk.
  { subst chunk. rewrite length_take, length_drop. subst size. lia. }
  destruct (length data <=? offset + size) eqn:Hfinal.
  - apply Nat.leb_le in Hfinal.
    assert (size = length data - offset) as Hsize by (subst size; lia).
    assert (chunk = drop offset data) as Hall.
    { subst chunk. apply take_ge. rewrite length_drop. lia. }
    unfold api. destruct (accepts U (length t)) eqn:Hok.
    + rewrite upload_session_loop_done by lia.
      exists true, [], (files_upload_session_finish chunk sid cursor path).
      split; [done|]. split; [constructor|]. split; [constructor|].
      split; [simpl; done|]. intros _. exists chunk, cursor.
      split; [done|]. split; [subst size; lia|].
      simpl. by rewrite app_nil_r.
    + exists false, [], (files_upload_session_finish chunk sid cursor path).
      split; [done|]. split; [constructor|]. split; [constructor|].
      split; [simpl; done|]. intros [=].
  - apply Nat.leb_gt in Hfinal.
    assert (size = chunk_size U) as Hsize by (subst size; lia).
    unfold api. destruct (accepts U (length t)) eqn:Hok.
    + destruct (IH (offset + size) (cursor + length chunk)
                  (t ++ [(files_upload_session_append_v2 chunk sid cursor, true)])
                  Hcs Hfinal ltac:(lia))
        as (b & appends & c & Hrun & Hin & Hlen & Hcur & Hdone).
      exists b, (files_upload_session_append_v2 chunk sid cursor :: appends), c.
      split; [rewrite Hrun; simpl; by rewrite <- !app_assoc|].
      split; [by constructor|]. split; [constructor; [simpl; lia | done]|].
      split; [simpl; done|].
      intros Hb. destruct (Hdone Hb) as (last & offset' & Hc & Hl & Hcat).
      exists last, offset'. split; [done|]. split; [done|].
      cbn [app map concat sent_bytes]. rewrite Hcat. subst chunk.
      rewrite <- (take_drop size (drop offset data)) at 2.
      by rewrite drop_drop.
    + exists false, [], (files_upload_session_append_v2 chunk sid cursor).
      split; [done|]. split; [constructor|]. split; [constructor|].
      split; [simpl; done|]. intros [=].
Qed.

(** [upload_file] sends a file of at most [chunk_size] bytes in the one
    call [files_upload], and answers what Dropbox answered.  A longer file
    goes through a session, and the loop ends (for a chunk size that is not
    zero).  The calls stop at the first one Dropbox refuses, and then the
    answer is [False] and no [finish] has been taken: nothing is committed.
    When the answer is [True], the calls are the start of the session, the
    appends to it and, last, the one [finish] that commits to
    [path/filename]; start and appends carry [chunk_size] bytes each, the
    finish what is left, at least one byte; the chunks put end to end are
    the file; and the offset of every cursor is the number of bytes sent
    before it. *)
Theorem upload_file_calls (fuel : nat) (file_data : list Byte.byte)
    (path filename : string) (t : Calls) :
  0 < chunk_size U →
  length file_data ≤ fuel →
  let run := upload_file U fuel file_data path filename t in
  let full_path := path +:+ "/" +:+ filename in
  let session_id := session_id_at U (length t) in
  let start := files_upload_session_start (take (chunk_size U) file_data) in
  (length file_data ≤ chunk_size U →
   run = (Some (accepts U (length t)),
          t ++ [(files_upload_bytes file_data full_path, accepts U (length t))])) ∧
  (chunk_size U < length file_data →
   run = (Some false, t ++ [(start, false)]) ∨
   ∃ b appends c,
     run = (Some b, t ++ taken (start :: appends) ++ [(c, b)]) ∧
     Forall (in_session session_id) appends ∧
     Forall (λ a, length (sent_bytes a) = chunk_size U) (start :: appends) ∧
     cursors_from 0 (start :: appends ++ [c]) ∧
     (b = true →
      ∃ last,
        c = files_upload_session_finish last session_id
              (length file_data - length last) full_path ∧
        0 < length last ≤ chunk_size U ∧
        concat (map sent_bytes (start :: appends ++ [c])) = file_data)).
Proof.
  intros Hcs Hfuel run full_path session_id start. subst run. unfold upload_file.
  fold full_path. split.
  - intros Hsmall.
    assert ((chunk_size U <? length file_data) = false) as ->
      by (apply Nat.ltb_ge; lia).
    reflexivity.
  - intros Hlarge.
    assert ((chunk_size U <? length file_data) = true) as ->
      by (apply Nat.ltb_lt; lia).
    unfold _upload_large_file, api. fold session_id. fold start.
    assert (length (take (chunk_size U) file_data) = chunk_size U) as Hfirst
      by (rewrite length_take; lia).
    destruct (accepts U (length t)); [|by left]. right.
    destruct (upload_session_loop_spec file_data full_path session_id fuel
                (chunk_size U) (length (take (chunk_size U) file_data))
                (t ++ [(start, true)]) Hcs Hlarge ltac:(lia))
      as (b & appends & c & Hrun & Hin & Hlen & Hcur & Hdone).
    exists b, appends, c.
    split; [rewrite Hrun; simpl; by rewrite <- !app_assoc|].
    split; [done|]. split; [by constructor|].
    split; [simpl; split; [done|]; exact Hcur|].
    intros Hb. destruct (Hdone Hb) as (last & offset' & Hc & Hl & Hcat).
    assert (concat (map sent_bytes (start :: appends ++ [c])) = file_data) as Hall.
    { cbn [map concat sent_bytes start]. rewrite Hcat. apply take_drop. }
    exists last. split; [|done].
    pose proof (cursors_from_last _ _ _ Hcur) as Hoff. rewrite Hc in Hoff.
    rewrite Hc. f_equal.
    apply (f_equal length) in Hall.
    cbn [map concat sent_bytes start] in Hall.
    rewrite map_app, concat_app, !length_app in Hall. rewrite Hc in Hall.
    simpl in Hall. rewrite app_nil_r in Hall. lia.
Qed.

End Upload.

Lemma upload_file_calls_witness :
  let U := {| chunk_size := 2; accepts := λ _, true; session_id_at := λ _, "s1" |} in
  let data := [Byte.x01; Byte.x02; Byte.x03; Byte.x04; Byte.x05] in
  DropboxUpload.upload_file U 5 data "/clients/acme/documents" "policy.pdf" []
  = (Some true,
     [ (files_upload_session_start [Byte.x01; Byte.x02], true);
       (files_upload_session_append_v2 [Byte.x03; Byte.x04] "s1" 2, true);
       (files_upload_session_finish [Byte.x05] "s1" 4
          "/clients/acme/documents/policy.pdf", true) ]).
Proof.
  intros U data.
  destruct (upload_file_calls U 5 data "/clients/acme/documents" "policy.pdf" [])
    as [_ Hlarge]; [simpl; lia | simpl; lia |].
  destruct Hlarge as [Hrefused | (b & appends & c & Hrun & _)]; [simpl; lia | |].
  - discriminate Hrefused.
  - reflexivity.
Defined.

(** ** Message types and client paths *)

Section Names.

Variable E : Env.

Import DropboxManager MessagePublisher.

(** [MessageType(v)] and [.value] undo each other: the value of a message
    type is looked up to that type, and a value that is looked up to a type
    is the string that is the value of the type.  So the types the
    publisher writes into an envelope are the ones a batch may name. *)
Theorem MessageType_round_trip :
  (∀ t, MessageType_of (JStr (MessageType_value t)) = Ok t) ∧
  (∀ v t, MessageType_of v = Ok t → v = JStr (MessageType_value t)).
Proof.
  split.
  - by intros [].
  - intros v t. unfold MessageType_of, py_eq_str.
    destruct v as [| | |s| |]; try discriminate.
    repeat (match goal with |- context [String.eqb s ?k] =>
              destruct (String.eqb_spec s k) as [->|_]; [by intros [= <-]|]
            end).
    discriminate.
Qed.

Lemma split_part sep part rest :
  contains sep part = false →
  split sep (part +:+ String sep rest) = part :: split sep rest.
Proof.
  intros H. induction part as [|a part IH]; simpl in *.
  - by rewrite Ascii.eqb_refl.
  - apply orb_false_iff in H as [Ha Hp]. rewrite Ha, (IH Hp). done.
Qed.

Lemma split_nonempty sep s : split sep s ≠ [].
Proof.
  destruct s as [|a s]; simpl; [done|].
  destruct (Ascii.eqb a sep); [done|]. by destruct (split sep s).
Qed.

Lemma split_head sep part rest :
  ∃ first parts,
    split sep (part +:+ String sep rest) = first :: parts ∧
    contains sep first = false ∧
    (contains sep part = true → first ≠ part).
Proof.
  induction part as [|a part IH]; simpl.
  - rewrite Ascii.eqb_refl. by exists EmptyString, (split sep rest).
  - destruct (Ascii.eqb a sep) eqn:Ha.
    + exists EmptyString, (split sep (part +:+ String sep rest)). by repeat split.
    + destruct IH as (first & parts & -> & Hf & Hne).
      exists (String a first), parts. simpl. rewrite Ha, Hf.
      split; [done|]. split; [done|]. intros Hp [= ->]. by apply Hne.
Qed.

(** [_extract_client_id_from_path] finds the client back in every path
    under the folder of a client, among them the paths of its metadata and
    of its archived messages, as long as the identifier has no slash in it.
    Of an identifier with a slash it returns another string, one without a
    slash.  A path with fewer than three parts, or whose second part is not
    [clients], gives [None]. *)
Theorem client_of_path (client_id rest : string) (id : json) :
  (contains "/" client_id = false →
   WebhookManager._extract_client_id_from_path
     ("/clients/" +:+ client_id +:+ "/" +:+ rest) = Some client_id ∧
   WebhookManager._extract_client_id_from_path (metadata_path E (JStr client_id))
   = Some client_id ∧
   WebhookManager._extract_client_id_from_path (archive_path E (JStr client_id) id)
   = Some client_id) ∧
  (contains "/" client_id = true →
   ∃ other,
     WebhookManager._extract_client_id_from_path
       ("/clients/" +:+ client_id +:+ "/" +:+ rest) = Some other ∧
     other ≠ client_id ∧ contains "/" other = false) ∧
  WebhookManager._extract_client_id_from_path ("/clients") = None ∧
  WebhookManager._extract_client_id_from_path ("/documents/" +:+ client_id) = None.
Proof.
  assert (∀ tail, ∃ first parts,
            split "/" (client_id +:+ "/" +:+ tail) = first :: parts ∧
            WebhookManager._extract_client_id_from_path
              ("/clients/" +:+ client_id +:+ "/" +:+ tail) = Some first) as Hex.
  { intros tail. destruct (split_head "/" client_id tail) as (first & parts & Hs & _).
    exists first, parts. split; [exact Hs|].
    unfold WebhookManager._extract_client_id_from_path.
    change (split "/" ("/clients/" +:+ client_id +:+ "/" +:+ tail))
      with ("" :: "clients" :: split "/" (client_id +:+ "/" +:+ tail)).
    change (client_id +:+ "/" +:+ tail) with (client_id +:+ String "/" tail).
    by rewrite Hs. }
  split; [|split; [|split]].
  - intros Hc.
    assert (∀ tail, WebhookManager._extract_client_id_from_path
                      ("/clients/" +:+ client_id +:+ "/" +:+ tail) = Some client_id)
      as Hall.
    { intros tail. destruct (Hex tail) as (first & parts & Hs & ->).
      change (client_id +:+ "/" +:+ tail) with (client_id +:+ String "/" tail) in Hs.
      rewrite (split_part _ _ _ Hc) in Hs. by injection Hs as <- _. }
    split; [apply Hall|]. split.
    + exact (Hall "metadata.json").
    + exact (Hall ("messages/" +:+ fstr E id +:+ ".json")).
  - intros Hc. destruct (Hex rest) as (first & parts & Hs & ->).
    destruct (split_head "/" client_id rest) as (first' & parts' & Hs' & Hf & Hne).
    change (client_id +:+ "/" +:+ rest) with (client_id +:+ String "/" rest) in Hs.
    rewrite Hs' in Hs. injection Hs as <- _.
    exists first'. split; [done|]. split; [by apply Hne | done].
  - reflexivity.
  - unfold WebhookManager._extract_client_id_from_path.
    change (split "/" ("/documents/" +:+ client_id))
      with ("" :: "documents" :: split "/" client_id).
    pose proof (split_nonempty "/" client_id).
    destruct (split "/" client_id); [done|]. reflexivity.
Qed.

End Names.

Lemma client_of_path_witness :
  WebhookManager._extract_client_id_from_path
    "/clients/acme/documents/policy.pdf" = Some "acme".
Proof.
  destruct (client_of_path quiet "acme" "documents/policy.pdf" JNull)
    as [Hplain _].
  destruct (Hplain eq_refl) as [Hpath _]. exact Hpath.
Defined.
